(** * Budget analysis engine of the transaction analyzer

    A shallow embedding of the pure-data core of the repository
    (overspending_analyzer.py, specialized_ai_roles.py,
    transaction_retriever.py, config.py, and the parts of
    daily_workflow.py and zen_analyzer.py that feed or mirror it) and
    the properties of it that the specification states.

    Numeric model.  Python floats are modelled as exact rationals [Q]:
    sums, quotients and comparisons are the mathematical ones, and the
    rounding error of binary64 arithmetic, infinities and NaN are outside
    the model.  A sample standard deviation is carried as its square (the
    sample variance, a rational); comparisons against it and roundings of
    it are computed exactly with the integer square root.

    Data model.  A pandas DataFrame is the list of its rows, in row order;
    a Python dict is the list of its items in insertion order; a dict used
    as a record of optional entries ([d.get(k, default)]) is a record of
    options. *)

From Stdlib Require Import ZArith QArith Qround Qabs Qminmax.
From Stdlib Require Import List String Ascii Bool Lia Lqa.
From Stdlib Require Import Permutation Sorted DecimalString.
Import ListNotations.

Local Open Scope string_scope.
Local Open Scope Z_scope.

(* ================================================================== *)
(** * Python builtins *)
(* ================================================================== *)

Module Py.

(** [x < y] on floats. *)
Definition Qlt_bool (x y : Q) : bool := negb (Qle_bool y x).

(** [int(x)]: truncation toward zero. *)
Definition int (x : Q) : Z := Z.quot (Qnum x) (Zpos (Qden x)).

(** [len(l)]. *)
Definition len {A : Type} (l : list A) : Z := Z.of_nat (List.length l).

(** [sum(l)], and pandas [Series.sum()]: left-to-right, starting at 0. *)
Definition sum (l : list Q) : Q := fold_left Qplus l 0%Q.

(** [max(l) if l else 0] on a list of ints. *)
Definition max_or_zero (l : list Z) : Z :=
  match l with
  | [] => 0
  | x :: l' => fold_left Z.max l' x
  end.

(** Nearest integer, ties to even: the rounding of [format] and of
    [round(2)]. *)
Definition round_half_even (x : Q) : Z :=
  let f := Qfloor x in
  match Qcompare (x - inject_Z f) (1 # 2) with
  | Lt => f
  | Gt => f + 1
  | Eq => if Z.even f then f else f + 1
  end.

(** Decimal digits of a natural number. *)
Definition digits (n : Z) : string :=
  NilZero.string_of_uint (N.to_uint (Z.to_N n)).

Fixpoint zeros (n : nat) : string :=
  match n with
  | O => ""
  | S n' => String "0" (zeros n')
  end.

(** [s.zfill(w)] for a digit string. *)
Definition zfill (w : nat) (s : string) : string :=
  zeros (w - String.length s) ++ s.

(** A decimal numeral with [prec] fractional digits from its sign and
    its digits [n], the magnitude scaled by [10 ^ prec]. *)
Definition format_fixed (prec : nat) (negative : bool) (n : Z) : string :=
  let ds := zfill (S prec) (digits n) in
  let k := (String.length ds - prec)%nat in
  (if negative then "-" else "")
  ++ substring 0 k ds
  ++ (if Nat.eqb prec 0 then "" else "." ++ substring k prec ds).

(** [f"{x:.<prec>f}"]: fixed-point formatting, correctly rounded. *)
Definition format_f (prec : nat) (x : Q) : string :=
  format_fixed prec (Qlt_bool x 0)
    (round_half_even (Qabs x * inject_Z (10 ^ Z.of_nat prec))).

(** [f"{x:.<prec>%}"]. *)
Definition format_pct (prec : nat) (x : Q) : string :=
  format_f prec (x * 100) ++ "%".

(** [str(n)] for an int. *)
Definition str_int (n : Z) : string :=
  (if n <? 0 then "-" else "") ++ digits (Z.abs n).

(** [s.lower()], on the ASCII letters; other bytes are kept. *)
Definition lower_ascii (c : ascii) : ascii :=
  let n := N_of_ascii c in
  if (65 <=? n)%N && (n <=? 90)%N then ascii_of_N (n + 32) else c.

Fixpoint lower (s : string) : string :=
  match s with
  | EmptyString => EmptyString
  | String c s' => String (lower_ascii c) (lower s')
  end.

(** The ASCII characters that [str.strip()] removes; the white space
    of Unicode outside ASCII is not modelled. *)
Definition is_space (c : ascii) : bool :=
  let n := N_of_ascii c in
  ((9 <=? n)%N && (n <=? 13)%N) || ((28 <=? n)%N && (n <=? 32)%N).

Fixpoint lstrip (s : string) : string :=
  match s with
  | EmptyString => EmptyString
  | String c s' => if is_space c then lstrip s' else s
  end.

Fixpoint rstrip (s : string) : string :=
  match s with
  | EmptyString => EmptyString
  | String c s' =>
      match rstrip s' with
      | EmptyString => if is_space c then EmptyString else String c EmptyString
      | t => String c t
      end
  end.

Definition strip (s : string) : string := rstrip (lstrip s).

(** [s.replace(c, '')] for a one-character [c]. *)
Fixpoint remove_char (c : ascii) (s : string) : string :=
  match s with
  | EmptyString => EmptyString
  | String d s' =>
      if Ascii.eqb c d then remove_char c s' else String d (remove_char c s')
  end.

(** [needle in s]. *)
Fixpoint contains (needle s : string) : bool :=
  if String.prefix needle s then true
  else match s with
       | EmptyString => false
       | String _ s' => contains needle s'
       end.

(** [sep.join(l)]. *)
Fixpoint join (sep : string) (l : list string) : string :=
  match l with
  | [] => ""
  | [x] => x
  | x :: l' => x ++ sep ++ join sep l'
  end.

(** [d.get(k, default)] on the items of a dict. *)
Fixpoint get {V : Type} (d : list (string * V)) (k : string) (default : V) : V :=
  match d with
  | [] => default
  | (k', v) :: d' => if String.eqb k' k then v else get d' k default
  end.

(** [min(a, b)] on floats: [a] unless [b] is smaller. *)
Definition min_Q (a b : Q) : Q := if Qlt_bool b a then b else a.

(** [o.get(k, default)] where the entry [k] of [o] is the option [o]. *)
Definition get_or {V : Type} (o : option V) (default : V) : V :=
  match o with
  | Some v => v
  | None => default
  end.

End Py.

(* ================================================================== *)
(** * Square roots of rationals, exactly *)
(* ================================================================== *)

Module Sqrt.

(** The value [sqrt v] for a rational [v >= 0] is never computed; these
    are the exact answers to the questions the code asks of it. *)

(** [sqrt v > t]. *)
Definition gt_bool (v t : Q) : bool :=
  Py.Qlt_bool t 0 || Py.Qlt_bool (t * t) v.

(** [sqrt v < t]. *)
Definition lt_bool (v t : Q) : bool :=
  Py.Qlt_bool 0 t && Py.Qlt_bool v (t * t).

(** [floor (sqrt v)]. *)
Definition floor (v : Q) : Z := Z.sqrt (Qfloor v).

(** [round_half_even (scale * sqrt v)], for [scale >= 0]. *)
Definition round_scaled (scale : Z) (v : Q) : Z :=
  let w := (inject_Z (4 * scale * scale) * v)%Q in
  let m := Z.sqrt (Qfloor w) in
  let tie := Qeq_bool (inject_Z (m * m)) w && Z.odd m in
  if tie then (if Z.even ((m - 1) / 2) then (m - 1) / 2 else (m + 1) / 2)
  else (m + 1) / 2.

(** [f"{sqrt v:.<prec>f}"]. *)
Definition format_f (prec : nat) (v : Q) : string :=
  Py.format_fixed prec false (round_scaled (10 ^ Z.of_nat prec) v).

End Sqrt.

(* ================================================================== *)
(** * pandas: timestamps, rows, frames, group-by *)
(* ================================================================== *)

Module Pd.

(** A [pandas.Timestamp], by its calendar fields. *)
Record Timestamp : Type := mkTimestamp {
  year : Z;
  month : Z;
  day : Z;
  hour : Z;
  minute : Z;
  second : Z
}.

(** [ts.date()]. *)
Definition date_of (ts : Timestamp) : Z * Z * Z := (year ts, month ts, day ts).

(** Days from 1970-01-01 to the civil date, proleptic Gregorian. *)
Definition days_from_civil (y m d : Z) : Z :=
  let y' := if m <=? 2 then y - 1 else y in
  let era := y' / 400 in
  let yoe := y' - era * 400 in
  let doy := (153 * (if m <=? 2 then m + 9 else m - 3) + 2) / 5 + d - 1 in
  let doe := yoe * 365 + yoe / 4 - yoe / 100 + doy in
  era * 146097 + doe - 719468.

(** [ts.weekday()]: Monday is 0, Sunday is 6. *)
Definition weekday (ts : Timestamp) : Z :=
  (days_from_civil (year ts) (month ts) (day ts) + 3) mod 7.

(** [ts.day_name()]. *)
Definition day_name (ts : Timestamp) : string :=
  nth (Z.to_nat (weekday ts))
      ["Monday"; "Tuesday"; "Wednesday"; "Thursday"; "Friday"; "Saturday";
       "Sunday"] "".

(** [ts.strftime('%Y-%m-%d')]. *)
Definition strftime_ymd (ts : Timestamp) : string :=
  Py.zfill 4 (Py.digits (year ts)) ++ "-" ++ Py.zfill 2 (Py.digits (month ts))
  ++ "-" ++ Py.zfill 2 (Py.digits (day ts)).

Definition lex (c1 c2 : comparison) : comparison :=
  match c1 with
  | Eq => c2
  | _ => c1
  end.

(** Order of calendar dates. *)
Definition date_compare (a b : Z * Z * Z) : comparison :=
  let '(y1, m1, d1) := a in
  let '(y2, m2, d2) := b in
  lex (y1 ?= y2) (lex (m1 ?= m2) (d1 ?= d2)).

(** Order of timestamps. *)
Definition ts_compare (a b : Timestamp) : comparison :=
  lex (date_compare (date_of a) (date_of b))
      (lex (hour a ?= hour b)
           (lex (minute a ?= minute b) (second a ?= second b))).

(** One row of the transaction frame, with the columns the normalizer
    produces.  [Is_Expense], [Abs_Amount] and [Day_of_Week] are columns
    of their own, as in the frame. *)
Record Row : Type := mkRow {
  Date : Timestamp;
  Description : string;
  Category : string;
  Amount : Q;
  Account : string;
  Is_Expense : bool;
  Abs_Amount : Q;
  Day_of_Week : string
}.

Definition DataFrame : Type := list Row.

(** [df.empty]. *)
Definition empty (df : DataFrame) : bool :=
  match df with
  | [] => true
  | _ => false
  end.

(** [df[df['Is_Expense']]]. *)
Definition expenses_of (df : DataFrame) : DataFrame := filter Is_Expense df.

Section GroupBy.

Variable K : Type.
Variable cmp : K -> K -> comparison.

Definition same_key (k k' : K) : bool :=
  match cmp k k' with
  | Eq => true
  | _ => false
  end.

(** The strict order of the keys. *)
Definition key_lt (a b : K) : Prop := cmp a b = Lt.

(** Insertion of a key in a strictly increasing list of keys. *)
Fixpoint insert_key (k : K) (l : list K) : list K :=
  match l with
  | [] => [k]
  | x :: l' =>
      match cmp k x with
      | Lt => k :: l
      | Eq => l
      | Gt => x :: insert_key k l'
      end
  end.

(** The distinct keys, in increasing order: the index of a group-by. *)
Definition sorted_keys (l : list K) : list K := fold_right insert_key [] l.

(** [df.groupby(key)]: for each key in increasing order, the rows of
    that key in row order. *)
Definition groupby (key : Row -> K) (df : DataFrame) : list (K * DataFrame) :=
  map (fun k => (k, filter (fun r => same_key (key r) k) df))
      (sorted_keys (map key df)).

End GroupBy.

Arguments same_key {K} cmp k k'.
Arguments key_lt {K} cmp a b.
Arguments insert_key {K} cmp k l.
Arguments sorted_keys {K} cmp l.
Arguments groupby {K} cmp key df.

(** [df.groupby(key)[col].sum()]. *)
Definition groupby_sum {K : Type} (cmp : K -> K -> comparison)
    (key : Row -> K) (col : Row -> Q) (df : DataFrame) : list (K * Q) :=
  map (fun g => (fst g, Py.sum (map col (snd g)))) (groupby cmp key df).

(** [df.groupby(key).size()]. *)
Definition groupby_size {K : Type} (cmp : K -> K -> comparison)
    (key : Row -> K) (df : DataFrame) : list (K * Z) :=
  map (fun g => (fst g, Py.len (snd g))) (groupby cmp key df).

(** [s.mean()] of a non-empty series. *)
Definition mean (l : list Q) : Q := (Py.sum l / inject_Z (Py.len l))%Q.

(** Square of [s.std()]: the sample variance (ddof = 1), for a series of
    at least two values. *)
Definition var (l : list Q) : Q :=
  let m := mean l in
  (Py.sum (map (fun x => (x - m) * (x - m)) l) / inject_Z (Py.len l - 1))%Q.

(** [s.max()] of a non-empty series. *)
Definition series_max (l : list Q) : Q :=
  match l with
  | [] => 0%Q
  | x :: l' => fold_left (fun a b => if Py.Qlt_bool a b then b else a) l' x
  end.

(** [s.idxmax()]: the label of the first maximum. *)
Definition idxmax {K : Type} (default : K) (s : list (K * Q)) : K :=
  match s with
  | [] => default
  | x :: s' =>
      fst (fold_left (fun a b => if Py.Qlt_bool (snd a) (snd b) then b else a)
                     s' x)
  end.

End Pd.

(* ================================================================== *)
(** * config.py *)
(* ================================================================== *)

Module config.

Definition EXPENSE_CATEGORIES : list (string * list string) :=
  [ ("Food & Dining",
     ["restaurant"; "food"; "dining"; "uber eats"; "doordash"; "grubhub";
      "starbucks"; "coffee"]);
    ("Transportation",
     ["uber"; "lyft"; "gas"; "parking"; "metro"; "bus"; "taxi"; "car"]);
    ("Shopping", ["amazon"; "target"; "walmart"; "shopping"; "retail"; "store"]);
    ("Entertainment",
     ["netflix"; "spotify"; "movie"; "theater"; "gaming"; "entertainment"]);
    ("Utilities", ["electric"; "water"; "internet"; "phone"; "cable"; "utility"]);
    ("Healthcare",
     ["doctor"; "pharmacy"; "medical"; "health"; "hospital"; "dental"]);
    ("Subscriptions", ["subscription"; "monthly"; "annual"; "premium"; "plus"]);
    ("Miscellaneous", []) ].

Definition DAILY_BUDGET_LIMITS : list (string * Q) :=
  [ ("Food & Dining", 50.0%Q);
    ("Transportation", 30.0%Q);
    ("Shopping", 40.0%Q);
    ("Entertainment", 25.0%Q);
    ("Utilities", 15.0%Q);
    ("Healthcare", 20.0%Q);
    ("Subscriptions", 10.0%Q);
    ("Miscellaneous", 35.0%Q) ].

Definition OVERSPENDING_THRESHOLD : Q := 1.2.
Definition WARNING_THRESHOLD : Q := 0.8.

End config.

(* ================================================================== *)
(** * overspending_analyzer.py *)
(* ================================================================== *)

Module OverspendingAnalyzer.

(** The analyzer object: the fields [__init__] sets. *)
Record t : Type := mk {
  budget_limits : list (string * Q);
  overspending_threshold : Q;
  warning_threshold : Q
}.

(** [OverspendingAnalyzer()]. *)
Definition init : t :=
  mk config.DAILY_BUDGET_LIMITS config.OVERSPENDING_THRESHOLD
     config.WARNING_THRESHOLD.

(** The per-category dict.  The keys ['severity'] and ['savings'] exist
    only in some entries, hence the options. *)
Record CategoryAnalysis : Type := mkCategoryAnalysis {
  category : string;
  spent : Q;
  budget : Q;
  percentage_used : Q;
  over_amount : Q;
  transaction_count : Z;
  status : string;
  severity : option string;
  savings : option Q
}.

(** The analysis dict. *)
Record Analysis : Type := mkAnalysis {
  date : string;
  total_spent : Q;
  total_transactions : Z;
  categories_analyzed : Z;
  overspending_alerts : list CategoryAnalysis;
  warning_alerts : list CategoryAnalysis;
  within_budget : list CategoryAnalysis;
  recommendations : list string;
  spending_score : Z;
  risk_level : string
}.

Definition _calculate_severity (percentage_used : Q) : string :=
  if Qle_bool 200 percentage_used then "Critical"
  else if Qle_bool 150 percentage_used then "High"
  else if Qle_bool 120 percentage_used then "Medium"
  else "Low".

(** [alert['severity'] == s]. *)
Definition severity_is (alert : CategoryAnalysis) (s : string) : bool :=
  match severity alert with
  | Some x => String.eqb x s
  | None => false
  end.

(** The deduction of one overspending alert. *)
Definition deduction (alert : CategoryAnalysis) : Z :=
  if severity_is alert "Critical" then 30
  else if severity_is alert "High" then 20
  else if severity_is alert "Medium" then 15
  else 10.

Definition _calculate_spending_score (self : t) (analysis : Analysis) : Z :=
  let base_score :=
    fold_left (fun score alert => score - deduction alert)
              (overspending_alerts analysis) 100 in
  let base_score := base_score - Py.len (warning_alerts analysis) * 5 in
  let base_score := base_score + Py.len (within_budget analysis) * 3 in
  let total_budget := Py.sum (map snd (budget_limits self)) in
  let base_score :=
    if Py.Qlt_bool 0 total_budget
       && Py.Qlt_bool (total_spent analysis) (total_budget * 0.8)
    then
      let under_budget_bonus :=
        Z.min 15 (Py.int ((total_budget - total_spent analysis)
                          / total_budget * 20)) in
      base_score + under_budget_bonus
    else base_score in
  Z.min 100 (Z.max 0 base_score).

Definition _determine_risk_level (score : Z) : string :=
  if 80 <=? score then "Excellent"
  else if 60 <=? score then "Good"
  else if 40 <=? score then "Fair"
  else if 20 <=? score then "Poor"
  else "Critical".

(** [min(l, key=lambda x: x['percentage_used'])]: the first minimum. *)
Definition min_by_percentage (x : CategoryAnalysis) (l : list CategoryAnalysis)
    : CategoryAnalysis :=
  fold_left
    (fun best y =>
       if Py.Qlt_bool (percentage_used y) (percentage_used best) then y
       else best)
    l x.

Definition overspending_recommendation (alert : CategoryAnalysis) : string :=
  if severity_is alert "Critical" then
    "🚨 URGENT: " ++ category alert ++ " spending is "
    ++ Py.format_f 0 (percentage_used alert) ++ "% "
    ++ "of budget. Consider eliminating non-essential "
    ++ Py.lower (category alert) ++ " "
    ++ "expenses immediately."
  else
    "⚠️ Reduce " ++ category alert ++ " spending by $"
    ++ Py.format_f 2 (over_amount alert) ++ " "
    ++ "to stay within budget.".

Definition warning_recommendation (warning : CategoryAnalysis) : string :=
  "📊 Monitor " ++ category warning ++ " spending closely - you've used "
  ++ Py.format_f 0 (percentage_used warning) ++ "% of your budget.".

Definition best_recommendation (best_category : CategoryAnalysis) : string :=
  "✅ Great job staying within budget for " ++ category best_category ++ "! "
  ++ "You saved $" ++ Py.format_f 2 (Py.get_or (savings best_category) 0%Q)
  ++ ".".

Definition daily_limit_tip : string :=
  "🎯 Consider implementing a daily spending limit and tracking expenses in real-time.".

Definition stricter_limits_tip : string :=
  "💡 Review your spending categories and consider setting stricter limits for problem areas.".

Definition _generate_recommendations (analysis : Analysis) : list string :=
  let recommendations :=
    map overspending_recommendation (overspending_alerts analysis) in
  let recommendations :=
    (recommendations ++ map warning_recommendation (warning_alerts analysis))%list in
  let recommendations :=
    match within_budget analysis with
    | [] => recommendations
    | x :: l =>
        (recommendations ++ [best_recommendation (min_by_percentage x l)])%list
    end in
  if String.eqb (risk_level analysis) "High Risk" then
    (recommendations ++ [daily_limit_tip])%list
  else if String.eqb (risk_level analysis) "Medium Risk" then
    (recommendations ++ [stricter_limits_tip])%list
  else recommendations.

Definition _empty_analysis : Analysis :=
  {| date := "No Data";
     total_spent := 0;
     total_transactions := 0;
     categories_analyzed := 0;
     overspending_alerts := [];
     warning_alerts := [];
     within_budget := [];
     recommendations := ["No transaction data available for analysis."];
     spending_score := 0;
     risk_level := "Unknown" |}.

(** Assignments to the list entries of the analysis dict. *)
Definition append_overspending (a : Analysis) (c : CategoryAnalysis) : Analysis :=
  mkAnalysis (date a) (total_spent a) (total_transactions a)
    (categories_analyzed a) (overspending_alerts a ++ [c])%list
    (warning_alerts a) (within_budget a) (recommendations a)
    (spending_score a) (risk_level a).

Definition append_warning (a : Analysis) (c : CategoryAnalysis) : Analysis :=
  mkAnalysis (date a) (total_spent a) (total_transactions a)
    (categories_analyzed a) (overspending_alerts a)
    (warning_alerts a ++ [c])%list (within_budget a) (recommendations a)
    (spending_score a) (risk_level a).

Definition append_within (a : Analysis) (c : CategoryAnalysis) : Analysis :=
  mkAnalysis (date a) (total_spent a) (total_transactions a)
    (categories_analyzed a) (overspending_alerts a) (warning_alerts a)
    (within_budget a ++ [c])%list (recommendations a)
    (spending_score a) (risk_level a).

Definition set_spending_score (a : Analysis) (s : Z) : Analysis :=
  mkAnalysis (date a) (total_spent a) (total_transactions a)
    (categories_analyzed a) (overspending_alerts a) (warning_alerts a)
    (within_budget a) (recommendations a) s (risk_level a).

Definition set_risk_level (a : Analysis) (r : string) : Analysis :=
  mkAnalysis (date a) (total_spent a) (total_transactions a)
    (categories_analyzed a) (overspending_alerts a) (warning_alerts a)
    (within_budget a) (recommendations a) (spending_score a) r.

Definition set_recommendations (a : Analysis) (r : list string) : Analysis :=
  mkAnalysis (date a) (total_spent a) (total_transactions a)
    (categories_analyzed a) (overspending_alerts a) (warning_alerts a)
    (within_budget a) r (spending_score a) (risk_level a).

(** The body of the loop over [category_spending.items()]. *)
Definition analyze_category (self : t) (expenses : Pd.DataFrame)
    (analysis : Analysis) (item : string * Q) : Analysis :=
  let '(category, spent) := item in
  let budget_limit := Py.get (budget_limits self) category 0%Q in
  if Qeq_bool budget_limit 0 then analysis
  else
    let percentage_used := (spent / budget_limit * 100)%Q in
    let over_amount := (spent - budget_limit)%Q in
    let category_analysis status severity savings :=
      mkCategoryAnalysis category spent budget_limit percentage_used
        over_amount
        (Py.len (filter (fun r => String.eqb (Pd.Category r) category) expenses))
        status severity savings in
    if Qle_bool (overspending_threshold self * 100) percentage_used then
      append_overspending analysis
        (category_analysis "OVERSPENDING"
           (Some (_calculate_severity percentage_used)) None)
    else if Qle_bool (warning_threshold self * 100) percentage_used then
      append_warning analysis
        (category_analysis "WARNING" (Some "Medium") None)
    else
      append_within analysis
        (category_analysis "WITHIN_BUDGET" None
           (Some (budget_limit - spent)%Q)).

(** [analyze_daily_overspending].  The local [budget_used_percentage] of
    the source is never read and is left out. *)
Definition analyze_daily_overspending (self : t) (df : Pd.DataFrame) : Analysis :=
  match df with
  | [] => _empty_analysis
  | first :: _ =>
      let expenses := Pd.expenses_of df in
      let category_spending :=
        Pd.groupby_sum String.compare Pd.Category Pd.Abs_Amount expenses in
      let analysis :=
        {| date := Pd.strftime_ymd (Pd.Date first);
           total_spent := Py.sum (map Pd.Abs_Amount expenses);
           total_transactions := Py.len expenses;
           categories_analyzed := Py.len category_spending;
           overspending_alerts := [];
           warning_alerts := [];
           within_budget := [];
           recommendations := [];
           spending_score := 0;
           risk_level := "Unknown" |} in
      let analysis :=
        fold_left (analyze_category self expenses) category_spending analysis in
      let analysis :=
        set_spending_score analysis (_calculate_spending_score self analysis) in
      let analysis :=
        set_risk_level analysis
          (_determine_risk_level (spending_score analysis)) in
      set_recommendations analysis (_generate_recommendations analysis)
  end.

End OverspendingAnalyzer.

(* ================================================================== *)
(** * specialized_ai_roles.py: the risk officer *)
(* ================================================================== *)

Module RiskOfficerAnalysis.

Record RiskAssessment : Type := mkRiskAssessment {
  risk_level : string;
  confidence : Q;
  factors : list string;
  recommendations : list string;
  severity_score : Z
}.

(** [self.risk_thresholds]. *)
Record t : Type := mk {
  high_volatility : Q;
  concentration_risk : Q;
  trend_deterioration : Q;
  emergency_fund_ratio : Q;
  debt_service_ratio : Q
}.

(** [RiskOfficerAnalysis()]. *)
Definition init : t := mk 100.0 0.4 20.0 0.1 0.3.

(** The entries of [analysis_results] that the checks read; an absent key
    is [None]. *)
Record TrendData : Type := mkTrendData {
  trend_direction : option string;
  trend_slope : option Q;
  average_daily : option Q
}.

Record TrendAnalysis : Type := mkTrendAnalysis {
  category_trends : option (list (string * TrendData))
}.

Record CashFlowHealth : Type := mkCashFlowHealth {
  net_cash_flow : option Q;
  expense_to_income_ratio : option Q
}.

Record AnalysisResults : Type := mkAnalysisResults {
  trend_analysis : option TrendAnalysis;
  cash_flow_health : option CashFlowHealth
}.

(** The dict a check returns.  [detail] holds the keys that are specific
    to the check; the early-return dicts do not have them, and they are
    read only when [is_risk] holds. *)
Record Risk (D : Type) : Type := mkRisk {
  is_risk : bool;
  severity : Z;
  detail : option D;
  risk_recommendations : list string
}.

Arguments mkRisk {D} is_risk severity detail risk_recommendations.
Arguments is_risk {D} r.
Arguments severity {D} r.
Arguments detail {D} r.
Arguments risk_recommendations {D} r.

(** [{'is_risk': False, 'severity': 0}]. *)
Definition no_risk {D : Type} : Risk D := mkRisk false 0 None [].

(** Detail: the square of ['score'], the volatility. *)
Definition _assess_spending_volatility (self : t) (df : Pd.DataFrame) : Risk Q :=
  if Pd.empty df || (Py.len df <? 7) then no_risk
  else
    let expenses := Pd.expenses_of df in
    let daily_spending :=
      map snd (Pd.groupby_sum Pd.date_compare
                 (fun r => Pd.date_of (Pd.Date r)) Pd.Abs_Amount expenses) in
    if Py.len daily_spending <? 3 then no_risk
    else
      let volatility_sq := Pd.var daily_spending in
      let mean_spending := Pd.mean daily_spending in
      let is_high_risk := Sqrt.gt_bool volatility_sq (high_volatility self) in
      (* int(coefficient_of_variation * 100) *)
      let scaled_cv :=
        if Py.Qlt_bool 0 mean_spending
        then Sqrt.floor (10000 * volatility_sq
                         / (mean_spending * mean_spending))%Q
        else 0 in
      let severity := Z.min 100 scaled_cv in
      mkRisk is_high_risk severity (Some volatility_sq)
        (if is_high_risk then
           ["📊 Implement daily spending budgets to reduce volatility";
            "🎯 Set up spending alerts for unusual transaction amounts";
            "📅 Create a weekly spending plan to smooth out daily variations"]
         else []).

(** Detail: ['category'] and ['percentage']. *)
Definition _assess_category_concentration (self : t) (df : Pd.DataFrame)
    : Risk (string * Q) :=
  if Pd.empty df then no_risk
  else
    let expenses := Pd.expenses_of df in
    let category_totals :=
      Pd.groupby_sum String.compare Pd.Category Pd.Abs_Amount expenses in
    let total_spending := Py.sum (map snd category_totals) in
    if Qeq_bool total_spending 0 then no_risk
    else
      let max_category := Pd.idxmax "" category_totals in
      let max_percentage :=
        (Pd.series_max (map snd category_totals) / total_spending)%Q in
      let is_concentrated :=
        Py.Qlt_bool (concentration_risk self) max_percentage in
      let severity := Z.min 100 (Py.int (max_percentage * 150)) in
      mkRisk is_concentrated severity
        (Some (max_category, (max_percentage * 100)%Q))
        (if is_concentrated then
           ["💰 Diversify spending away from " ++ max_category;
            "🔍 Review if high {max_category} spending is necessary";
            "📋 Set stricter limits for over-concentrated categories"]
         else []).

(** One entry of [deteriorating_categories]. *)
Record Deteriorating : Type := mkDeteriorating {
  det_category : string;
  det_slope : Q;
  det_daily_average : Q
}.

(** Detail: ['trend_description']. *)
Definition _assess_spending_trends (self : t) (analysis_results : AnalysisResults)
    : Risk string :=
  let category_trends :=
    match trend_analysis analysis_results with
    | Some ta => Py.get_or (category_trends ta) []
    | None => []
    end in
  let '(deteriorating_categories, total_negative_slope) :=
    fold_left
      (fun (st : list Deteriorating * Q) (item : string * TrendData) =>
         let '(category, trend_data) := item in
         match trend_direction trend_data with
         | Some "increasing" =>
             let slope := Py.get_or (trend_slope trend_data) 0%Q in
             if Py.Qlt_bool 10 slope then
               ((fst st ++ [mkDeteriorating category slope
                              (Py.get_or (average_daily trend_data) 0%Q)])%list,
                (snd st + slope)%Q)
             else st
         | _ => st
         end)
      category_trends ([], 0%Q) in
  let is_risk :=
    (2 <=? Py.len deteriorating_categories)
    || Py.Qlt_bool 50 total_negative_slope in
  let severity := Z.min 100 (Py.int total_negative_slope) in
  mkRisk is_risk severity
    (Some (Py.str_int (Py.len deteriorating_categories)
           ++ " categories trending upward"))
    (if is_risk then
       (map (fun cat =>
               ("📈 Address increasing spending in " ++ det_category cat)%string)
            (firstn 3 deteriorating_categories)
        ++ ["🎯 Implement trend-based spending alerts";
            "📊 Review monthly to catch negative trends early"])%list
     else []).

(** Detail: ['description']. *)
Definition _assess_liquidity_risk (self : t) (analysis_results : AnalysisResults)
    : Risk string :=
  let net_flow :=
    match cash_flow_health analysis_results with
    | Some cf => Py.get_or (net_cash_flow cf) 0%Q
    | None => 0%Q
    end in
  let expense_ratio :=
    match cash_flow_health analysis_results with
    | Some cf => Py.get_or (expense_to_income_ratio cf) 0%Q
    | None => 0%Q
    end in
  let negative_cash_flow := Py.Qlt_bool net_flow 0 in
  let high_expense_ratio := Py.Qlt_bool 0.9 expense_ratio in
  let is_risk := negative_cash_flow || high_expense_ratio in
  let severity := 0 in
  let severity := if negative_cash_flow then severity + 50 else severity in
  let severity :=
    if high_expense_ratio
    then severity + Py.int ((expense_ratio - 0.7) * 100)
    else severity in
  let severity := Z.min 100 severity in
  mkRisk is_risk severity
    (Some ("Expense ratio: " ++ Py.format_pct 1 expense_ratio
           ++ ", Net flow: $" ++ Py.format_f 2 net_flow))
    (if is_risk then
       ["🚨 Immediate expense reduction needed - negative cash flow";
        "💰 Build emergency fund to 3-6 months expenses";
        "📊 Track cash flow weekly until positive";
        "🎯 Target expense ratio below 80% of income"]
     else []).

(** [expenses[expenses['Date'].dt.weekday >= 5]['Abs_Amount'].sum()]. *)
Definition weekend_spending (expenses : Pd.DataFrame) : Q :=
  Py.sum (map Pd.Abs_Amount
            (filter (fun r => 5 <=? Pd.weekday (Pd.Date r)) expenses)).

(** [expenses[expenses['Date'].dt.weekday < 5]['Abs_Amount'].sum()]. *)
Definition weekday_spending (expenses : Pd.DataFrame) : Q :=
  Py.sum (map Pd.Abs_Amount
            (filter (fun r => Pd.weekday (Pd.Date r) <? 5) expenses)).

(** The count of the loop over [expenses.iterrows()]. *)
Definition late_night_transactions (expenses : Pd.DataFrame) : Z :=
  fold_left
    (fun n transaction =>
       if (22 <=? Pd.hour (Pd.Date transaction))
          || (Pd.hour (Pd.Date transaction) <=? 6)
       then n + 1 else n)
    expenses 0.

(** The three pattern checks, each on the pair of [risky_patterns] and
    [severity]. *)
Definition weekend_pattern (expenses : Pd.DataFrame) (st : list string * Z)
    : list string * Z :=
  let weekend := weekend_spending expenses in
  let weekday := weekday_spending expenses in
  if Py.Qlt_bool 0 weekend && Py.Qlt_bool 0 weekday then
    let weekend_ratio := (weekend / (weekend + weekday))%Q in
    if Py.Qlt_bool 0.4 weekend_ratio then
      ((fst st
        ++ [("High weekend spending: " ++ Py.format_pct 1 weekend_ratio)%string])%list,
       snd st + 30)
    else st
  else st.

(** [late_night_transactions > len(expenses) * 0.2]. *)
Definition late_night_frequent (expenses : Pd.DataFrame) : bool :=
  Py.Qlt_bool (inject_Z (Py.len expenses) * 0.2)
              (inject_Z (late_night_transactions expenses)).

Definition late_night_pattern (expenses : Pd.DataFrame) (st : list string * Z)
    : list string * Z :=
  if late_night_frequent expenses
  then ((fst st ++ ["Frequent late-night spending"])%list, snd st + 20)
  else st.

(** [high_transaction_days > len(daily_transaction_counts) * 0.3]. *)
Definition many_transactions_frequent (expenses : Pd.DataFrame) : bool :=
  let daily_transaction_counts :=
    Pd.groupby_size Pd.date_compare (fun r => Pd.date_of (Pd.Date r)) expenses in
  let high_transaction_days :=
    Py.len (filter (fun c => 5 <? snd c) daily_transaction_counts) in
  Py.Qlt_bool (inject_Z (Py.len daily_transaction_counts) * 0.3)
              (inject_Z high_transaction_days).

Definition impulse_pattern (expenses : Pd.DataFrame) (st : list string * Z)
    : list string * Z :=
  if many_transactions_frequent expenses
  then ((fst st ++ ["Frequent multiple daily transactions"])%list, snd st + 25)
  else st.

(** Detail: ['pattern']. *)
Definition _assess_behavioral_patterns (self : t) (df : Pd.DataFrame)
    : Risk string :=
  if Pd.empty df then no_risk
  else
    let expenses := Pd.expenses_of df in
    let st := ([], 0) in
    let st := weekend_pattern expenses st in
    let st := late_night_pattern expenses st in
    let st := impulse_pattern expenses st in
    let '(risky_patterns, severity) := st in
    let is_risk := 0 <? Py.len risky_patterns in
    mkRisk is_risk (Z.min 100 severity) (Some (Py.join "; " risky_patterns))
      (if is_risk then
         ["🛑 Implement 24-hour waiting period for non-essential purchases";
          "📱 Use spending apps with real-time alerts";
          "🎯 Set specific times for shopping to avoid impulse buying";
          "💡 Review triggers that lead to overspending patterns"]
       else []).

Definition _determine_overall_risk_level (max_severity risk_factor_count : Z)
    : string :=
  if (80 <=? max_severity) || (4 <=? risk_factor_count) then "High Risk"
  else if (60 <=? max_severity) || (3 <=? risk_factor_count) then "Moderate Risk"
  else if (40 <=? max_severity) || (2 <=? risk_factor_count) then "Low Risk"
  else if 1 <=? risk_factor_count then "Minimal Risk"
  else "Low Risk".

(** The three lists that [assess_financial_risks] grows. *)
Record Findings : Type := mkFindings {
  risk_factors : list string;
  found_recommendations : list string;
  severity_scores : list Z
}.

(** One [if check['is_risk']:] block. *)
Definition record_risk {D : Type} (check : Risk D) (describe : D -> string)
    (found : Findings) : Findings :=
  if is_risk check then
    mkFindings
      (risk_factors found
       ++ [match detail check with Some d => describe d | None => "" end])%list
      (found_recommendations found ++ risk_recommendations check)%list
      (severity_scores found ++ [severity check])%list
  else found.

(** The five checks, in evaluation order, folded into the findings. *)
Definition findings (self : t) (transaction_data : Pd.DataFrame)
    (analysis_results : AnalysisResults) : Findings :=
  let found := mkFindings [] [] [] in
  let found :=
    record_risk (_assess_spending_volatility self transaction_data)
      (fun score_sq => "High spending volatility: " ++ Sqrt.format_f 1 score_sq)
      found in
  let found :=
    record_risk (_assess_category_concentration self transaction_data)
      (fun d => "Over-concentrated in " ++ fst d ++ ": "
                ++ Py.format_f 1 (snd d) ++ "%")
      found in
  let found :=
    record_risk (_assess_spending_trends self analysis_results)
      (fun d => "Negative spending trend: " ++ d) found in
  let found :=
    record_risk (_assess_liquidity_risk self analysis_results)
      (fun d => "Liquidity concern: " ++ d) found in
  record_risk (_assess_behavioral_patterns self transaction_data)
    (fun d => "Behavioral pattern risk: " ++ d) found.

Definition assess_financial_risks (self : t) (transaction_data : Pd.DataFrame)
    (analysis_results : AnalysisResults) : RiskAssessment :=
  let found := findings self transaction_data analysis_results in
  let overall_severity := Py.max_or_zero (severity_scores found) in
  let risk_level :=
    _determine_overall_risk_level overall_severity
      (Py.len (risk_factors found)) in
  let confidence :=
    Py.min_Q 95.0 (60.0 + inject_Z (Py.len (risk_factors found) * 10))%Q in
  {| risk_level := risk_level;
     confidence := confidence;
     factors := risk_factors found;
     recommendations := found_recommendations found;
     severity_score := overall_severity |}.

End RiskOfficerAnalysis.

(* ================================================================== *)
(** * specialized_ai_roles.py: the growth strategist *)
(* ================================================================== *)

Module GrowthStrategistAnalysis.

Record GrowthOpportunity : Type := mkGrowthOpportunity {
  category : string;
  opportunity_type : string;
  potential_value : Q;
  effort_level : string;
  timeframe : string;
  action_items : list string
}.

(** [DataFrame.round(2)] on a float. *)
Definition round2 (x : Q) : Q :=
  (inject_Z (Py.round_half_even (x * 100)) / 100)%Q.

(** [DataFrame.round(2)] on a standard deviation, given by its square. *)
Definition round2_sqrt (v : Q) : Q :=
  (inject_Z (Sqrt.round_scaled 100 v) / 100)%Q.

(** One row of [recurring_vendors]: the count, and the rounded mean and
    standard deviation of [Abs_Amount].  The standard deviation of a
    single value is NaN, here [None].  The columns of the first and last
    date are never read and are left out. *)
Record VendorStats : Type := mkVendorStats {
  count : Z;
  mean : Q;
  std : option Q
}.

Definition vendor_stats (rows : Pd.DataFrame) : VendorStats :=
  let amounts := map Pd.Abs_Amount rows in
  mkVendorStats (Py.len amounts) (round2 (Pd.mean amounts))
    (if Py.len amounts <? 2 then None
     else Some (round2_sqrt (Pd.var amounts))).

Definition recurring_vendors (expenses : Pd.DataFrame)
    : list (string * VendorStats) :=
  map (fun g => (fst g, vendor_stats (snd g)))
      (Pd.groupby String.compare Pd.Description expenses).

(** One entry of [potential_subscriptions]. *)
Record Subscription : Type := mkSubscription {
  vendor : string;
  monthly_cost : Q;
  frequency : Z
}.

(** [count >= 2 and std_dev < (mean_amount * 0.1)]. *)
Definition low_variance (s : VendorStats) : bool :=
  (2 <=? count s)
  && match std s with
     | Some std_dev => Py.Qlt_bool std_dev (mean s * 0.1)
     | None => false
     end.

Definition potential_subscriptions (expenses : Pd.DataFrame) : list Subscription :=
  fold_left
    (fun subs (row : string * VendorStats) =>
       if low_variance (snd row) then
         (subs ++ [mkSubscription (fst row) (mean (snd row) * 4) (count (snd row))])%list
       else subs)
    (recurring_vendors expenses) [].

Definition subscription_opportunity (sub : Subscription) : GrowthOpportunity :=
  {| category := "Subscription Management";
     opportunity_type := "optimization";
     potential_value := (monthly_cost sub * 0.3)%Q;
     effort_level := "low";
     timeframe := "immediate";
     action_items :=
       [ "Review " ++ vendor sub ++ " subscription necessity";
         "Compare pricing with alternatives";
         "Consider annual vs monthly billing for discounts";
         "Set calendar reminder to review in 6 months" ] |}.

Definition _identify_subscription_optimization (df : Pd.DataFrame)
    : list GrowthOpportunity :=
  if Pd.empty df then []
  else
    let expenses := Pd.expenses_of df in
    fold_left
      (fun opportunities sub =>
         (opportunities ++ [subscription_opportunity sub])%list)
      (potential_subscriptions expenses) [].

End GrowthStrategistAnalysis.

(* ================================================================== *)
(** * transaction_retriever.py: the normalizer *)
(* ================================================================== *)

Module TransactionRetriever.

(** A row of the frame before cleaning: the five Tiller columns, as the
    strings of the sheet. *)
Record RawRow : Type := mkRawRow {
  raw_Date : string;
  raw_Description : string;
  raw_Category : string;
  raw_Amount : string;
  raw_Account : string
}.

Definition tiller_columns : list string :=
  ["Date"; "Description"; "Category"; "Amount"; "Account"].

(** [row + [''] * (len(tiller_columns) - len(row))], cut to the columns. *)
Definition padded_row (row : list string) : list string :=
  firstn (List.length tiller_columns)
         (row ++ repeat "" (List.length tiller_columns - List.length row))%list.

Definition raw_row_of (cells : list string) : RawRow :=
  mkRawRow (nth 0 cells "") (nth 1 cells "") (nth 2 cells "") (nth 3 cells "")
           (nth 4 cells "").

(** The loop over [data_rows]. *)
Definition processed_rows (data_rows : list (list string)) : list RawRow :=
  map (fun row => raw_row_of (padded_row row))
      (filter (fun row => 4 <=? Py.len row) data_rows).

(** The amount column as cleaned text: no ['$'], no [','], stripped. *)
Definition cleaned_amount (s : string) : string :=
  Py.strip (Py.remove_char "," (Py.remove_char "$" s)).

(** The search of [config.EXPENSE_CATEGORIES] for a keyword of the
    description. *)
Fixpoint keyword_category (table : list (string * list string))
    (description : string) : string :=
  match table with
  | [] => "Miscellaneous"
  | (category, keywords) :: table' =>
      if String.eqb category "Miscellaneous" then
        keyword_category table' description
      else if existsb (fun keyword => Py.contains (Py.lower keyword) description)
                      keywords
      then category
      else keyword_category table' description
  end.

(** [_categorize_transaction] on the category and description of a row. *)
Definition _categorize_transaction (category description : string) : string :=
  if negb (String.eqb (Py.strip category) "") then Py.strip category
  else keyword_category config.EXPENSE_CATEGORIES (Py.lower description).

(** Insertion of a row before the first row that is not more recent. *)
Fixpoint insert_by_date (r : Pd.Row) (l : Pd.DataFrame) : Pd.DataFrame :=
  match l with
  | [] => [r]
  | x :: l' =>
      match Pd.ts_compare (Pd.Date r) (Pd.Date x) with
      | Lt => x :: insert_by_date r l'
      | _ => r :: l
      end
  end.

(** [df.sort_values('Date', ascending=False)].  pandas does not fix the
    order of rows of equal date; here they keep their order. *)
Definition sort_values_Date_descending (df : Pd.DataFrame) : Pd.DataFrame :=
  fold_right insert_by_date [] df.

Section Normalizer.

(** The two pandas parsers, on one cell, with [errors='coerce']: [None]
    is NaT, respectively NaN. *)
Variable to_datetime : string -> option Pd.Timestamp.
Variable to_numeric : string -> option Q.

(** [df['Date'] = pd.to_datetime(...)], then [dropna(subset=['Date'])]. *)
Definition with_dates (df : list RawRow) : list (Pd.Timestamp * RawRow) :=
  flat_map (fun r => match to_datetime (raw_Date r) with
                     | Some d => [(d, r)]
                     | None => []
                     end) df.

(** The cleaning and conversion of ['Amount'], then
    [dropna(subset=['Amount'])]. *)
Definition with_amounts (df : list (Pd.Timestamp * RawRow))
    : list (Pd.Timestamp * Q * RawRow) :=
  flat_map (fun dr => match to_numeric (cleaned_amount (raw_Amount (snd dr))) with
                      | Some a => [(fst dr, a, snd dr)]
                      | None => []
                      end) df.

(** The remaining column assignments, row by row. *)
Definition finished_row (dar : Pd.Timestamp * Q * RawRow) : Pd.Row :=
  let '(d, a, r) := dar in
  let description := Py.strip (raw_Description r) in
  {| Pd.Date := d;
     Pd.Description := description;
     Pd.Category := _categorize_transaction (raw_Category r) description;
     Pd.Amount := a;
     Pd.Account := raw_Account r;
     Pd.Is_Expense := Py.Qlt_bool a 0;
     Pd.Abs_Amount := Qabs a;
     Pd.Day_of_Week := Pd.day_name d |}.

(** [_clean_dataframe].  The first [dropna(..., how='all')] removes
    rows whose three cells are all missing values; the cells of a sheet
    row are strings, so it removes nothing. *)
Definition _clean_dataframe (df : list RawRow) : Pd.DataFrame :=
  sort_values_Date_descending (map finished_row (with_amounts (with_dates df))).

Definition process_transactions (raw_data : list (list string)) : Pd.DataFrame :=
  match raw_data with
  | [] => []
  | _headers :: data_rows => _clean_dataframe (processed_rows data_rows)
  end.

End Normalizer.

End TransactionRetriever.

(* ================================================================== *)
(** * Sheet cells *)
(* ================================================================== *)

(** The two cell formats of the Tiller sheet that the examples use, as
    instances of the parsers of the normalizer: ISO dates
    ([2025-01-29]) and plain decimal numerals ([-428.00]).  pandas reads
    both this way; it also reads many other formats. *)

Module Sheet.

Definition digit (c : ascii) : option Z :=
  let n := N_of_ascii c in
  if (48 <=? n)%N && (n <=? 57)%N then Some (Z.of_N n - 48) else None.

(** The value of a string of digits, after the digits [acc]. *)
Fixpoint number (acc : Z) (s : string) : option Z :=
  match s with
  | EmptyString => Some acc
  | String c s' =>
      match digit c with
      | Some d => number (10 * acc + d) s'
      | None => None
      end
  end.

(** A non-empty string of digits. *)
Definition natural (s : string) : option Z :=
  match s with
  | EmptyString => None
  | _ => number 0 s
  end.

(** [YYYY-MM-DD], at midnight. *)
Definition to_datetime (s : string) : option Pd.Timestamp :=
  if (String.length s =? 10)%nat
     && String.eqb (substring 4 1 s) "-" && String.eqb (substring 7 1 s) "-"
  then
    match natural (substring 0 4 s), natural (substring 5 2 s),
          natural (substring 8 2 s) with
    | Some y, Some m, Some d =>
        if (1 <=? m) && (m <=? 12) && (1 <=? d) && (d <=? 31)
        then Some (Pd.mkTimestamp y m d 0 0 0)
        else None
    | _, _, _ => None
    end
  else None.

(** The part of [s] before the first ['.'], and the part after it. *)
Fixpoint split_point (s : string) : string * option string :=
  match s with
  | EmptyString => (EmptyString, None)
  | String c s' =>
      if Ascii.eqb c "." then (EmptyString, Some s')
      else let '(a, b) := split_point s' in (String c a, b)
  end.

(** An unsigned decimal numeral [ddd] or [ddd.ddd]. *)
Definition unsigned_decimal (s : string) : option Q :=
  match split_point s with
  | (a, None) =>
      match natural a with
      | Some n => Some (inject_Z n)
      | None => None
      end
  | (a, Some b) =>
      match natural a, natural b with
      | Some n, Some f =>
          Some (inject_Z n
                + inject_Z f / inject_Z (10 ^ Z.of_nat (String.length b)))%Q
      | _, _ => None
      end
  end.

(** A decimal numeral with an optional minus sign. *)
Definition to_numeric (s : string) : option Q :=
  match s with
  | String "-" s' =>
      match unsigned_decimal s' with
      | Some q => Some (- q)%Q
      | None => None
      end
  | _ => unsigned_decimal s
  end.

End Sheet.

(* ================================================================== *)
(** * The result of the overspending analyzer, entry by entry *)
(* ================================================================== *)

Module OverspendingFacts.
Import OverspendingAnalyzer.

(** The expense rows of a category. *)
Definition category_rows (expenses : Pd.DataFrame) (c : string) : Pd.DataFrame :=
  filter (fun r => String.eqb (Pd.Category r) c) expenses.

(** [category_spending]: the series of the per-category sums. *)
Definition category_spending (df : Pd.DataFrame) : list (string * Q) :=
  Pd.groupby_sum String.compare Pd.Category Pd.Abs_Amount (Pd.expenses_of df).

(** The dict that the loop body builds for an item, if it builds one. *)
Definition built (self : t) (expenses : Pd.DataFrame) (item : string * Q)
    : option CategoryAnalysis :=
  let '(category, spent) := item in
  let budget_limit := Py.get (budget_limits self) category 0%Q in
  if Qeq_bool budget_limit 0 then None
  else
    let percentage_used := (spent / budget_limit * 100)%Q in
    let entry status severity savings :=
      mkCategoryAnalysis category spent budget_limit percentage_used
        (spent - budget_limit)%Q (Py.len (category_rows expenses category))
        status severity savings in
    Some
      (if Qle_bool (overspending_threshold self * 100) percentage_used then
         entry "OVERSPENDING" (Some (_calculate_severity percentage_used)) None
       else if Qle_bool (warning_threshold self * 100) percentage_used then
         entry "WARNING" (Some "Medium") None
       else entry "WITHIN_BUDGET" None (Some (budget_limit - spent)%Q)).

(** All the dicts built over the items, in order. *)
Definition entries (self : t) (expenses : Pd.DataFrame)
    (items : list (string * Q)) : list CategoryAnalysis :=
  flat_map (fun item => match built self expenses item with
                        | Some ca => [ca]
                        | None => []
                        end) items.

Definition has_status (s : string) (ca : CategoryAnalysis) : bool :=
  String.eqb (status ca) s.

Definition about (c : string) (l : list CategoryAnalysis) : list CategoryAnalysis :=
  filter (fun ca => String.eqb (category ca) c) l.

(** What a category spent: the sum of its expense rows. *)
Definition category_spent (df : Pd.DataFrame) (c : string) : Q :=
  Py.sum (map Pd.Abs_Amount (category_rows (Pd.expenses_of df) c)).

(** The analysis of a non-empty batch, from the reported date and the
    expense rows. *)
Definition analysis_from (self : t) (reported : string)
    (expenses : Pd.DataFrame) : Analysis :=
  let category_spending :=
    Pd.groupby_sum String.compare Pd.Category Pd.Abs_Amount expenses in
  let analysis :=
    {| date := reported;
       total_spent := Py.sum (map Pd.Abs_Amount expenses);
       total_transactions := Py.len expenses;
       categories_analyzed := Py.len category_spending;
       overspending_alerts := [];
       warning_alerts := [];
       within_budget := [];
       recommendations := [];
       spending_score := 0;
       risk_level := "Unknown" |} in
  let analysis :=
    fold_left (analyze_category self expenses) category_spending analysis in
  let analysis :=
    set_spending_score analysis (_calculate_spending_score self analysis) in
  let analysis :=
    set_risk_level analysis (_determine_risk_level (spending_score analysis)) in
  set_recommendations analysis (_generate_recommendations analysis).

End OverspendingFacts.

(** ** The spending score, in the words of the specification *)

Module ScoreSpec.
Import OverspendingAnalyzer OverspendingFacts.

Section Score.

Variable self : t.

(** The budget limit of the category of an item of [category_spending]. *)
Definition limit_of (item : string * Q) : Q :=
  Py.get (budget_limits self) (fst item) 0%Q.

(** The categories that get a status: those with a non-zero limit. *)
Definition configured (item : string * Q) : bool :=
  negb (Qeq_bool (limit_of item) 0).

Definition percentage (item : string * Q) : Q :=
  (snd item / limit_of item * 100)%Q.

Definition is_overspending (item : string * Q) : bool :=
  configured item
  && Qle_bool (overspending_threshold self * 100) (percentage item).

Definition is_warning (item : string * Q) : bool :=
  configured item
  && negb (Qle_bool (overspending_threshold self * 100) (percentage item))
  && Qle_bool (warning_threshold self * 100) (percentage item).

Definition is_within_budget (item : string * Q) : bool :=
  configured item
  && negb (Qle_bool (overspending_threshold self * 100) (percentage item))
  && negb (Qle_bool (warning_threshold self * 100) (percentage item)).

(** The number of items that satisfy [p]. *)
Definition count (p : string * Q -> bool) (items : list (string * Q)) : Z :=
  Py.len (filter p items).

(** OVERSPENDING, with the given severity. *)
Definition is_overspending_with (severity : string) (item : string * Q)
    : bool :=
  is_overspending item
  && String.eqb (_calculate_severity (percentage item)) severity.

(** The number of OVERSPENDING categories of a severity. *)
Definition overspending_count (severity : string)
    (items : list (string * Q)) : Z :=
  count (is_overspending_with severity) items.

(** The under-budget bonus: when the total spent is below 80% of the
    summed limits, 20 times the under-spend fraction, cut to an
    integer, at most 15. *)
Definition under_budget_bonus (total_spent : Q) : Z :=
  let total_budget := Py.sum (map snd (budget_limits self)) in
  if Py.Qlt_bool total_spent (total_budget * 0.8) then
    Z.min 15 (Py.int ((total_budget - total_spent) / total_budget * 20))
  else 0.

Definition clamp (x : Z) : Z := Z.min 100 (Z.max 0 x).

Definition spending_score (df : Pd.DataFrame) : Z :=
  let items := category_spending df in
  let total_spent := Py.sum (map Pd.Abs_Amount (Pd.expenses_of df)) in
  clamp (100
         - 30 * overspending_count "Critical" items
         - 20 * overspending_count "High" items
         - 15 * overspending_count "Medium" items
         - 10 * overspending_count "Low" items
         - 5 * count is_warning items
         + 3 * count is_within_budget items
         + under_budget_bonus total_spent).

End Score.

End ScoreSpec.

(** ** The checks of the risk officer, as a list *)

Module RiskFacts.
Import RiskOfficerAnalysis.

(** The five checks in evaluation order, each as the pair of its
    [is_risk] and its [severity]. *)
Definition checks (self : t) (df : Pd.DataFrame) (ar : AnalysisResults)
    : list (bool * Z) :=
  [ (is_risk (_assess_spending_volatility self df),
     severity (_assess_spending_volatility self df));
    (is_risk (_assess_category_concentration self df),
     severity (_assess_category_concentration self df));
    (is_risk (_assess_spending_trends self ar),
     severity (_assess_spending_trends self ar));
    (is_risk (_assess_liquidity_risk self ar),
     severity (_assess_liquidity_risk self ar));
    (is_risk (_assess_behavioral_patterns self df),
     severity (_assess_behavioral_patterns self df)) ].

(** The severities of the checks that triggered. *)
Definition triggered (self : t) (df : Pd.DataFrame) (ar : AnalysisResults)
    : list Z :=
  map snd (filter fst (checks self df ar)).

End RiskFacts.

(** ** The opportunity of a vendor *)

Module SubscriptionFacts.
Import GrowthStrategistAnalysis.

(** The expense rows of a vendor. *)
Definition vendor_rows (expenses : Pd.DataFrame) (v : string) : Pd.DataFrame :=
  filter (fun r => String.eqb (Pd.Description r) v) expenses.

(** The first action item of the opportunity of a vendor. *)
Definition review_item (v : string) : string :=
  "Review " ++ v ++ " subscription necessity".

(** The opportunity is the one that names the vendor. *)
Definition names_vendor (v : string) (o : GrowthOpportunity) : bool :=
  match action_items o with
  | item :: _ => String.eqb item (review_item v)
  | [] => false
  end.

End SubscriptionFacts.

(** ** The normalizer, row by row *)

Module NormalizerSpec.
Import TransactionRetriever.

Section Rows.

Variable to_datetime : string -> option Pd.Timestamp.
Variable to_numeric : string -> option Q.

(** The cell of a column of a sheet row; a missing cell is empty. *)
Definition cell (row : list string) (column : nat) : string :=
  nth column row "".

(** The transaction of a sheet row: none when the row has fewer than
    four cells, or its date does not parse, or its cleaned amount is
    not a number. *)
Definition transaction (row : list string) : option Pd.Row :=
  if Py.len row <? 4 then None
  else
    match to_datetime (cell row 0),
          to_numeric (cleaned_amount (cell row 3)) with
    | Some d, Some a =>
        let description := Py.strip (cell row 1) in
        Some {| Pd.Date := d;
                Pd.Description := description;
                Pd.Category :=
                  _categorize_transaction (cell row 2) description;
                Pd.Amount := a;
                Pd.Account := cell row 4;
                Pd.Is_Expense := Py.Qlt_bool a 0;
                Pd.Abs_Amount := Qabs a;
                Pd.Day_of_Week := Pd.day_name d |}
    | _, _ => None
    end.

(** The transactions of the rows that have one, in row order. *)
Definition transactions (rows : list (list string)) : Pd.DataFrame :=
  flat_map (fun row => match transaction row with
                       | Some r => [r]
                       | None => []
                       end) rows.

End Rows.

End NormalizerSpec.

(* ================================================================== *)
(** * Sample batches *)
(* ================================================================== *)

Module Samples.

(** A timestamp at the given hour. *)
Definition at_hour (y m d h : Z) : Pd.Timestamp := Pd.mkTimestamp y m d h 0 0.

(** A normalized row of the given signed amount. *)
Definition transaction (date : Pd.Timestamp) (description category : string)
    (amount : Q) : Pd.Row :=
  {| Pd.Date := date;
     Pd.Description := description;
     Pd.Category := category;
     Pd.Amount := amount;
     Pd.Account := "";
     Pd.Is_Expense := Py.Qlt_bool amount 0;
     Pd.Abs_Amount := Qabs amount;
     Pd.Day_of_Week := Pd.day_name date |}.

Definition wednesday : Pd.Timestamp := at_hour 2025 1 29 0.
Definition thursday : Pd.Timestamp := at_hour 2025 1 30 0.
Definition saturday_noon : Pd.Timestamp := at_hour 2025 2 1 12.
Definition monday_noon : Pd.Timestamp := at_hour 2025 2 3 12.

(** The sample of [overspending_analyzer.py]. *)
Definition sample_data : Pd.DataFrame :=
  [ transaction wednesday "Starbucks Coffee" "Food & Dining" (-5.50);
    transaction wednesday "Expensive Restaurant" "Food & Dining" (-85.00);
    transaction wednesday "Uber Ride" "Transportation" (-12.00);
    transaction wednesday "Amazon Purchase" "Shopping" (-45.99);
    transaction wednesday "Grocery Store" "Food & Dining" (-23.50) ].

(** Food & Dining at exactly 80% of its limit of 50. *)
Definition at_warning_threshold : Pd.DataFrame :=
  [ transaction wednesday "Grocery Store" "Food & Dining" (-40.00) ].

(** A refund: the only row of its category, and not an expense. *)
Definition refund_only : Pd.DataFrame :=
  [ transaction wednesday "Amazon Refund" "Shopping" 10.00 ].

(** Four categories at five times their limit and more. *)
Definition four_critical : Pd.DataFrame :=
  [ transaction wednesday "Restaurant" "Food & Dining" (-250.00);
    transaction wednesday "Taxi" "Transportation" (-200.00);
    transaction wednesday "Mall" "Shopping" (-200.00);
    transaction wednesday "Concert" "Entertainment" (-200.00) ].

Definition coffee : Pd.Row :=
  transaction wednesday "Starbucks Coffee" "Food & Dining" (-5.50).
Definition ride : Pd.Row :=
  transaction wednesday "Uber Ride" "Transportation" (-12.00).
Definition late_ride : Pd.Row :=
  transaction thursday "Uber Ride" "Transportation" (-12.00).
Definition refund : Pd.Row :=
  transaction wednesday "Amazon Refund" "Shopping" 10.00.

(** One expense on a Saturday at noon, and one on the Monday after. *)
Definition weekend_and_weekday : Pd.DataFrame :=
  [ transaction saturday_noon "Market" "Shopping" (-50.00);
    transaction monday_noon "Market" "Shopping" (-50.00) ].

Definition weekend_only : Pd.DataFrame :=
  [ transaction saturday_noon "Market" "Shopping" (-50.00) ].

Definition netflix : Pd.DataFrame :=
  [ transaction (at_hour 2025 1 1 0) "Netflix" "Entertainment" (-12.99);
    transaction (at_hour 2025 1 8 0) "Netflix" "Entertainment" (-12.99);
    transaction (at_hour 2025 1 15 0) "Netflix" "Entertainment" (-12.99) ].

Definition gym : Pd.DataFrame :=
  [ transaction (at_hour 2025 1 15 0) "Gym" "Healthcare" (-10.00);
    transaction (at_hour 2025 1 16 0) "Gym" "Healthcare" (-10.004) ].

(** A sheet with one data row, whose description cell is empty. *)
Definition sheet_without_description : list (list string) :=
  [ ["Date"; "Description"; "Category"; "Amount"; "Account"];
    ["2025-01-29"; ""; "Food & Dining"; "-$5.50"; "Checking"] ].

Definition sheet : list (list string) :=
  [ ["Date"; "Description"; "Category"; "Amount"; "Account"];
    ["2025-01-29"; " Starbucks Coffee "; ""; "-$5.50"; "Checking"];
    ["2025-01-30"; "Salary"; "Income"; "$3,784.44"];
    ["not a date"; "Uber Ride"; ""; "-$12.00"];
    ["2025-01-30"; "Uber Ride"; ""; "n/a"];
    ["2025-01-30"; "Uber Ride"; ""] ].

End Samples.

(* ================================================================== *)
(** * daily_workflow.py: the inputs of the specialized roles *)
(* ================================================================== *)

Module Np.

(** [range(n)] as floats, from [start]. *)
Fixpoint arange (start : Z) (n : nat) : list Q :=
  match n with
  | O => []
  | S n' => inject_Z start :: arange (start + 1) n'
  end.

(** The sum of the products of two series. *)
Fixpoint dot (x y : list Q) : Q :=
  match x, y with
  | a :: x', b :: y' => (a * b + dot x' y')%Q
  | _, _ => 0%Q
  end.

(** [np.polyfit(range(len(y)), y, 1)[0]]: the slope of the least-squares
    line through the points [(i, y_i)], for at least two points. *)
Definition polyfit_slope (y : list Q) : Q :=
  let x := arange 0 (List.length y) in
  let n := inject_Z (Py.len y) in
  ((n * dot x y - Py.sum x * Py.sum y)
   / (n * dot x x - Py.sum x * Py.sum x))%Q.

End Np.

Module DailyWorkflowAnalyzer.

(** The dict of [_analyze_cash_flow_health], without the account
    breakdown. *)
Record CashFlow : Type := mkCashFlow {
  weekly_expenses : Q;
  weekly_income : Q;
  net_cash_flow : Q;
  expense_to_income_ratio : Q;
  cash_flow_health : string;
  savings_rate : Q
}.

(** [week_df[~week_df['Is_Expense']]]. *)
Definition income_of (df : Pd.DataFrame) : Pd.DataFrame :=
  filter (fun r => negb (Pd.Is_Expense r)) df.

(** [None] is the dict [{"status": "insufficient_data"}]. *)
Definition _analyze_cash_flow_health (week_df : Pd.DataFrame) : option CashFlow :=
  if Pd.empty week_df then None
  else
    let expenses := Pd.expenses_of week_df in
    let income := income_of week_df in
    let total_expenses := Py.sum (map Pd.Abs_Amount expenses) in
    let total_income := Py.sum (map Pd.Amount income) in
    let net_cash_flow := (total_income - total_expenses)%Q in
    Some
      {| weekly_expenses := total_expenses;
         weekly_income := total_income;
         net_cash_flow := net_cash_flow;
         expense_to_income_ratio :=
           if Py.Qlt_bool 0 total_income
           then (total_expenses / total_income)%Q else 0%Q;
         cash_flow_health :=
           if Py.Qlt_bool 0 net_cash_flow then "Positive" else "Negative";
         savings_rate :=
           if Py.Qlt_bool 0 total_income
           then (net_cash_flow / total_income * 100)%Q else 0%Q |}.

(** [s.unique()]: the distinct values in order of first appearance. *)
Definition unique (l : list string) : list string :=
  fold_left
    (fun seen x => if existsb (String.eqb x) seen then seen else (seen ++ [x])%list)
    l [].

(** [cat_data.groupby(cat_data['Date'].dt.date)['Abs_Amount'].sum()] for
    the rows of a category. *)
Definition daily_cat_spending (expenses : Pd.DataFrame) (category : string)
    : list Q :=
  let cat_data :=
    filter (fun r => String.eqb (Pd.Category r) category) expenses in
  map snd (Pd.groupby_sum Pd.date_compare (fun r => Pd.date_of (Pd.Date r))
             Pd.Abs_Amount cat_data).

Definition trend_direction_of (trend_slope : Q) : string :=
  if Py.Qlt_bool 1 trend_slope then "increasing"
  else if Py.Qlt_bool trend_slope (-1) then "decreasing"
  else "stable".

(** The dict [category_trends], in insertion order; the variance is not
    read by the roles and is left out. *)
Definition category_trends (expenses : Pd.DataFrame)
    : list (string * RiskOfficerAnalysis.TrendData) :=
  fold_left
    (fun trends category =>
       let daily := daily_cat_spending expenses category in
       if 1 <? Py.len daily then
         let trend_slope := Np.polyfit_slope daily in
         (trends
          ++ [(category,
               RiskOfficerAnalysis.mkTrendData
                 (Some (trend_direction_of trend_slope))
                 (Some trend_slope)
                 (Some (Pd.mean daily)))])%list
       else trends)
    (unique (map Pd.Category expenses)) [].

(** The part of the dict of [_analyze_trends_and_variance] that the roles
    read; without ['category_trends'] it is the dict
    [{"status": "insufficient_data"}]. *)
Definition _analyze_trends_and_variance (daily_df week_df : Pd.DataFrame)
    : RiskOfficerAnalysis.TrendAnalysis :=
  if Pd.empty week_df then RiskOfficerAnalysis.mkTrendAnalysis None
  else
    let expenses := Pd.expenses_of week_df in
    RiskOfficerAnalysis.mkTrendAnalysis (Some (category_trends expenses)).

(** The keys of the cash-flow dict that the risk officer reads. *)
Definition cash_flow_read (cash_flow : option CashFlow)
    : RiskOfficerAnalysis.CashFlowHealth :=
  match cash_flow with
  | Some cf =>
      RiskOfficerAnalysis.mkCashFlowHealth
        (Some (net_cash_flow cf)) (Some (expense_to_income_ratio cf))
  | None => RiskOfficerAnalysis.mkCashFlowHealth None None
  end.

(** The entries ['trend_analysis'] and ['cash_flow_health'] of the
    [analysis_results] of [run_comprehensive_analysis]. *)
Definition analysis_results (yesterday_data week_data : Pd.DataFrame)
    : RiskOfficerAnalysis.AnalysisResults :=
  RiskOfficerAnalysis.mkAnalysisResults
    (Some (_analyze_trends_and_variance yesterday_data week_data))
    (Some (cash_flow_read (_analyze_cash_flow_health week_data))).

End DailyWorkflowAnalyzer.

(* ================================================================== *)
(** * specialized_ai_roles.py: the other detectors of the strategist *)
(* ================================================================== *)

Module GrowthStrategist.
Import GrowthStrategistAnalysis.

(** The keys of [analysis_results['cash_flow_health']] that the
    strategist reads; an absent key is [None]. *)
Record CashFlowKeys : Type := mkCashFlowKeys {
  net_cash_flow : option Q;
  savings_rate : option Q
}.

(** Insertion of an entry before the first entry that is not larger. *)
Fixpoint insert_descending (x : string * Q) (l : list (string * Q))
    : list (string * Q) :=
  match l with
  | [] => [x]
  | y :: l' =>
      if Py.Qlt_bool (snd x) (snd y) then y :: insert_descending x l'
      else x :: l
  end.

(** [s.sort_values(ascending=False)].  pandas does not fix the order of
    equal values; here they keep their order. *)
Definition sort_values_descending (s : list (string * Q)) : list (string * Q) :=
  fold_right insert_descending [] s.

(** [f"{category} Efficiency"] and its action items. *)
Definition efficiency_opportunity (category : string) (total_spent : Q)
    : GrowthOpportunity :=
  {| category := category ++ " Efficiency";
     opportunity_type := "savings";
     potential_value := (total_spent * 0.2)%Q;
     effort_level := "medium";
     timeframe := "short_term";
     action_items :=
       [ "Set monthly " ++ category ++ " budget with weekly check-ins";
         "Use cash-back credit cards for " ++ category ++ " purchases";
         "Research discount apps and loyalty programs";
         "Implement 24-hour waiting period for non-essential " ++ category
           ++ " items" ] |}.

Definition transportation_opportunity (total_spent : Q) : GrowthOpportunity :=
  {| category := "Transportation Optimization";
     opportunity_type := "optimization";
     potential_value := (total_spent * 0.25)%Q;
     effort_level := "medium";
     timeframe := "short_term";
     action_items :=
       [ "Compare rideshare vs public transit costs";
         "Consider transportation subscription services";
         "Plan trips to reduce total transportation needs";
         "Explore carpooling or bike-sharing options" ] |}.

(** [category in ['Shopping', 'Food & Dining', 'Entertainment']]. *)
Definition discretionary (category : string) : bool :=
  existsb (String.eqb category) ["Shopping"; "Food & Dining"; "Entertainment"].

Definition _identify_efficiency_improvements (df : Pd.DataFrame)
    : list GrowthOpportunity :=
  if Pd.empty df then []
  else
    let expenses := Pd.expenses_of df in
    let category_spending :=
      sort_values_descending
        (Pd.groupby_sum String.compare Pd.Category Pd.Abs_Amount expenses) in
    fold_left
      (fun opportunities category =>
         let category_expenses :=
           filter (fun r => String.eqb (Pd.Category r) category) expenses in
         let total_spent := Py.sum (map Pd.Abs_Amount category_expenses) in
         if discretionary category then
           (opportunities ++ [efficiency_opportunity category total_spent])%list
         else if String.eqb category "Transportation" then
           (opportunities ++ [transportation_opportunity total_spent])%list
         else opportunities)
      (firstn 3 (map fst category_spending)) [].

Definition automated_savings (net_flow : Q) : GrowthOpportunity :=
  let automated_savings_amount := (net_flow * 0.5)%Q in
  {| category := "Automated Savings";
     opportunity_type := "automation";
     potential_value := (automated_savings_amount * 12)%Q;
     effort_level := "low";
     timeframe := "immediate";
     action_items :=
       [ "Set up automatic transfer of $"
           ++ Py.format_f 2 automated_savings_amount ++ " to savings";
         "Use high-yield savings account for emergency fund";
         "Consider automated investment in index funds";
         "Set up automatic bill pay to avoid late fees" ] |}.

Definition budget_automation : GrowthOpportunity :=
  {| category := "Budget Automation";
     opportunity_type := "automation";
     potential_value := 200;
     effort_level := "low";
     timeframe := "immediate";
     action_items :=
       [ "Set up automatic spending alerts at 80% of budget";
         "Use budgeting apps with bank integration";
         "Automate categorization of recurring transactions";
         "Set up weekly spending summary emails" ] |}.

Definition _identify_automation_opportunities (cash_flow : CashFlowKeys)
    : list GrowthOpportunity :=
  let net_flow := Py.get_or (net_cash_flow cash_flow) 0%Q in
  ((if Py.Qlt_bool 100 net_flow then [automated_savings net_flow] else [])
   ++ [budget_automation])%list.

Definition pattern_opportunity (highest_day : string) (highest_amount : Q)
    : GrowthOpportunity :=
  {| category := "Spending Pattern Optimization";
     opportunity_type := "optimization";
     potential_value := (highest_amount * 0.3 * 4)%Q;
     effort_level := "medium";
     timeframe := "short_term";
     action_items :=
       [ "Plan " ++ highest_day
           ++ " spending in advance to avoid impulse purchases";
         "Set specific " ++ highest_day ++ " spending limit";
         "Use shopping lists and stick to them";
         "Consider online shopping with cart delays" ] |}.

Definition _identify_behavioral_optimizations (df : Pd.DataFrame)
    : list GrowthOpportunity :=
  if Pd.empty df then []
  else
    let expenses := Pd.expenses_of df in
    let day_patterns :=
      Pd.groupby_sum String.compare (fun r => Pd.day_name (Pd.Date r))
        Pd.Abs_Amount expenses in
    match day_patterns with
    | [] => []
    | _ =>
        let highest_day := Pd.idxmax "" day_patterns in
        let highest_amount := Pd.series_max (map snd day_patterns) in
        if Py.Qlt_bool (Pd.mean (map snd day_patterns) * 1.5) highest_amount
        then [pattern_opportunity highest_day highest_amount]
        else []
    end.

Definition savings_rate_improvement (savings_rate : Q) : GrowthOpportunity :=
  {| category := "Savings Rate Improvement";
     opportunity_type := "optimization";
     potential_value := 1000;
     effort_level := "high";
     timeframe := "long_term";
     action_items :=
       [ "Increase savings rate from " ++ Py.format_f 1 savings_rate
           ++ "% to 20%";
         "Identify largest expense categories for reduction";
         "Consider income-increasing activities";
         "Implement zero-based budgeting approach" ] |}.

Definition investment_growth (net_flow : Q) : GrowthOpportunity :=
  {| category := "Investment Growth";
     opportunity_type := "automation";
     potential_value := (net_flow * 0.07 * 12)%Q;
     effort_level := "medium";
     timeframe := "long_term";
     action_items :=
       [ "Invest $" ++ Py.format_f 2 (net_flow * 0.3)
           ++ " monthly in diversified index funds";
         "Open tax-advantaged accounts (IRA, 401k)";
         "Consider robo-advisor for automated investing";
         "Review and rebalance portfolio quarterly" ] |}.

Definition _identify_strategic_opportunities (cash_flow : CashFlowKeys)
    : list GrowthOpportunity :=
  let savings_rate := Py.get_or (savings_rate cash_flow) 0%Q in
  let net_flow := Py.get_or (net_cash_flow cash_flow) 0%Q in
  ((if Py.Qlt_bool savings_rate 20
    then [savings_rate_improvement savings_rate] else [])
   ++ (if Py.Qlt_bool 500 net_flow then [investment_growth net_flow] else []))%list.

(** Insertion of an opportunity before the first one that is not of
    larger value. *)
Fixpoint insert_by_value (o : GrowthOpportunity) (l : list GrowthOpportunity)
    : list GrowthOpportunity :=
  match l with
  | [] => [o]
  | x :: l' =>
      if Py.Qlt_bool (potential_value o) (potential_value x)
      then x :: insert_by_value o l'
      else o :: l
  end.

(** [opportunities.sort(key=lambda x: x.potential_value, reverse=True)]:
    the sort is stable. *)
Definition sort_by_value (l : list GrowthOpportunity) : list GrowthOpportunity :=
  fold_right insert_by_value [] l.

(** The opportunities of the five detectors, before the sort. *)
Definition detected (transaction_data : Pd.DataFrame) (cash_flow : CashFlowKeys)
    : list GrowthOpportunity :=
  (_identify_subscription_optimization transaction_data
   ++ _identify_efficiency_improvements transaction_data
   ++ _identify_automation_opportunities cash_flow
   ++ _identify_behavioral_optimizations transaction_data
   ++ _identify_strategic_opportunities cash_flow)%list.

Definition identify_growth_opportunities (transaction_data : Pd.DataFrame)
    (cash_flow : CashFlowKeys) : list GrowthOpportunity :=
  sort_by_value (detected transaction_data cash_flow).

(** The keys that the strategist reads of the cash-flow dict of the
    workflow. *)
Definition cash_flow_read (cash_flow : option DailyWorkflowAnalyzer.CashFlow)
    : CashFlowKeys :=
  match cash_flow with
  | Some cf =>
      mkCashFlowKeys (Some (DailyWorkflowAnalyzer.net_cash_flow cf))
                     (Some (DailyWorkflowAnalyzer.savings_rate cf))
  | None => mkCashFlowKeys None None
  end.

End GrowthStrategist.

(* ================================================================== *)
(** * zen_analyzer.py: the budget analyzer *)
(* ================================================================== *)

Module BudgetAnalyzer.

(** The analyzer object: the fields [__init__] sets. *)
Record t : Type := mk {
  budget_limits : list (string * Q);
  overspending_threshold : Q;
  warning_threshold : Q
}.

(** [BudgetAnalyzer()]. *)
Definition init : t :=
  mk config.DAILY_BUDGET_LIMITS config.OVERSPENDING_THRESHOLD
     config.WARNING_THRESHOLD.

(** The per-category dict.  The keys ['over_by'] and ['savings'] exist
    only in some entries, hence the options. *)
Record CategoryEntry : Type := mkCategoryEntry {
  category : string;
  spent : Q;
  budget : Q;
  over_by : option Q;
  savings : option Q;
  percentage : Q
}.

(** The dict [overspending_analysis]; nothing is ever appended to
    ['savings_opportunities']. *)
Record OverspendingAnalysis : Type := mkOverspendingAnalysis {
  overspending_categories : list CategoryEntry;
  warning_categories : list CategoryEntry;
  within_budget : list CategoryEntry;
  total_over_budget : Q;
  savings_opportunities : list CategoryEntry
}.

(** The body of the loop over [category_spending.items()]. *)
Definition analyze_category (self : t) (analysis : OverspendingAnalysis)
    (item : string * Q) : OverspendingAnalysis :=
  let '(category, spent) := item in
  let budget_limit := Py.get (budget_limits self) category 0%Q in
  if Qeq_bool budget_limit 0 then analysis
  else
    let percentage_of_budget := (spent / budget_limit)%Q in
    let over_amount := (spent - budget_limit)%Q in
    if Qle_bool (overspending_threshold self) percentage_of_budget then
      mkOverspendingAnalysis
        (overspending_categories analysis
         ++ [mkCategoryEntry category spent budget_limit (Some over_amount)
               None (percentage_of_budget * 100)%Q])%list
        (warning_categories analysis) (within_budget analysis)
        (total_over_budget analysis + over_amount)%Q
        (savings_opportunities analysis)
    else if Qle_bool (warning_threshold self) percentage_of_budget then
      mkOverspendingAnalysis
        (overspending_categories analysis)
        (warning_categories analysis
         ++ [mkCategoryEntry category spent budget_limit None None
               (percentage_of_budget * 100)%Q])%list
        (within_budget analysis) (total_over_budget analysis)
        (savings_opportunities analysis)
    else
      let savings := (budget_limit - spent)%Q in
      mkOverspendingAnalysis
        (overspending_categories analysis) (warning_categories analysis)
        (within_budget analysis
         ++ [mkCategoryEntry category spent budget_limit None (Some savings)
               (percentage_of_budget * 100)%Q])%list
        (total_over_budget analysis) (savings_opportunities analysis).

(** [analyze_overspending]; [None] is the empty dict. *)
Definition analyze_overspending (self : t) (df : Pd.DataFrame)
    : option OverspendingAnalysis :=
  if Pd.empty df then None
  else
    let expenses := Pd.expenses_of df in
    let category_spending :=
      Pd.groupby_sum String.compare Pd.Category Pd.Abs_Amount expenses in
    Some (fold_left (analyze_category self) category_spending
            (mkOverspendingAnalysis [] [] [] 0 [])).

End BudgetAnalyzer.

(* ================================================================== *)
(** * overspending_analyzer.py: unusual transactions *)
(* ================================================================== *)

Module UnusualTransactions.

(** One entry of [unusual_transactions]. *)
Record Unusual : Type := mkUnusual {
  date : string;
  description : string;
  amount : Q;
  category : string;
  flags : list string;
  severity : string
}.

(** [transaction['Abs_Amount'] > high_threshold], where the threshold is
    the mean plus twice the standard deviation of the amounts.  The
    standard deviation of fewer than two values is NaN, and the
    comparison is then false; otherwise it is given by its square. *)
Definition unusually_high (amounts : list Q) (amount : Q) : bool :=
  if Py.len amounts <? 2 then false
  else Sqrt.lt_bool (Pd.var amounts) ((amount - Pd.mean amounts) / 2).

(** The rows with their index labels; the labels of a frame are
    distinct, and are here the positions. *)
Definition indexed (expenses : Pd.DataFrame) : list (nat * Pd.Row) :=
  combine (seq 0 (List.length expenses)) expenses.

(** The other rows of the same amount and the same day. *)
Definition similar_transactions (expenses : Pd.DataFrame) (name : nat)
    (transaction : Pd.Row) : list (nat * Pd.Row) :=
  filter
    (fun other =>
       Qeq_bool (Pd.Abs_Amount (snd other)) (Pd.Abs_Amount transaction)
       && Pd.same_key Pd.date_compare (Pd.date_of (Pd.Date (snd other)))
            (Pd.date_of (Pd.Date transaction))
       && negb (Nat.eqb (fst other) name))
    (indexed expenses).

Definition weekend_discretionary (transaction : Pd.Row) : bool :=
  (5 <=? Pd.weekday (Pd.Date transaction))
  && existsb (String.eqb (Pd.Category transaction))
             ["Shopping"; "Entertainment"].

(** [transaction_hour and (transaction_hour >= 23 or transaction_hour <= 5)]:
    the hour 0 counts as false. *)
Definition late_night (transaction : Pd.Row) : bool :=
  let transaction_hour := Pd.hour (Pd.Date transaction) in
  negb (transaction_hour =? 0)
  && ((23 <=? transaction_hour) || (transaction_hour <=? 5)).

Definition flags_of (expenses : Pd.DataFrame) (name : nat)
    (transaction : Pd.Row) : list string :=
  ((if unusually_high (map Pd.Abs_Amount expenses) (Pd.Abs_Amount transaction)
    then ["UNUSUALLY_HIGH_AMOUNT"] else [])
   ++ (if 0 <? Py.len (similar_transactions expenses name transaction)
       then ["POTENTIAL_DUPLICATE"] else [])
   ++ (if weekend_discretionary transaction
       then ["WEEKEND_DISCRETIONARY_SPENDING"] else [])
   ++ (if late_night transaction then ["LATE_NIGHT_SPENDING"] else []))%list.

Definition unusual (transaction : Pd.Row) (flags : list string) : Unusual :=
  {| date := Pd.strftime_ymd (Pd.Date transaction);
     description := Pd.Description transaction;
     amount := Pd.Abs_Amount transaction;
     category := Pd.Category transaction;
     flags := flags;
     severity :=
       if existsb (String.eqb "UNUSUALLY_HIGH_AMOUNT") flags
       then "High" else "Medium" |}.

Definition detect_unusual_transactions (df : Pd.DataFrame) : list Unusual :=
  if Pd.empty df then []
  else
    let expenses := Pd.expenses_of df in
    fold_left
      (fun unusual_transactions (row : nat * Pd.Row) =>
         let flags := flags_of expenses (fst row) (snd row) in
         match flags with
         | [] => unusual_transactions
         | _ => (unusual_transactions ++ [unusual (snd row) flags])%list
         end)
      (indexed expenses) [].

End UnusualTransactions.

(* ================================================================== *)
(** * transaction_retriever.py: the spending summary *)
(* ================================================================== *)

Module SpendingSummary.

(** The dict of [get_spending_summary].  The mean and the maximum of no
    expenses are NaN, here [None]; the breakdown is the dict of the
    three columns of the aggregate, each by category. *)
Record Summary : Type := mkSummary {
  total_transactions : Z;
  total_expenses : Z;
  total_spent : Q;
  average_transaction : option Q;
  largest_expense : option Q;
  breakdown_sum : list (string * Q);
  breakdown_count : list (string * Z);
  breakdown_mean : list (string * Q);
  daily_total : Q
}.

(** [s.mean()] and [s.max()], of a series that may be empty. *)
Definition mean_or_nan (l : list Q) : option Q :=
  match l with
  | [] => None
  | _ => Some (Pd.mean l)
  end.

Definition max_or_nan (l : list Q) : option Q :=
  match l with
  | [] => None
  | _ => Some (Pd.series_max l)
  end.

(** [get_spending_summary]; [None] is the empty dict. *)
Definition get_spending_summary (df : Pd.DataFrame) : option Summary :=
  if Pd.empty df then None
  else
    let expenses := Pd.expenses_of df in
    let groups := Pd.groupby String.compare Pd.Category expenses in
    Some
      {| total_transactions := Py.len df;
         total_expenses := Py.len expenses;
         total_spent := Py.sum (map Pd.Abs_Amount expenses);
         average_transaction := mean_or_nan (map Pd.Abs_Amount expenses);
         largest_expense := max_or_nan (map Pd.Abs_Amount expenses);
         breakdown_sum :=
           map (fun g => (fst g, Py.sum (map Pd.Abs_Amount (snd g)))) groups;
         breakdown_count := map (fun g => (fst g, Py.len (snd g))) groups;
         breakdown_mean :=
           map (fun g => (fst g, Pd.mean (map Pd.Abs_Amount (snd g)))) groups;
         daily_total := Py.sum (map Pd.Abs_Amount expenses) |}.

End SpendingSummary.

(* ================================================================== *)
(** * More samples *)
(* ================================================================== *)

Module MoreSamples.

(** A week that spends 150.00 of an income of 100.00. *)
Definition overspent_week : Pd.DataFrame :=
  [ Samples.transaction Samples.wednesday "Salary" "Income" 100.00;
    Samples.transaction Samples.thursday "Rent" "Housing" (-150.00) ].

(** The [analysis_results] without the entries of the workflow. *)
Definition no_results : RiskOfficerAnalysis.AnalysisResults :=
  RiskOfficerAnalysis.mkAnalysisResults None None.

(** One coffee: Food & Dining at 11% of its limit. *)
Definition one_coffee : Pd.DataFrame := [Samples.coffee].

Definition no_entry : OverspendingAnalyzer.CategoryAnalysis :=
  OverspendingAnalyzer.mkCategoryAnalysis "" 0 0 0 0 0 "" None None.

(** The first overspending alert of the four critical categories. *)
Definition first_critical : OverspendingAnalyzer.CategoryAnalysis :=
  hd no_entry
     (OverspendingAnalyzer.overspending_alerts
        (OverspendingAnalyzer.analyze_daily_overspending
           OverspendingAnalyzer.init Samples.four_critical)).

(** The first within-budget dict of the sample of the analyzer. *)
Definition first_within : OverspendingAnalyzer.CategoryAnalysis :=
  hd no_entry
     (OverspendingAnalyzer.within_budget
        (OverspendingAnalyzer.analyze_daily_overspending
           OverspendingAnalyzer.init Samples.sample_data)).

End MoreSamples.

(** ** The trends that the risk officer counts *)

Module WorkflowFacts.
Import DailyWorkflowAnalyzer.

(** The slope fitted to the daily spending of a category. *)
Definition slope_of (expenses : Pd.DataFrame) (category : string) : Q :=
  Np.polyfit_slope (daily_cat_spending expenses category).

(** The categories spent on on more than one day whose slope is above
    10, in order of first appearance. *)
Definition rising (expenses : Pd.DataFrame) : list string :=
  filter
    (fun c => (1 <? Py.len (daily_cat_spending expenses c))
              && Py.Qlt_bool 10 (slope_of expenses c))
    (unique (map Pd.Category expenses)).

End WorkflowFacts.

(** ** The two budget classifiers *)

Module ClassifierFacts.

(** The budget analyzer with the limits and thresholds of an
    overspending analyzer. *)
Definition budget_analyzer_of (self : OverspendingAnalyzer.t) : BudgetAnalyzer.t :=
  BudgetAnalyzer.mk (OverspendingAnalyzer.budget_limits self)
    (OverspendingAnalyzer.overspending_threshold self)
    (OverspendingAnalyzer.warning_threshold self).

(** The two dicts of a category report the same figures. *)
Definition same_entry (e : BudgetAnalyzer.CategoryEntry)
    (ca : OverspendingAnalyzer.CategoryAnalysis) : Prop :=
  BudgetAnalyzer.category e = OverspendingAnalyzer.category ca
  /\ BudgetAnalyzer.spent e = OverspendingAnalyzer.spent ca
  /\ BudgetAnalyzer.budget e = OverspendingAnalyzer.budget ca
  /\ BudgetAnalyzer.percentage e = OverspendingAnalyzer.percentage_used ca
  /\ BudgetAnalyzer.savings e = OverspendingAnalyzer.savings ca.

(** The figures that both analyzers report of a category. *)
Definition entry_figures (e : BudgetAnalyzer.CategoryEntry)
    : string * Q * Q * Q :=
  (BudgetAnalyzer.category e, BudgetAnalyzer.spent e, BudgetAnalyzer.budget e,
   BudgetAnalyzer.percentage e).

Definition analysis_figures (ca : OverspendingAnalyzer.CategoryAnalysis)
    : string * Q * Q * Q :=
  (OverspendingAnalyzer.category ca, OverspendingAnalyzer.spent ca,
   OverspendingAnalyzer.budget ca, OverspendingAnalyzer.percentage_used ca).

(** [entry['over_by']], 0 for an entry without the key. *)
Definition over_by_of (e : BudgetAnalyzer.CategoryEntry) : Q :=
  Py.get_or (BudgetAnalyzer.over_by e) 0%Q.

End ClassifierFacts.

(** ** The order of the normalized rows *)

Module NormalizerFacts.

(** A row is not older than a later row. *)
Definition newest_first (a b : Pd.Row) : Prop :=
  Pd.ts_compare (Pd.Date a) (Pd.Date b) <> Lt.

End NormalizerFacts.

(* ================================================================== *)
(** * Lemmas: roundings and square roots *)
(* ================================================================== *)

Section Roundings.

(** The rounded value is within one half of the number. *)
Lemma round_half_even_near : forall x : Q,
  (inject_Z (Py.round_half_even x) - (1 # 2) <= x
   /\ x <= inject_Z (Py.round_half_even x) + (1 # 2))%Q.
Proof.
  intros x. unfold Py.round_half_even.
  pose proof (Qfloor_le x) as Hlo.
  pose proof (Qlt_floor x) as Hhi.
  rewrite inject_Z_plus in Hhi. change (inject_Z 1) with 1%Q in Hhi.
  destruct (Qcompare_spec (x - inject_Z (Qfloor x)) (1 # 2)) as [E | L | G].
  - destruct (Z.even (Qfloor x)).
    + split; lra.
    + rewrite inject_Z_plus. change (inject_Z 1) with 1%Q. split; lra.
  - split; lra.
  - rewrite inject_Z_plus. change (inject_Z 1) with 1%Q. split; lra.
Qed.

(** [Sqrt.floor v] is the integer part of the square root of [v]. *)
Lemma sqrt_floor_spec : forall v : Q,
  (0 <= v)%Q ->
  0 <= Sqrt.floor v
  /\ (inject_Z (Sqrt.floor v * Sqrt.floor v) <= v)%Q
  /\ (v < inject_Z ((Sqrt.floor v + 1) * (Sqrt.floor v + 1)))%Q.
Proof.
  intros v Hv. unfold Sqrt.floor.
  assert (Hf : 0 <= Qfloor v).
  { change 0 with (Qfloor 0). apply Qfloor_resp_le, Hv. }
  pose proof (Z.sqrt_spec (Qfloor v) Hf) as [Hlo Hhi].
  pose proof (Z.sqrt_nonneg (Qfloor v)) as Hk.
  split; [exact Hk|]. split.
  - apply Qle_trans with (inject_Z (Qfloor v)); [|apply Qfloor_le].
    rewrite <- Zle_Qle. exact Hlo.
  - apply Qlt_le_trans with (inject_Z (Qfloor v + 1)); [apply Qlt_floor|].
    rewrite <- Zle_Qle. unfold Z.succ in Hhi. lia.
Qed.

(** [Sqrt.round_scaled scale v] is an integer within one half of
    [scale * sqrt v]: with [w = (2 * scale)^2 * v], the square of
    [2 * scale * sqrt v], it is a [k] with [2 k - 1 <= sqrt w <= 2 k + 1]. *)
Lemma sqrt_round_scaled_spec : forall (scale : Z) (v : Q),
  (0 <= v)%Q ->
  let w := (inject_Z (4 * scale * scale) * v)%Q in
  let k := Sqrt.round_scaled scale v in
  0 <= k
  /\ (w <= inject_Z ((2 * k + 1) * (2 * k + 1)))%Q
  /\ (1 <= k -> (inject_Z ((2 * k - 1) * (2 * k - 1)) <= w)%Q).
Proof.
  intros scale v Hv w k.
  assert (Hw : (0 <= w)%Q).
  { unfold w. apply Qmult_le_0_compat; [|exact Hv].
    change 0%Q with (inject_Z 0). rewrite <- Zle_Qle. nia. }
  destruct (sqrt_floor_spec w Hw) as (Hm & Hlo & Hhi).
  unfold k, Sqrt.round_scaled. fold w. unfold Sqrt.floor in *.
  set (m := Z.sqrt (Qfloor w)) in *.
  assert (Hle : forall a b : Z, a <= b -> (inject_Z a <= inject_Z b)%Q)
    by (intros a b H; rewrite <- Zle_Qle; exact H).
  destruct (Qeq_bool (inject_Z (m * m)) w && Z.odd m) eqn:T.
  - apply andb_true_iff in T. destruct T as [Tq To].
    apply Qeq_bool_iff in Tq.
    rewrite <- Z.negb_even in To. apply negb_true_iff in To.
    pose proof (Z.div_mod m 2 ltac:(lia)) as Hd.
    rewrite Zmod_even, To in Hd.
    assert (E1 : (m - 1) / 2 = m / 2).
    { replace (m - 1) with (m / 2 * 2) by lia. apply Z.div_mul. lia. }
    assert (E2 : (m + 1) / 2 = m / 2 + 1).
    { replace (m + 1) with ((m / 2 + 1) * 2) by lia. apply Z.div_mul. lia. }
    rewrite E1, E2. set (j := m / 2) in *.
    destruct (Z.even j); rewrite <- Tq.
    + split; [lia|]. split; [apply Hle; nia | intros H; apply Hle; nia].
    + split; [lia|]. split; [apply Hle; nia | intros H; apply Hle; nia].
  - pose proof (Z.div_mod (m + 1) 2 ltac:(lia)) as Hd.
    pose proof (Z.mod_pos_bound (m + 1) 2 ltac:(lia)) as Hr.
    set (j := (m + 1) / 2) in *.
    split; [lia|]. split.
    + apply Qle_trans with (inject_Z ((m + 1) * (m + 1))); [lra|].
      apply Hle. nia.
    + intros H.
      apply Qle_trans with (inject_Z (m * m)); [|exact Hlo].
      apply Hle. nia.
Qed.

End Roundings.

(* ================================================================== *)
(** * Lemmas: keys of a group-by *)
(* ================================================================== *)

Section KeyOrder.

Variable K : Type.
Variable cmp : K -> K -> comparison.
Hypothesis cmp_eq : forall a b, cmp a b = Eq <-> a = b.
Hypothesis cmp_antisym : forall a b, cmp a b = CompOpp (cmp b a).
Hypothesis cmp_trans :
  forall a b c, cmp a b = Lt -> cmp b c = Lt -> cmp a c = Lt.

Lemma key_lt_irrefl : forall a, ~ Pd.key_lt cmp a a.
Proof.
  intros a H. unfold Pd.key_lt in H.
  assert (E : cmp a a = Eq) by (apply cmp_eq; reflexivity).
  congruence.
Qed.

Lemma key_gt_lt : forall a b, cmp a b = Gt -> Pd.key_lt cmp b a.
Proof.
  intros a b H. unfold Pd.key_lt. rewrite cmp_antisym, H. reflexivity.
Qed.

Lemma same_key_eq : forall a b, Pd.same_key cmp a b = true <-> a = b.
Proof.
  intros a b. unfold Pd.same_key. rewrite <- cmp_eq.
  destruct (cmp a b); split; congruence.
Qed.

Lemma insert_key_In : forall k x l,
  In x (Pd.insert_key cmp k l) <-> x = k \/ In x l.
Proof.
  intros k x l. induction l as [|y l IH]; simpl.
  - intuition.
  - destruct (cmp k y) eqn:E; simpl.
    + apply cmp_eq in E. subst y. intuition.
    + intuition.
    + rewrite IH. intuition.
Qed.

Lemma insert_key_sorted : forall k l,
  StronglySorted (Pd.key_lt cmp) l -> StronglySorted (Pd.key_lt cmp) (Pd.insert_key cmp k l).
Proof.
  intros k l H. induction H as [|y l Hs IH Hy]; simpl.
  - constructor; constructor.
  - destruct (cmp k y) eqn:E.
    + constructor; assumption.
    + constructor; [constructor; assumption|].
      constructor; [exact E|].
      rewrite Forall_forall in *. intros z Hz.
      apply cmp_trans with y; [exact E | apply Hy, Hz].
    + constructor; [exact IH|].
      rewrite Forall_forall in *. intros z Hz.
      apply insert_key_In in Hz. destruct Hz as [-> | Hz].
      * apply key_gt_lt, E.
      * apply Hy, Hz.
Qed.

Lemma sorted_keys_In : forall x l, In x (Pd.sorted_keys cmp l) <-> In x l.
Proof.
  intros x l. induction l as [|y l IH]; simpl.
  - reflexivity.
  - rewrite insert_key_In, IH. intuition.
Qed.

Lemma sorted_keys_sorted : forall l, StronglySorted (Pd.key_lt cmp) (Pd.sorted_keys cmp l).
Proof.
  induction l as [|y l IH]; simpl.
  - constructor.
  - apply insert_key_sorted, IH.
Qed.

Lemma sorted_NoDup : forall l, StronglySorted (Pd.key_lt cmp) l -> NoDup l.
Proof.
  intros l H. induction H as [|y l Hs IH Hy].
  - constructor.
  - constructor; [|exact IH].
    intros Hin. rewrite Forall_forall in Hy.
    exact (key_lt_irrefl y (Hy y Hin)).
Qed.

Lemma sorted_keys_NoDup : forall l, NoDup (Pd.sorted_keys cmp l).
Proof. intros l. apply sorted_NoDup, sorted_keys_sorted. Qed.

(** A strictly increasing list is determined by its elements. *)
Lemma sorted_ext : forall l l',
  StronglySorted (Pd.key_lt cmp) l -> StronglySorted (Pd.key_lt cmp) l' ->
  (forall x, In x l <-> In x l') -> l = l'.
Proof.
  intros l l' H. revert l'.
  induction H as [|y l Hs IH Hy]; intros l' H' Hin.
  - destruct l' as [|z l']; [reflexivity|].
    exfalso. apply (Hin z). left. reflexivity.
  - destruct H' as [|z l' Hs' Hz].
    + exfalso. apply (Hin y). left. reflexivity.
    + rewrite Forall_forall in Hy, Hz.
      assert (y = z) as ->.
      { destruct (proj1 (Hin y) (or_introl eq_refl)) as [E | Hyl']; [auto|].
        destruct (proj2 (Hin z) (or_introl eq_refl)) as [E | Hzl]; [auto|].
        exfalso. apply (key_lt_irrefl y).
        apply cmp_trans with z; [apply Hy, Hzl | apply Hz, Hyl']. }
      f_equal. apply IH; [exact Hs'|].
      intros x. split; intros Hx.
      * destruct (proj1 (Hin x) (or_intror Hx)) as [E | Hx']; [|exact Hx'].
        subst x. exfalso. exact (key_lt_irrefl z (Hy z Hx)).
      * destruct (proj2 (Hin x) (or_intror Hx)) as [E | Hx']; [|exact Hx'].
        subst x. exfalso. exact (key_lt_irrefl z (Hz z Hx)).
Qed.

Lemma sorted_keys_perm : forall l l',
  Permutation l l' -> Pd.sorted_keys cmp l = Pd.sorted_keys cmp l'.
Proof.
  intros l l' HP. apply sorted_ext; try apply sorted_keys_sorted.
  intros x. rewrite !sorted_keys_In.
  split; apply Permutation_in; [exact HP | symmetry; exact HP].
Qed.

End KeyOrder.

(** The order of Python strings. *)
Lemma ascii_compare_trans : forall a b c,
  Ascii.compare a b = Lt -> Ascii.compare b c = Lt -> Ascii.compare a c = Lt.
Proof.
  unfold Ascii.compare. intros a b c.
  rewrite !N.compare_lt_iff. lia.
Qed.

Lemma ascii_compare_eq : forall a b, Ascii.compare a b = Eq -> a = b.
Proof.
  unfold Ascii.compare. intros a b H. apply N.compare_eq in H.
  rewrite <- (ascii_N_embedding a), <- (ascii_N_embedding b). congruence.
Qed.

Lemma string_compare_trans : forall a b c,
  String.compare a b = Lt -> String.compare b c = Lt -> String.compare a c = Lt.
Proof.
  induction a as [|x a IH]; intros [|y b] [|z c]; simpl; try congruence.
  destruct (Ascii.compare x y) eqn:Exy; try congruence;
  destruct (Ascii.compare y z) eqn:Eyz; try congruence; intros H1 H2.
  - apply ascii_compare_eq in Exy, Eyz. subst.
    assert (E : Ascii.compare z z = Eq)
      by (unfold Ascii.compare; apply N.compare_refl).
    rewrite E. eapply IH; eassumption.
  - apply ascii_compare_eq in Exy. subst. rewrite Eyz. reflexivity.
  - apply ascii_compare_eq in Eyz. subst. rewrite Exy. reflexivity.
  - rewrite (ascii_compare_trans _ _ _ Exy Eyz). reflexivity.
Qed.

Lemma string_compare_refl : forall a, String.compare a a = Eq.
Proof.
  induction a as [|x a IH]; simpl; [reflexivity|].
  unfold Ascii.compare. rewrite N.compare_refl. exact IH.
Qed.

Lemma string_compare_eq : forall a b, String.compare a b = Eq <-> a = b.
Proof.
  intros a b. split.
  - apply String.compare_eq_iff.
  - intros ->. apply string_compare_refl.
Qed.

Lemma category_keys_In : forall x l,
  In x (Pd.sorted_keys String.compare l) <-> In x l.
Proof. apply sorted_keys_In. exact string_compare_eq. Qed.

Lemma category_keys_NoDup : forall l, NoDup (Pd.sorted_keys String.compare l).
Proof.
  apply sorted_keys_NoDup.
  - exact string_compare_eq.
  - exact String.compare_antisym.
  - exact string_compare_trans.
Qed.

Lemma category_keys_perm : forall l l',
  Permutation l l' ->
  Pd.sorted_keys String.compare l = Pd.sorted_keys String.compare l'.
Proof.
  apply sorted_keys_perm.
  - exact string_compare_eq.
  - exact String.compare_antisym.
  - exact string_compare_trans.
Qed.

Lemma same_category_eqb : forall a b,
  Pd.same_key String.compare a b = String.eqb a b.
Proof.
  intros a b. destruct (String.eqb_spec a b) as [E | E].
  - apply same_key_eq; [exact string_compare_eq | exact E].
  - destruct (Pd.same_key String.compare a b) eqn:H; [|reflexivity].
    apply same_key_eq in H; [contradiction | exact string_compare_eq].
Qed.

(* ================================================================== *)
(** * Lemmas: sums *)
(* ================================================================== *)

Lemma Qplus_swap : forall a x y : Q, (a + x + y)%Q = (a + y + x)%Q.
Proof.
  intros [an ad] [xn xd] [yn yd]. unfold Qplus. simpl. f_equal; lia.
Qed.

Lemma fold_sum_perm : forall l l',
  Permutation l l' ->
  forall a, fold_left Qplus l a = fold_left Qplus l' a.
Proof.
  induction 1 as [|x l l' _ IH|x y l|l l' l'' _ IH1 _ IH2]; intros a; simpl.
  - reflexivity.
  - apply IH.
  - rewrite Qplus_swap. reflexivity.
  - rewrite IH1. apply IH2.
Qed.

Lemma sum_perm : forall l l', Permutation l l' -> Py.sum l = Py.sum l'.
Proof. intros l l' H. apply fold_sum_perm, H. Qed.

Lemma fold_sum_shift : forall l a,
  (fold_left Qplus l a == a + fold_left Qplus l 0)%Q.
Proof.
  induction l as [|x l IH]; intros a; simpl.
  - ring.
  - rewrite IH, (IH (0 + x)%Q). ring.
Qed.

Lemma sum_cons : forall x l, (Py.sum (x :: l) == x + Py.sum l)%Q.
Proof.
  intros x l. unfold Py.sum. simpl. rewrite fold_sum_shift. ring.
Qed.

Lemma sum_nil : Py.sum [] = 0%Q.
Proof. reflexivity. Qed.

Lemma sum_nonneg : forall l,
  Forall (fun x => 0 <= x)%Q l -> (0 <= Py.sum l)%Q.
Proof.
  induction 1 as [|x l Hx _ IH].
  - rewrite sum_nil. lra.
  - rewrite sum_cons. cbv beta in Hx. lra.
Qed.

Lemma sum_filter_split : forall (A : Type) (f : A -> Q) (p : A -> bool) l,
  (Py.sum (map f (filter p l)) + Py.sum (map f (filter (fun x => negb (p x)) l))
   == Py.sum (map f l))%Q.
Proof.
  intros A f p l. induction l as [|x l IH]; simpl.
  - rewrite sum_nil. ring.
  - destruct (p x); simpl; rewrite !sum_cons, <- IH; ring.
Qed.

Lemma Qlt_bool_iff : forall x y, Py.Qlt_bool x y = true <-> (x < y)%Q.
Proof.
  intros x y. unfold Py.Qlt_bool. rewrite negb_true_iff.
  split.
  - intros H. apply Qnot_le_lt. intros C. apply Qle_bool_iff in C. congruence.
  - intros H. destruct (Qle_bool y x) eqn:E; [|reflexivity].
    apply Qle_bool_iff in E. lra.
Qed.

Lemma Qlt_bool_false_iff : forall x y, Py.Qlt_bool x y = false <-> (y <= x)%Q.
Proof.
  intros x y. unfold Py.Qlt_bool. rewrite negb_false_iff. apply Qle_bool_iff.
Qed.

Lemma Qle_bool_false_iff : forall x y, Qle_bool x y = false <-> (y < x)%Q.
Proof.
  intros x y. split.
  - intros H. apply Qnot_le_lt. intros C. apply Qle_bool_iff in C. congruence.
  - intros H. destruct (Qle_bool x y) eqn:E; [|reflexivity].
    apply Qle_bool_iff in E. lra.
Qed.

(* ================================================================== *)
(** * Lemmas: the loop of the overspending analyzer *)
(* ================================================================== *)

Section OverspendingLoop.

Import OverspendingAnalyzer OverspendingFacts.

Variable self : t.
Variable expenses : Pd.DataFrame.

Lemma analyze_category_built : forall a item,
  analyze_category self expenses a item =
  match built self expenses item with
  | None => a
  | Some ca =>
      if has_status "OVERSPENDING" ca then append_overspending a ca
      else if has_status "WARNING" ca then append_warning a ca
      else append_within a ca
  end.
Proof.
  intros a [c s]. unfold analyze_category, built, category_rows.
  destruct (Qeq_bool _ 0); [reflexivity|].
  destruct (Qle_bool (overspending_threshold self * 100) _); [reflexivity|].
  destruct (Qle_bool (warning_threshold self * 100) _); reflexivity.
Qed.

Lemma built_status : forall item ca,
  built self expenses item = Some ca ->
  status ca = "OVERSPENDING" \/ status ca = "WARNING"
  \/ status ca = "WITHIN_BUDGET".
Proof.
  intros [c s] ca. unfold built.
  destruct (Qeq_bool _ 0); [discriminate|].
  destruct (Qle_bool (overspending_threshold self * 100) _);
    [|destruct (Qle_bool (warning_threshold self * 100) _)];
    intros H; injection H as <-; simpl; auto.
Qed.

Lemma entries_cons : forall item items,
  entries self expenses (item :: items)
  = match built self expenses item with
    | Some ca => ca :: entries self expenses items
    | None => entries self expenses items
    end.
Proof.
  intros item items. unfold entries. simpl.
  destruct (built self expenses item); reflexivity.
Qed.

Lemma loop_lists : forall items a,
  let r := fold_left (analyze_category self expenses) items a in
  overspending_alerts r
  = (overspending_alerts a
     ++ filter (has_status "OVERSPENDING") (entries self expenses items))%list
  /\ warning_alerts r
     = (warning_alerts a
        ++ filter (has_status "WARNING") (entries self expenses items))%list
  /\ within_budget r
     = (within_budget a
        ++ filter (has_status "WITHIN_BUDGET") (entries self expenses items))%list.
Proof.
  induction items as [|item items IH]; intros a; cbn [fold_left].
  - simpl. rewrite !app_nil_r. auto.
  - specialize (IH (analyze_category self expenses a item)).
    cbv zeta in IH. destruct IH as (IH1 & IH2 & IH3).
    rewrite IH1, IH2, IH3, analyze_category_built, entries_cons.
    destruct (built self expenses item) as [ca|] eqn:B; [|auto].
    destruct (built_status _ _ B) as [S | [S | S]];
      unfold has_status; simpl; rewrite S; simpl;
      rewrite <- ?app_assoc; simpl; auto.
Qed.

Lemma loop_frame : forall items a,
  let r := fold_left (analyze_category self expenses) items a in
  date r = date a /\ total_spent r = total_spent a
  /\ total_transactions r = total_transactions a
  /\ categories_analyzed r = categories_analyzed a
  /\ recommendations r = recommendations a
  /\ spending_score r = spending_score a /\ risk_level r = risk_level a.
Proof.
  induction items as [|item items IH]; intros a; simpl.
  - repeat split.
  - specialize (IH (analyze_category self expenses a item)). simpl in IH.
    rewrite analyze_category_built in *.
    destruct (built self expenses item) as [ca|]; [|exact IH].
    destruct (has_status "OVERSPENDING" ca); [exact IH|].
    destruct (has_status "WARNING" ca); exact IH.
Qed.

End OverspendingLoop.

(* ================================================================== *)
(** * Lemmas: the result of the overspending analyzer *)
(* ================================================================== *)

Section OverspendingResult.

Import OverspendingAnalyzer OverspendingFacts.

Variable self : t.

Lemma filter_comm : forall (A : Type) (f g : A -> bool) l,
  filter f (filter g l) = filter g (filter f l).
Proof.
  intros A f g l. induction l as [|x l IH]; simpl; [reflexivity|].
  destruct (f x) eqn:F, (g x) eqn:G; simpl; rewrite ?F, ?G, IH; reflexivity.
Qed.

Lemma category_spending_items : forall df,
  category_spending df
  = map (fun k => (k, Py.sum (map Pd.Abs_Amount
                                  (category_rows (Pd.expenses_of df) k))))
        (Pd.sorted_keys String.compare
           (map Pd.Category (Pd.expenses_of df))).
Proof.
  intros df. unfold category_spending, Pd.groupby_sum, Pd.groupby.
  rewrite map_map. apply map_ext. intros k. simpl.
  unfold category_rows. do 3 f_equal.
  apply filter_ext. intros r. apply same_category_eqb.
Qed.

(** The three lists of the result, as selections of the built dicts. *)
Lemma analyze_lists : forall df,
  let r := analyze_daily_overspending self df in
  let es := entries self (Pd.expenses_of df) (category_spending df) in
  overspending_alerts r = filter (has_status "OVERSPENDING") es
  /\ warning_alerts r = filter (has_status "WARNING") es
  /\ within_budget r = filter (has_status "WITHIN_BUDGET") es.
Proof.
  intros [|first df]; [repeat split|].
  cbv zeta. unfold analyze_daily_overspending, set_recommendations,
    set_risk_level, set_spending_score.
  cbn [overspending_alerts warning_alerts within_budget].
  match goal with
  | |- context [fold_left ?f ?items ?a] =>
      destruct (loop_lists self (Pd.expenses_of (first :: df)) items a)
        as (H1 & H2 & H3)
  end.
  unfold category_spending. rewrite H1, H2, H3. auto.
Qed.

Lemma built_category : forall expenses item ca,
  built self expenses item = Some ca -> category ca = fst item.
Proof.
  intros expenses [c s] ca. unfold built.
  destruct (Qeq_bool _ 0); [discriminate|].
  destruct (Qle_bool (overspending_threshold self * 100) _);
    [|destruct (Qle_bool (warning_threshold self * 100) _)];
    intros H; injection H as <-; reflexivity.
Qed.

Lemma about_entries_absent : forall expenses (g : string -> Q) c keys,
  ~ In c keys ->
  about c (entries self expenses (map (fun k => (k, g k)) keys)) = [].
Proof.
  intros expenses g c keys. induction keys as [|k keys IH]; intros Hc.
  - reflexivity.
  - cbn [map]. rewrite entries_cons.
    assert (Hk : k <> c) by (intros ->; apply Hc; left; reflexivity).
    assert (IH' : about c (entries self expenses (map (fun k => (k, g k)) keys)) = [])
      by (apply IH; intros H; apply Hc; right; exact H).
    destruct (built self expenses (k, g k)) as [ca|] eqn:B; [|exact IH'].
    apply built_category in B. simpl in B.
    unfold about in *. simpl. rewrite B.
    destruct (String.eqb_spec k c); [contradiction | exact IH'].
Qed.

Lemma about_entries_present : forall expenses (g : string -> Q) c keys,
  NoDup keys -> In c keys ->
  about c (entries self expenses (map (fun k => (k, g k)) keys))
  = match built self expenses (c, g c) with
    | Some ca => [ca]
    | None => []
    end.
Proof.
  intros expenses g c keys ND. induction ND as [|k keys Hk ND IH]; intros Hc.
  - destruct Hc.
  - cbn [map]. rewrite entries_cons. destruct Hc as [-> | Hc].
    + pose proof (about_entries_absent expenses g c keys Hk) as Habs.
      destruct (built self expenses (c, g c)) as [ca|] eqn:B; [|exact Habs].
      apply built_category in B. simpl in B.
      unfold about in *. simpl. rewrite B, String.eqb_refl, Habs. reflexivity.
    + assert (Hne : k <> c) by (intros ->; contradiction).
      destruct (built self expenses (k, g k)) as [ca|] eqn:B; [|auto].
      apply built_category in B. simpl in B.
      unfold about in *. simpl. rewrite B.
      destruct (String.eqb_spec k c); [contradiction | auto].
Qed.

(** The dicts about a category, in each list of the result. *)
Lemma about_result : forall df c s,
  about c (filter (has_status s)
             (entries self (Pd.expenses_of df) (category_spending df)))
  = if in_dec string_dec c (map Pd.Category (Pd.expenses_of df)) then
      match built self (Pd.expenses_of df)
              (c, Py.sum (map Pd.Abs_Amount
                            (category_rows (Pd.expenses_of df) c))) with
      | Some ca => if has_status s ca then [ca] else []
      | None => []
      end
    else [].
Proof.
  intros df c s. unfold about at 1. rewrite filter_comm.
  fold (about c (entries self (Pd.expenses_of df) (category_spending df))).
  rewrite category_spending_items.
  destruct (in_dec string_dec c (map Pd.Category (Pd.expenses_of df)))
    as [Hin | Hout].
  - rewrite about_entries_present.
    + destruct (built self _ _) as [ca|]; [|reflexivity].
      simpl. destruct (has_status s ca); reflexivity.
    + apply category_keys_NoDup.
    + apply category_keys_In, Hin.
  - rewrite about_entries_absent; [reflexivity|].
    rewrite category_keys_In. exact Hout.
Qed.

End OverspendingResult.

Section StatusPartition.

Import OverspendingAnalyzer OverspendingFacts.

Lemma built_configured : forall self expenses c spent,
  let limit := Py.get (budget_limits self) c 0%Q in
  let pct := (spent / limit * 100)%Q in
  let o := (overspending_threshold self * 100)%Q in
  let w := (warning_threshold self * 100)%Q in
  ~ (limit == 0)%Q ->
  exists ca,
    built self expenses (c, spent) = Some ca
    /\ category ca = c /\ OverspendingAnalyzer.spent ca = spent
    /\ budget ca = limit /\ percentage_used ca = pct
    /\ ((o <= pct)%Q -> status ca = "OVERSPENDING")
    /\ ((pct < o)%Q -> (w <= pct)%Q -> status ca = "WARNING")
    /\ ((pct < o)%Q -> (pct < w)%Q -> status ca = "WITHIN_BUDGET").
Proof.
  intros self expenses c spent limit pct o w Hl.
  unfold built. fold limit. fold pct. fold o. fold w.
  destruct (Qeq_bool limit 0) eqn:E0.
  { apply Qeq_bool_iff in E0. contradiction. }
  destruct (Qle_bool o pct) eqn:Eo.
  { apply Qle_bool_iff in Eo. eexists. split; [reflexivity|].
    cbn. repeat split; intros; try reflexivity; lra. }
  apply Qle_bool_false_iff in Eo.
  destruct (Qle_bool w pct) eqn:Ew.
  { apply Qle_bool_iff in Ew. eexists. split; [reflexivity|].
    cbn. repeat split; intros; try reflexivity; lra. }
  apply Qle_bool_false_iff in Ew.
  eexists. split; [reflexivity|].
  cbn. repeat split; intros; try reflexivity; lra.
Qed.

(** C1 (amended).  Every category that occurs among the expense rows of
    the batch and has a budget limit above 0 gets exactly one dict, in
    exactly one of the three lists, and the list and the status are
    those of the threshold arithmetic on
    [percentage_used = spent / budget * 100], the boundaries included:
    at [overspending_threshold * 100] the status is OVERSPENDING, and
    at [warning_threshold * 100], below the other threshold, it is
    WARNING.  A category whose limit is 0 or not configured is in none
    of the lists. *)
Theorem status_partition :
  forall (self : t) (df : Pd.DataFrame) (c : string),
    let r := analyze_daily_overspending self df in
    let limit := Py.get (budget_limits self) c 0%Q in
    let pct := (category_spent df c / limit * 100)%Q in
    let o := (overspending_threshold self * 100)%Q in
    let w := (warning_threshold self * 100)%Q in
    (In c (map Pd.Category (Pd.expenses_of df)) -> (0 < limit)%Q ->
     exists ca,
       category ca = c /\ spent ca = category_spent df c
       /\ budget ca = limit /\ percentage_used ca = pct
       /\ ((o <= pct)%Q ->
           status ca = "OVERSPENDING"
           /\ about c (overspending_alerts r) = [ca]
           /\ about c (warning_alerts r) = []
           /\ about c (within_budget r) = [])
       /\ ((pct < o)%Q -> (w <= pct)%Q ->
           status ca = "WARNING"
           /\ about c (overspending_alerts r) = []
           /\ about c (warning_alerts r) = [ca]
           /\ about c (within_budget r) = [])
       /\ ((pct < o)%Q -> (pct < w)%Q ->
           status ca = "WITHIN_BUDGET"
           /\ about c (overspending_alerts r) = []
           /\ about c (warning_alerts r) = []
           /\ about c (within_budget r) = [ca])
       /\ ((pct == o)%Q ->
           status ca = "OVERSPENDING"
           /\ about c (overspending_alerts r) = [ca])
       /\ ((pct == w)%Q -> (w < o)%Q ->
           status ca = "WARNING" /\ about c (warning_alerts r) = [ca]))
    /\ ((limit == 0)%Q ->
        about c (overspending_alerts r) = []
        /\ about c (warning_alerts r) = []
        /\ about c (within_budget r) = []).
Proof.
  intros self df c r limit pct o w.
  destruct (analyze_lists self df) as (L1 & L2 & L3).
  fold r in L1, L2, L3. rewrite L1, L2, L3.
  rewrite !about_result. fold (category_spent df c).
  split.
  - intros Hin Hpos.
    destruct (in_dec string_dec c (map Pd.Category (Pd.expenses_of df)))
      as [_ | Hout]; [|contradiction].
    destruct (built_configured self (Pd.expenses_of df) c (category_spent df c))
      as (ca & B & Hc & Hs & Hb & Hp & So & Sw & Sb).
    { fold limit. lra. }
    fold limit in Hb, Hp, So, Sw, Sb. fold pct in Hp, So, Sw, Sb.
    fold o in So, Sw, Sb. fold w in Sw, Sb.
    rewrite B. exists ca. unfold has_status.
    repeat split; try assumption;
      try (rewrite So by lra); try (rewrite Sw by lra);
      try (rewrite Sb by lra); try reflexivity.
  - intros Hz.
    assert (B : built self (Pd.expenses_of df) (c, category_spent df c) = None).
    { unfold built. fold limit.
      apply Qeq_bool_iff in Hz. rewrite Hz. reflexivity. }
    rewrite B.
    destruct (in_dec string_dec c (map Pd.Category (Pd.expenses_of df)));
      auto.
Qed.

End StatusPartition.

Section SpendingScore.

Import OverspendingAnalyzer OverspendingFacts.

Variable self : t.

Lemma severity_cases : forall pct,
  _calculate_severity pct = "Critical" \/ _calculate_severity pct = "High"
  \/ _calculate_severity pct = "Medium" \/ _calculate_severity pct = "Low".
Proof.
  intros pct. unfold _calculate_severity.
  destruct (Qle_bool 200 pct); [auto|].
  destruct (Qle_bool 150 pct); [auto|].
  destruct (Qle_bool 120 pct); auto.
Qed.

Lemma count_cons : forall p item items,
  ScoreSpec.count p (item :: items)
  = (if p item then 1 else 0) + ScoreSpec.count p items.
Proof.
  intros p item items. unfold ScoreSpec.count, Py.len. simpl.
  destruct (p item); simpl List.length; lia.
Qed.

Lemma len_cons : forall (A : Type) (x : A) l, Py.len (x :: l) = 1 + Py.len l.
Proof. intros. unfold Py.len. simpl List.length. lia. Qed.

(** The deductions and the lengths, as counts over the items. *)
Lemma score_counts : forall expenses items s0,
  let es := entries self expenses items in
  fold_left (fun score alert => score - deduction alert)
            (filter (has_status "OVERSPENDING") es) s0
  = s0 - 30 * ScoreSpec.overspending_count self "Critical" items
       - 20 * ScoreSpec.overspending_count self "High" items
       - 15 * ScoreSpec.overspending_count self "Medium" items
       - 10 * ScoreSpec.overspending_count self "Low" items
  /\ Py.len (filter (has_status "WARNING") es)
     = ScoreSpec.count (ScoreSpec.is_warning self) items
  /\ Py.len (filter (has_status "WITHIN_BUDGET") es)
     = ScoreSpec.count (ScoreSpec.is_within_budget self) items.
Proof.
  intros expenses items. induction items as [|item items IH]; intros s0.
  - cbn. repeat split; lia.
  - cbv zeta. rewrite entries_cons.
    unfold ScoreSpec.overspending_count in *. rewrite !count_cons.
    set (nC := ScoreSpec.count (ScoreSpec.is_overspending_with self "Critical") items) in *.
    set (nH := ScoreSpec.count (ScoreSpec.is_overspending_with self "High") items) in *.
    set (nM := ScoreSpec.count (ScoreSpec.is_overspending_with self "Medium") items) in *.
    set (nL := ScoreSpec.count (ScoreSpec.is_overspending_with self "Low") items) in *.
    set (nW := ScoreSpec.count (ScoreSpec.is_warning self) items) in *.
    set (nB := ScoreSpec.count (ScoreSpec.is_within_budget self) items) in *.
    unfold ScoreSpec.is_overspending_with.
    unfold ScoreSpec.is_overspending, ScoreSpec.is_warning,
      ScoreSpec.is_within_budget, ScoreSpec.configured, ScoreSpec.percentage,
      ScoreSpec.limit_of.
    destruct item as [c s]. unfold built. cbn [fst snd].
    destruct (Qeq_bool (Py.get (budget_limits self) c 0%Q) 0).
    { cbn [negb andb]. specialize (IH s0). cbv zeta in IH.
      destruct IH as (I1 & I2 & I3). rewrite I1, I2, I3. repeat split; lia. }
    cbn [negb andb].
    destruct (Qle_bool (overspending_threshold self * 100) _).
    { cbn [negb andb filter has_status status String.eqb Ascii.eqb Bool.eqb
             fold_left].
      destruct (severity_cases
                  (s / Py.get (budget_limits self) c 0%Q * 100)%Q)
        as [E | [E | [E | E]]]; rewrite E;
        cbn [String.eqb Ascii.eqb Bool.eqb andb];
        match goal with
        | |- context [s0 - deduction ?ca] =>
            let v := eval cbv beta iota delta
                       [deduction severity severity_is String.eqb Ascii.eqb Bool.eqb]
                     in (deduction ca) in
            change (deduction ca) with v
        end;
        match goal with
        | |- context [fold_left _ _ (s0 - ?d)] =>
            specialize (IH (s0 - d))
        end;
        cbv zeta in IH; destruct IH as (I1 & I2 & I3);
        rewrite I1, I2, I3; repeat split; lia. }
    destruct (Qle_bool (warning_threshold self * 100) _).
    { cbn [negb andb filter has_status status String.eqb Ascii.eqb Bool.eqb].
      rewrite len_cons.
      specialize (IH s0). cbv zeta in IH.
      destruct IH as (I1 & I2 & I3). rewrite I1, I2, I3. repeat split; lia. }
    cbn [negb andb filter has_status status String.eqb Ascii.eqb Bool.eqb].
    rewrite len_cons.
    specialize (IH s0). cbv zeta in IH.
    destruct IH as (I1 & I2 & I3). rewrite I1, I2, I3. repeat split; lia.
Qed.

End SpendingScore.

Section SpendingScoreTheorem.

Import OverspendingAnalyzer OverspendingFacts.

Lemma int_nonneg : forall x : Q, (0 <= x)%Q -> 0 <= Py.int x.
Proof.
  intros [n d] H. unfold Py.int. cbn [Qnum Qden].
  apply Z.quot_pos; [|lia].
  unfold Qle in H. cbn in H. lia.
Qed.

Lemma bonus_bounds : forall self total_spent,
  (0 <= total_spent)%Q ->
  0 <= ScoreSpec.under_budget_bonus self total_spent <= 15.
Proof.
  intros self ts Hs. unfold ScoreSpec.under_budget_bonus.
  set (tb := Py.sum (map snd (budget_limits self))).
  destruct (Py.Qlt_bool ts (tb * 0.8)) eqn:E; [|lia].
  apply Qlt_bool_iff in E.
  assert (Hpos : (0 < tb)%Q) by lra.
  assert (Hfrac : (0 <= (tb - ts) / tb * 20)%Q).
  { apply Qmult_le_0_compat; [|lra].
    apply Qle_shift_div_l; [exact Hpos | lra]. }
  pose proof (int_nonneg _ Hfrac). lia.
Qed.

(** The score of a non-empty batch is the score of the loop result. *)
Lemma analyze_score : forall self first df,
  spending_score (analyze_daily_overspending self (first :: df))
  = let es := entries self (Pd.expenses_of (first :: df))
                      (category_spending (first :: df)) in
    let total := Py.sum (map Pd.Abs_Amount (Pd.expenses_of (first :: df))) in
    let total_budget := Py.sum (map snd (budget_limits self)) in
    ScoreSpec.clamp
      ((fold_left (fun score alert => score - deduction alert)
                  (filter (has_status "OVERSPENDING") es) 100
        - Py.len (filter (has_status "WARNING") es) * 5
        + Py.len (filter (has_status "WITHIN_BUDGET") es) * 3)
       + (if Py.Qlt_bool 0 total_budget
             && Py.Qlt_bool total (total_budget * 0.8)
          then Z.min 15 (Py.int ((total_budget - total) / total_budget * 20))
          else 0)).
Proof.
  intros self first df.
  unfold analyze_daily_overspending, set_recommendations, set_risk_level,
    set_spending_score.
  cbn [spending_score]. unfold _calculate_spending_score.
  match goal with
  | |- context [fold_left (analyze_category self ?e) ?items ?a] =>
      destruct (loop_lists self e items a) as (H1 & H2 & H3);
      destruct (loop_frame self e items a) as (_ & H4 & _)
  end.
  rewrite H1, H2, H3, H4. cbn [overspending_alerts warning_alerts
    within_budget total_spent app].
  fold (category_spending (first :: df)). cbv zeta.
  unfold ScoreSpec.clamp.
  destruct (Py.Qlt_bool 0 _ && Py.Qlt_bool _ _); f_equal; f_equal; lia.
Qed.

(** C2.  The spending score lies in [0, 100]; for a non-empty batch,
    whose absolute amounts are not negative, it is the clamp to [0, 100] of
    100, minus 30, 20, 15 and 10 per OVERSPENDING category of severity
    Critical, High, Medium and Low, minus 5 per WARNING category, plus 3
    per WITHIN_BUDGET category, plus the under-budget bonus, which is
    between 0 and 15. *)
Theorem spending_score_formula :
  (forall self df,
      0 <= spending_score (analyze_daily_overspending self df) <= 100)
  /\ (forall self df,
         df <> [] ->
         Forall (fun r => 0 <= Pd.Abs_Amount r)%Q df ->
         spending_score (analyze_daily_overspending self df)
         = ScoreSpec.spending_score self df
         /\ 0 <= ScoreSpec.under_budget_bonus self
                   (total_spent (analyze_daily_overspending self df)) <= 15).
Proof.
  split.
  - intros self [|first df]; [cbn; lia|].
    rewrite analyze_score. cbv zeta. unfold ScoreSpec.clamp. lia.
  - intros self [|first df] Hne Ha; [congruence|].
    assert (Hts : (0 <= Py.sum (map Pd.Abs_Amount
                                   (Pd.expenses_of (first :: df))))%Q).
    { apply sum_nonneg. rewrite Forall_map.
      unfold Pd.expenses_of. rewrite Forall_forall in *.
      intros r Hr. apply filter_In in Hr. apply Ha, Hr. }
    assert (Htotal : total_spent (analyze_daily_overspending self (first :: df))
                     = Py.sum (map Pd.Abs_Amount (Pd.expenses_of (first :: df)))).
    { unfold analyze_daily_overspending, set_recommendations, set_risk_level,
        set_spending_score. cbn [total_spent].
      match goal with
      | |- context [fold_left (analyze_category self ?e) ?items ?a] =>
          destruct (loop_frame self e items a) as (_ & H4 & _)
      end.
      rewrite H4. reflexivity. }
    split; [|rewrite Htotal; apply bonus_bounds; assumption].
    rewrite analyze_score. cbv zeta.
    destruct (score_counts self (Pd.expenses_of (first :: df))
                (category_spending (first :: df)) 100) as (S1 & S2 & S3).
    rewrite S1, S2, S3.
    unfold ScoreSpec.spending_score. cbv zeta. f_equal.
    unfold ScoreSpec.under_budget_bonus.
    set (tb := Py.sum (map snd (budget_limits self))) in *.
    set (ts := Py.sum (map Pd.Abs_Amount (Pd.expenses_of (first :: df)))) in *.
    destruct (Py.Qlt_bool ts (tb * 0.8)) eqn:E.
    + assert (E0 : Py.Qlt_bool 0 tb = true).
      { apply Qlt_bool_iff. apply Qlt_bool_iff in E. lra. }
      rewrite E0. cbn [andb]. lia.
    + rewrite andb_false_r. lia.
Qed.

End SpendingScoreTheorem.

Section EmptyBatch.

Import OverspendingAnalyzer.

(** C4.  On the empty batch the analyzer returns the no-data result:
    nothing spent, no transactions, no categories, three empty lists
    and the single no-data recommendation. *)
Theorem empty_batch_no_data : forall self : t,
  let r := analyze_daily_overspending self [] in
  r = _empty_analysis
  /\ total_spent r = 0%Q
  /\ total_transactions r = 0
  /\ categories_analyzed r = 0
  /\ overspending_alerts r = []
  /\ warning_alerts r = []
  /\ within_budget r = []
  /\ recommendations r = ["No transaction data available for analysis."].
Proof. intros self. cbn. repeat split. Qed.

End EmptyBatch.

Section GenericTip.

Import OverspendingAnalyzer OverspendingFacts.

Lemma risk_level_label : forall score,
  _determine_risk_level score = "Excellent"
  \/ _determine_risk_level score = "Good"
  \/ _determine_risk_level score = "Fair"
  \/ _determine_risk_level score = "Poor"
  \/ _determine_risk_level score = "Critical".
Proof.
  intros score. unfold _determine_risk_level.
  destruct (80 <=? score); [auto|].
  destruct (60 <=? score); [auto|].
  destruct (40 <=? score); [auto|].
  destruct (20 <=? score); auto 6.
Qed.

(** No label of the analyzer is one that asks for a generic tip. *)
Lemma risk_level_no_tip : forall score,
  String.eqb (_determine_risk_level score) "High Risk" = false
  /\ String.eqb (_determine_risk_level score) "Medium Risk" = false.
Proof.
  intros score.
  destruct (risk_level_label score) as [E | [E | [E | [E | E]]]];
    rewrite E; split; reflexivity.
Qed.

Lemma category_recommendation_not_tip : forall ca,
  let tips := [daily_limit_tip; stricter_limits_tip] in
  ~ In (overspending_recommendation ca) tips
  /\ ~ In (warning_recommendation ca) tips
  /\ ~ In (best_recommendation ca) tips.
Proof.
  intros ca tips. unfold tips, overspending_recommendation,
    warning_recommendation, best_recommendation, daily_limit_tip,
    stricter_limits_tip.
  destruct (severity_is ca "Critical");
    repeat split; cbn [In append]; intros [H | [H | []]]; discriminate H.
Qed.

Lemma generate_no_tip : forall a,
  String.eqb (risk_level a) "High Risk" = false ->
  String.eqb (risk_level a) "Medium Risk" = false ->
  forall tip, In tip [daily_limit_tip; stricter_limits_tip] ->
  ~ In tip (_generate_recommendations a).
Proof.
  intros a E1 E2 tip Htip. unfold _generate_recommendations.
  rewrite E1, E2.
  assert (Hbase : ~ In tip (map overspending_recommendation
                                (overspending_alerts a)
                            ++ map warning_recommendation
                                 (warning_alerts a))%list).
  { intros Hin. apply in_app_or in Hin.
    destruct Hin as [Hin | Hin]; apply in_map_iff in Hin;
      destruct Hin as (ca & <- & _);
      destruct (category_recommendation_not_tip ca) as (N1 & N2 & _);
      auto. }
  destruct (within_budget a) as [|x l]; [exact Hbase|].
  intros Hin. apply in_app_or in Hin. destruct Hin as [Hin | [<- | []]].
  - exact (Hbase Hin).
  - destruct (category_recommendation_not_tip (min_by_percentage x l))
      as (_ & _ & N3). auto.
Qed.

(** Whatever the batch, the list of recommendations has neither of the
    two generic tips: the tips are tied to the labels "High Risk" and
    "Medium Risk", and the label of the analysis is one of Excellent,
    Good, Fair, Poor and Critical. *)
Lemma generic_tip_never_given : forall (self : t) (df : Pd.DataFrame),
  let r := analyze_daily_overspending self df in
  ~ In daily_limit_tip (recommendations r)
  /\ ~ In stricter_limits_tip (recommendations r).
Proof.
  intros self [|first df].
  - cbn. split; intros [H | []]; discriminate H.
  - cbv zeta.
    assert (E : exists a s,
               recommendations
                 (analyze_daily_overspending self (first :: df))
               = _generate_recommendations
                   (set_risk_level a (_determine_risk_level s)))
      by (eexists; eexists; reflexivity).
    destruct E as (a & s & ->).
    destruct (risk_level_no_tip s) as [E1 E2].
    split; apply generate_no_tip; cbn [risk_level set_risk_level In]; auto.
Qed.

(** C5: what the code does where the claim asks for a generic tip.  On
    the batch of four Critical categories the score is 0 and the label
    is Critical, the most elevated one, and the recommendations are the
    four per-category ones only; and no batch at all gets either of the
    two generic tips. *)
Theorem elevated_risk_without_generic_tip :
  let r := analyze_daily_overspending init Samples.four_critical in
  spending_score r = 0
  /\ risk_level r = "Critical"
  /\ recommendations r
     = map overspending_recommendation (overspending_alerts r)
  /\ Py.len (overspending_alerts r) = 4
  /\ (forall (self : t) (df : Pd.DataFrame),
         ~ In daily_limit_tip
              (recommendations (analyze_daily_overspending self df))
         /\ ~ In stricter_limits_tip
                 (recommendations (analyze_daily_overspending self df))).
Proof.
  cbv zeta. split; [vm_compute; reflexivity|].
  split; [vm_compute; reflexivity|].
  split; [vm_compute; reflexivity|].
  split; [vm_compute; reflexivity|].
  intros self df. exact (generic_tip_never_given self df).
Qed.

End GenericTip.


Section RiskComposition.

Import RiskOfficerAnalysis RiskFacts.

Lemma findings_triggered : forall self df ar,
  severity_scores (findings self df ar) = triggered self df ar
  /\ Py.len (risk_factors (findings self df ar))
     = Py.len (triggered self df ar).
Proof.
  intros self df ar. unfold findings, triggered, checks, record_risk.
  generalize (_assess_spending_volatility self df).
  generalize (_assess_category_concentration self df).
  generalize (_assess_spending_trends self ar).
  generalize (_assess_liquidity_risk self ar).
  generalize (_assess_behavioral_patterns self df).
  intros [[] ? ? ?] [[] ? ? ?] [[] ? ? ?] [[] ? ? ?] [[] ? ? ?];
    split; reflexivity.
Qed.

Lemma fold_max_bounds : forall l x,
  x <= fold_left Z.max l x
  /\ (forall y, In y l -> y <= fold_left Z.max l x)
  /\ In (fold_left Z.max l x) (x :: l).
Proof.
  induction l as [|z l IH]; intros x; cbn [fold_left].
  - repeat split; [lia | intros y [] | left; reflexivity].
  - destruct (IH (Z.max x z)) as (I1 & I2 & I3). repeat split.
    + lia.
    + intros y [<- | Hy]; [lia | apply I2, Hy].
    + destruct I3 as [E | Hin].
      * rewrite <- E. destruct (Z.max_spec x z) as [[_ ->] | [_ ->]];
          [right; left | left]; reflexivity.
      * right. right. exact Hin.
Qed.

Lemma max_or_zero_spec : forall l,
  (l = [] -> Py.max_or_zero l = 0)
  /\ (l <> [] -> In (Py.max_or_zero l) l)
  /\ (forall y, In y l -> y <= Py.max_or_zero l).
Proof.
  intros [|x l]; cbn [Py.max_or_zero].
  - repeat split; [congruence | intros y []].
  - destruct (fold_max_bounds l x) as (I1 & I2 & I3). repeat split.
    + discriminate.
    + intros _. exact I3.
    + intros y [<- | Hy]; [exact I1 | apply I2, Hy].
Qed.

Lemma confidence_value : forall n : Z,
  0 <= n ->
  (Py.min_Q 95.0 (60.0 + inject_Z (n * 10)) == inject_Z (Z.min 95 (60 + 10 * n)))%Q.
Proof.
  intros n Hn. unfold Py.min_Q.
  rewrite inject_Z_mult.
  destruct (Z_le_gt_dec n 3) as [Hs | Hb].
  - rewrite Z.min_r by lia.
    rewrite inject_Z_plus, inject_Z_mult.
    assert (Hq : (inject_Z n <= inject_Z 3)%Q) by (rewrite <- Zle_Qle; exact Hs).
    destruct (Py.Qlt_bool _ 95.0) eqn:E.
    + change (inject_Z 60) with 60%Q. change (inject_Z 10) with 10%Q. lra.
    + apply Qlt_bool_false_iff in E.
      change (inject_Z 3) with 3%Q in Hq.
      change (inject_Z 10) with 10%Q in E. lra.
  - rewrite Z.min_l by lia.
    assert (Hq : (inject_Z 4 <= inject_Z n)%Q) by (rewrite <- Zle_Qle; lia).
    change (inject_Z 4) with 4%Q in Hq.
    destruct (Py.Qlt_bool _ 95.0) eqn:E.
    + apply Qlt_bool_iff in E. change (inject_Z 10) with 10%Q in E. lra.
    + change (inject_Z 95) with 95%Q. lra.
Qed.

(** C3.  The severity score of the assessment is the maximum of the
    severities of the triggered checks, 0 when none triggered; the risk
    level follows the ladder on that score and the number of triggered
    checks; the confidence is min(95, 60 + 10 * that number). *)
Theorem risk_assessment_composition :
  forall (self : t) (df : Pd.DataFrame) (ar : AnalysisResults),
    let r := assess_financial_risks self df ar in
    let severities := triggered self df ar in
    let n := Py.len severities in
    let s := severity_score r in
    Py.len (factors r) = n
    /\ (severities = [] -> s = 0)
    /\ (severities <> [] -> In s severities)
    /\ (forall x, In x severities -> x <= s)
    /\ (80 <= s \/ 4 <= n -> risk_level r = "High Risk")
    /\ (s < 80 -> n < 4 -> 60 <= s \/ 3 <= n -> risk_level r = "Moderate Risk")
    /\ (s < 60 -> n < 3 -> 40 <= s \/ 2 <= n -> risk_level r = "Low Risk")
    /\ (s < 40 -> n = 1 -> risk_level r = "Minimal Risk")
    /\ (n = 0 -> risk_level r = "Low Risk")
    /\ (confidence r == inject_Z (Z.min 95 (60 + 10 * n)))%Q.
Proof.
  intros self df ar r severities n s.
  destruct (findings_triggered self df ar) as [Hs Hn].
  fold severities in Hs, Hn. fold n in Hn.
  assert (Es : s = Py.max_or_zero severities).
  { unfold s, r, assess_financial_risks. cbn [severity_score].
    rewrite Hs. reflexivity. }
  assert (El : risk_level r = _determine_overall_risk_level s n).
  { unfold s, r, assess_financial_risks.
    cbn [risk_level severity_score]. rewrite Hn. reflexivity. }
  destruct (max_or_zero_spec severities) as (M0 & M1 & M2).
  rewrite <- Es in M0, M1, M2.
  split; [exact Hn|]. split; [exact M0|]. split; [exact M1|].
  split; [exact M2|].
  rewrite El. unfold _determine_overall_risk_level.
  assert (Hn0 : 0 <= n) by (unfold n, Py.len; lia).
  repeat split.
  - intros H.
    destruct (80 <=? s) eqn:A; [reflexivity|].
    destruct (4 <=? n) eqn:B; [reflexivity|]. lia.
  - intros H1 H2 H.
    destruct (80 <=? s) eqn:A; [lia|]. destruct (4 <=? n) eqn:B; [lia|].
    cbn [orb].
    destruct (60 <=? s) eqn:C; [reflexivity|].
    destruct (3 <=? n) eqn:D; [reflexivity|]. lia.
  - intros H1 H2 H.
    destruct (80 <=? s) eqn:A; [lia|]. destruct (4 <=? n) eqn:B; [lia|].
    destruct (60 <=? s) eqn:C; [lia|]. destruct (3 <=? n) eqn:D; [lia|].
    cbn [orb].
    destruct (40 <=? s) eqn:F; [reflexivity|].
    destruct (2 <=? n) eqn:G; [reflexivity|]. lia.
  - intros H1 H2.
    destruct (80 <=? s) eqn:A; [lia|]. destruct (4 <=? n) eqn:B; [lia|].
    destruct (60 <=? s) eqn:C; [lia|]. destruct (3 <=? n) eqn:D; [lia|].
    destruct (40 <=? s) eqn:F; [lia|]. destruct (2 <=? n) eqn:G; [lia|].
    cbn [orb]. destruct (1 <=? n) eqn:I; [reflexivity | lia].
  - intros H0.
    assert (severities = []) as Hnil.
    { destruct severities; [reflexivity|].
      unfold n, Py.len in H0. cbn in H0. lia. }
    rewrite (M0 Hnil), H0. reflexivity.
  - unfold r, assess_financial_risks. cbn [confidence]. rewrite Hn.
    apply confidence_value. exact Hn0.
Qed.

(** C10.  The confidence of every assessment is at least 60 and at
    most 95; with no triggered factor it is 60. *)
Theorem confidence_range :
  forall (self : t) (df : Pd.DataFrame) (ar : AnalysisResults),
    let r := assess_financial_risks self df ar in
    (60 <= confidence r)%Q /\ (confidence r <= 95)%Q
    /\ (factors r = [] -> confidence r == 60)%Q.
Proof.
  intros self df ar r.
  assert (E : (confidence r
               == inject_Z (Z.min 95 (60 + 10 * Py.len (factors r))))%Q).
  { unfold r, assess_financial_risks. cbn [confidence factors].
    apply confidence_value. unfold Py.len. lia. }
  assert (Hn0 : 0 <= Py.len (factors r)) by (unfold Py.len; lia).
  rewrite E. repeat split.
  - change 60%Q with (inject_Z 60). rewrite <- Zle_Qle. lia.
  - change 95%Q with (inject_Z 95). rewrite <- Zle_Qle. lia.
  - intros ->. reflexivity.
Qed.

End RiskComposition.

Section RowOrder.

Import OverspendingAnalyzer OverspendingFacts.

Variable self : t.

Lemma filter_perm : forall (A : Type) (p : A -> bool) l l',
  Permutation l l' -> Permutation (filter p l) (filter p l').
Proof.
  intros A p l l' H.
  induction H as [|x l l' _ IH|x y l|l l' l'' _ IH1 _ IH2]; simpl.
  - constructor.
  - destruct (p x); [constructor|]; exact IH.
  - destruct (p x), (p y); try constructor; apply Permutation_refl.
  - eapply Permutation_trans; eassumption.
Qed.

Lemma analyze_nonempty : forall first df,
  analyze_daily_overspending self (first :: df)
  = analysis_from self (Pd.strftime_ymd (Pd.Date first))
                  (Pd.expenses_of (first :: df)).
Proof. reflexivity. Qed.

(** The two counts of the result are those of the expense rows and of
    their distinct categories. *)
Lemma analyze_counts : forall df,
  total_transactions (analyze_daily_overspending self df)
  = Py.len (Pd.expenses_of df)
  /\ categories_analyzed (analyze_daily_overspending self df)
     = Py.len (Pd.sorted_keys String.compare
                 (map Pd.Category (Pd.expenses_of df))).
Proof.
  intros [|first df]; [split; reflexivity|].
  unfold analyze_daily_overspending, set_recommendations, set_risk_level,
    set_spending_score.
  cbn [total_transactions categories_analyzed].
  match goal with
  | |- context [fold_left (analyze_category self ?e) ?items ?a] =>
      destruct (loop_frame self e items a) as (_ & _ & H3 & H4 & _)
  end.
  rewrite H3, H4. cbn [total_transactions categories_analyzed].
  split; [reflexivity|].
  unfold Pd.groupby_sum, Pd.groupby, Py.len. rewrite !length_map.
  reflexivity.
Qed.

(** The category, the budget and the number of transactions of the
    built dicts come from the keys of the items and from the rows, not
    from the sums. *)
Lemma entries_analysed : forall expenses (items : list (string * Q)),
  map (fun ca => (category ca, budget ca, transaction_count ca))
      (entries self expenses items)
  = map (fun c => (c, Py.get (budget_limits self) c 0%Q,
                   Py.len (category_rows expenses c)))
        (filter (fun c => negb (Qeq_bool (Py.get (budget_limits self) c 0%Q) 0))
                (map fst items)).
Proof.
  intros expenses items. induction items as [|[c s] items IH].
  - reflexivity.
  - rewrite entries_cons. cbn [map fst filter]. unfold built at 1.
    destruct (Qeq_bool (Py.get (budget_limits self) c 0%Q) 0);
      cbn [negb]; [exact IH|].
    cbn [map]. rewrite IH. f_equal.
    destruct (Qle_bool (overspending_threshold self * 100) _);
      [reflexivity|].
    destruct (Qle_bool (warning_threshold self * 100) _); reflexivity.
Qed.

(** The three lists hold all the built dicts. *)
Lemma status_lists_all : forall expenses (items : list (string * Q)),
  let es := entries self expenses items in
  Permutation
    (filter (has_status "OVERSPENDING") es
     ++ filter (has_status "WARNING") es
     ++ filter (has_status "WITHIN_BUDGET") es) es.
Proof.
  intros expenses items. cbv zeta. induction items as [|item items IH].
  - constructor.
  - rewrite entries_cons.
    destruct (built self expenses item) as [ca|] eqn:B; [|exact IH].
    cbn [filter].
    repeat match goal with
           | |- context [has_status ?s ca] =>
               change (has_status s ca) with (String.eqb (status ca) s)
           end.
    destruct (built_status self _ _ _ B) as [E | [E | E]]; rewrite E;
      cbn [String.eqb Ascii.eqb Bool.eqb app].
    + constructor. exact IH.
    + eapply Permutation_trans;
        [apply Permutation_sym, Permutation_middle|].
      constructor. exact IH.
    + eapply Permutation_trans; [|apply perm_skip, IH].
      rewrite app_assoc.
      eapply Permutation_trans;
        [apply Permutation_sym, Permutation_middle|].
      rewrite <- app_assoc. apply Permutation_refl.
Qed.

(** The categories that get a status, with their budget and their
    number of transactions, from the rows. *)
Lemma analysed_categories : forall df,
  let r := analyze_daily_overspending self df in
  Permutation
    (map (fun ca => (category ca, budget ca, transaction_count ca))
         (overspending_alerts r ++ warning_alerts r ++ within_budget r))
    (map (fun c => (c, Py.get (budget_limits self) c 0%Q,
                    Py.len (category_rows (Pd.expenses_of df) c)))
         (filter (fun c => negb (Qeq_bool (Py.get (budget_limits self) c 0%Q) 0))
                 (Pd.sorted_keys String.compare
                    (map Pd.Category (Pd.expenses_of df))))).
Proof.
  intros df. cbv zeta.
  destruct (analyze_lists self df) as (H1 & H2 & H3).
  cbv zeta in H1, H2, H3. rewrite H1, H2, H3.
  eapply Permutation_trans;
    [apply Permutation_map, status_lists_all|].
  rewrite entries_analysed, category_spending_items, map_map.
  cbn [fst]. rewrite map_id. apply Permutation_refl.
Qed.

(** C7 (amended).  On a permutation of the rows of a batch the
    analyzer counts the same transactions and the same categories, and
    gives a status to the same categories, each with the same budget
    and the same number of transactions.  The rest of the result is the
    same when, besides, the expense rows come in the same order and the
    first row is of the same calendar day: the reported date is the
    date of the first row, and the amounts are added in row order. *)
Theorem row_order_invariance : forall (df df' : Pd.DataFrame),
  Permutation df df' ->
  let r := analyze_daily_overspending self df in
  let r' := analyze_daily_overspending self df' in
  let analysed a :=
    map (fun ca => (category ca, budget ca, transaction_count ca))
        (overspending_alerts a ++ warning_alerts a ++ within_budget a) in
  total_transactions r' = total_transactions r
  /\ categories_analyzed r' = categories_analyzed r
  /\ Permutation (analysed r') (analysed r)
  /\ (Pd.expenses_of df' = Pd.expenses_of df ->
      map (fun x => Pd.date_of (Pd.Date x)) (firstn 1 df')
      = map (fun x => Pd.date_of (Pd.Date x)) (firstn 1 df) ->
      r' = r).
Proof.
  intros df df' H. cbv zeta.
  assert (He : Permutation (Pd.expenses_of df) (Pd.expenses_of df'))
    by (apply filter_perm, H).
  assert (Hk : Pd.sorted_keys String.compare
                 (map Pd.Category (Pd.expenses_of df))
               = Pd.sorted_keys String.compare
                   (map Pd.Category (Pd.expenses_of df')))
    by (apply category_keys_perm, Permutation_map, He).
  destruct (analyze_counts df) as [T C].
  destruct (analyze_counts df') as [T' C'].
  split; [|split; [|split]].
  - rewrite T, T'. unfold Py.len. f_equal. symmetry.
    apply Permutation_length, He.
  - rewrite C, C', Hk. reflexivity.
  - eapply Permutation_trans; [apply analysed_categories|].
    eapply Permutation_trans;
      [|apply Permutation_sym, analysed_categories].
    rewrite <- Hk.
    erewrite map_ext; [apply Permutation_refl|].
    intros c. cbv beta. f_equal. unfold Py.len, category_rows. f_equal.
    apply Permutation_length, filter_perm, Permutation_sym, He.
  - intros E Hd. destruct df as [|first df].
    + apply Permutation_nil in H. subst df'. reflexivity.
    + destruct df' as [|first' df'].
      * apply Permutation_sym, Permutation_nil in H. discriminate H.
      * rewrite !analyze_nonempty, E. cbn [firstn map] in Hd.
        unfold Pd.strftime_ymd. unfold Pd.date_of in Hd.
        injection Hd as -> -> ->. reflexivity.
Qed.

End RowOrder.

Section Behavioral.

Import RiskOfficerAnalysis.

(** Weekend and weekday spend add up to the total expense spend. *)
Lemma weekend_weekday_total : forall expenses,
  (weekend_spending expenses + weekday_spending expenses
   == Py.sum (map Pd.Abs_Amount expenses))%Q.
Proof.
  intros expenses. unfold weekend_spending, weekday_spending.
  rewrite <- (sum_filter_split _ Pd.Abs_Amount
                (fun r => 5 <=? Pd.weekday (Pd.Date r)) expenses).
  apply Qplus_comp; [reflexivity|].
  assert (E : filter (fun r => Pd.weekday (Pd.Date r) <? 5) expenses
              = filter (fun r => negb (5 <=? Pd.weekday (Pd.Date r))) expenses).
  { apply filter_ext. intros r. apply Z.ltb_antisym. }
  rewrite E. reflexivity.
Qed.

(** C8 (amended).  When the weekday expense spend is positive and the
    weekend expense spend exceeds 40% of the total expense spend, the
    behavioral check triggers and its severity is 30 plus the
    increments of the other two patterns. *)
Theorem weekend_share_triggers :
  forall (self : t) (df : Pd.DataFrame),
    let expenses := Pd.expenses_of df in
    (0 < weekday_spending expenses)%Q ->
    (0.4 * Py.sum (map Pd.Abs_Amount expenses) < weekend_spending expenses)%Q ->
    let check := _assess_behavioral_patterns self df in
    is_risk check = true
    /\ severity check
       = 30 + (if late_night_frequent expenses then 20 else 0)
            + (if many_transactions_frequent expenses then 25 else 0)
    /\ 30 <= severity check.
Proof.
  intros self df expenses Hweekday Hshare check.
  assert (Hne : Pd.empty df = false).
  { destruct df; [|reflexivity].
    unfold expenses, weekday_spending in Hweekday. cbn in Hweekday. lra. }
  pose proof (weekend_weekday_total expenses) as Htotal.
  assert (Hweekend : (0 < weekend_spending expenses)%Q) by lra.
  assert (Hw : weekend_pattern expenses ([], 0)
               = (["High weekend spending: "
                   ++ Py.format_pct 1 (weekend_spending expenses
                                       / (weekend_spending expenses
                                          + weekday_spending expenses))],
                  30)).
  { unfold weekend_pattern.
    rewrite (proj2 (Qlt_bool_iff _ _) Hweekend),
            (proj2 (Qlt_bool_iff _ _) Hweekday).
    cbn [andb].
    assert (R : Py.Qlt_bool 0.4 (weekend_spending expenses
                                 / (weekend_spending expenses
                                    + weekday_spending expenses)) = true).
    { apply Qlt_bool_iff. apply Qlt_shift_div_l; lra. }
    rewrite R. reflexivity. }
  assert (E : check
              = let st := impulse_pattern expenses
                            (late_night_pattern expenses
                               (weekend_pattern expenses ([], 0))) in
                mkRisk (0 <? Py.len (fst st)) (Z.min 100 (snd st))
                       (Some (Py.join "; " (fst st)))
                       (if 0 <? Py.len (fst st) then
                          ["🛑 Implement 24-hour waiting period for non-essential purchases";
                           "📱 Use spending apps with real-time alerts";
                           "🎯 Set specific times for shopping to avoid impulse buying";
                           "💡 Review triggers that lead to overspending patterns"]
                        else [])).
  { unfold check, _assess_behavioral_patterns. rewrite Hne.
    fold expenses. cbv zeta.
    destruct (impulse_pattern expenses _) as [ps sv]. reflexivity. }
  rewrite E, Hw. cbv zeta.
  unfold late_night_pattern, impulse_pattern.
  destruct (late_night_frequent expenses),
           (many_transactions_frequent expenses);
    cbn; repeat split; lia.
Qed.

End Behavioral.

Section Subscriptions.

Import GrowthStrategistAnalysis SubscriptionFacts.

Lemma append_inj_r : forall a b s : string, a ++ s = b ++ s -> a = b.
Proof.
  assert (L : forall a s : string,
             String.length (a ++ s) = (String.length a + String.length s)%nat).
  { induction a as [|c a IH]; intros s; simpl; [reflexivity|].
    rewrite IH. reflexivity. }
  induction a as [|c a IH]; intros [|d b] s H; simpl in H.
  - reflexivity.
  - apply (f_equal String.length) in H. simpl in H. rewrite L in H. lia.
  - apply (f_equal String.length) in H. simpl in H. rewrite L in H. lia.
  - injection H as -> H. f_equal. exact (IH _ _ H).
Qed.

Lemma review_item_inj : forall v v', review_item v = review_item v' -> v = v'.
Proof.
  intros v v' H. unfold review_item in H. cbn [append] in H.
  injection H as H. exact (append_inj_r _ _ _ H).
Qed.

Lemma names_vendor_opportunity : forall v sub,
  names_vendor v (subscription_opportunity sub) = String.eqb (vendor sub) v.
Proof.
  intros v sub. unfold names_vendor, subscription_opportunity.
  cbn [action_items]. fold (review_item (vendor sub)).
  destruct (String.eqb_spec (vendor sub) v) as [-> | Hne].
  - apply String.eqb_refl.
  - apply String.eqb_neq. intros H. apply Hne, review_item_inj, H.
Qed.

Lemma fold_append_map : forall (A B : Type) (f : A -> B) l acc,
  fold_left (fun out x => (out ++ [f x])%list) l acc = (acc ++ map f l)%list.
Proof.
  intros A B f l. induction l as [|x l IH]; intros acc; simpl.
  - rewrite app_nil_r. reflexivity.
  - rewrite IH, <- app_assoc. reflexivity.
Qed.

Lemma fold_append_filter_map :
  forall (A B : Type) (p : A -> bool) (f : A -> B) l acc,
    fold_left (fun out x => if p x then (out ++ [f x])%list else out) l acc
    = (acc ++ map f (filter p l))%list.
Proof.
  intros A B p f l. induction l as [|x l IH]; intros acc; simpl.
  - rewrite app_nil_r. reflexivity.
  - rewrite IH. destruct (p x); simpl; [rewrite <- app_assoc|]; reflexivity.
Qed.

(** The opportunities, vendor by vendor in the order of the index. *)
Lemma subscription_opportunities : forall first df,
  let e := Pd.expenses_of (first :: df) in
  _identify_subscription_optimization (first :: df)
  = map (fun v =>
           subscription_opportunity
             (mkSubscription v (mean (vendor_stats (vendor_rows e v)) * 4)
                             (count (vendor_stats (vendor_rows e v)))))
        (filter (fun v => low_variance (vendor_stats (vendor_rows e v)))
                (Pd.sorted_keys String.compare (map Pd.Description e))).
Proof.
  intros first df e. unfold _identify_subscription_optimization.
  cbn [Pd.empty]. fold e.
  rewrite fold_append_map. cbn [app].
  unfold potential_subscriptions.
  rewrite (fold_append_filter_map _ _ (fun row => low_variance (snd row))
             (fun row => mkSubscription (fst row) (mean (snd row) * 4)
                                        (count (snd row)))).
  cbn [app]. unfold recurring_vendors, Pd.groupby.
  rewrite map_map.
  assert (R : forall v,
             filter (fun r => Pd.same_key String.compare (Pd.Description r) v) e
             = vendor_rows e v).
  { intros v. apply filter_ext. intros r. apply same_category_eqb. }
  induction (Pd.sorted_keys String.compare (map Pd.Description e))
    as [|v vs IH]; [reflexivity|].
  cbn [map filter fst snd]. rewrite R.
  destruct (low_variance (vendor_stats (vendor_rows e v)));
    cbn [map fst snd]; rewrite IH; reflexivity.
Qed.

Lemma filter_names_absent : forall (g : string -> Subscription) v vs,
  (forall k, vendor (g k) = k) ->
  ~ In v vs ->
  filter (names_vendor v) (map (fun k => subscription_opportunity (g k)) vs)
  = [].
Proof.
  intros g v vs Hg. induction vs as [|k vs IH]; intros Hv; [reflexivity|].
  cbn [map filter]. rewrite names_vendor_opportunity, Hg.
  destruct (String.eqb_spec k v) as [-> | _].
  - exfalso. apply Hv. left. reflexivity.
  - apply IH. intros H. apply Hv. right. exact H.
Qed.

Lemma filter_names_present : forall (g : string -> Subscription) v vs,
  (forall k, vendor (g k) = k) ->
  NoDup vs -> In v vs ->
  filter (names_vendor v) (map (fun k => subscription_opportunity (g k)) vs)
  = [subscription_opportunity (g v)].
Proof.
  intros g v vs Hg ND. induction ND as [|k vs Hk ND IH]; intros Hv.
  - destruct Hv.
  - cbn [map filter]. rewrite names_vendor_opportunity, Hg.
    destruct Hv as [-> | Hv].
    + rewrite String.eqb_refl, (filter_names_absent g v vs Hg Hk). reflexivity.
    + destruct (String.eqb_spec k v) as [-> | _]; [contradiction|].
      apply IH, Hv.
Qed.

Lemma NoDup_filter : forall (A : Type) (p : A -> bool) l,
  NoDup l -> NoDup (filter p l).
Proof.
  intros A p l ND. induction ND as [|x l Hx ND IH]; simpl; [constructor|].
  destruct (p x); [|exact IH].
  constructor; [|exact IH]. intros H. apply filter_In in H. apply Hx, H.
Qed.

(** The opportunity of a vendor with a low-variance row. *)
Lemma low_variance_opportunity : forall df v,
  let e := Pd.expenses_of df in
  let stats := vendor_stats (vendor_rows e v) in
  In v (map Pd.Description e) ->
  low_variance stats = true ->
  filter (names_vendor v) (_identify_subscription_optimization df)
  = [subscription_opportunity
       (mkSubscription v (mean stats * 4) (count stats))].
Proof.
  intros [|first df] v e stats Hin Hlow; [destruct Hin|].
  rewrite subscription_opportunities. fold e.
  rewrite (filter_names_present
             (fun k => mkSubscription k
                         (mean (vendor_stats (vendor_rows e k)) * 4)
                         (count (vendor_stats (vendor_rows e k))))).
  - reflexivity.
  - reflexivity.
  - apply NoDup_filter, category_keys_NoDup.
  - apply filter_In. split; [|exact Hlow].
    apply category_keys_In, Hin.
Qed.

Lemma vendor_present : forall e v,
  1 <= Py.len (vendor_rows e v) -> In v (map Pd.Description e).
Proof.
  intros e v H. destruct (vendor_rows e v) as [|r rs] eqn:E.
  - unfold Py.len in H. cbn in H. lia.
  - assert (Hr : In r (vendor_rows e v)) by (rewrite E; left; reflexivity).
    unfold vendor_rows in Hr. apply filter_In in Hr. destruct Hr as [Hr Hd].
    apply String.eqb_eq in Hd. subst v. apply in_map, Hr.
Qed.

(** C9 (amended).  A vendor description with at least 2 expense
    occurrences whose standard deviation of amounts, rounded to 2
    decimals, is below 10% of their mean, rounded to 2 decimals, yields
    exactly one opportunity, of type optimization, with potential value
    0.3 * (rounded mean * 4); three expenses of vendor Netflix at 12.99
    each yield one with potential value 0.3 * (12.99 * 4). *)
Theorem subscription_opportunity_value :
  forall df : Pd.DataFrame,
    let e := Pd.expenses_of df in
    let found v := filter (names_vendor v) (_identify_subscription_optimization df) in
    (forall v : string,
        let amounts := map Pd.Abs_Amount (vendor_rows e v) in
        2 <= Py.len amounts ->
        (round2_sqrt (Pd.var amounts) < round2 (Pd.mean amounts) * 0.1)%Q ->
        exists o,
          found v = [o]
          /\ opportunity_type o = "optimization"
          /\ (potential_value o == 0.3 * (round2 (Pd.mean amounts) * 4))%Q)
    /\ (map Pd.Abs_Amount (vendor_rows e "Netflix")
        = [12.99; 12.99; 12.99]%Q ->
        exists o,
          found "Netflix" = [o]
          /\ opportunity_type o = "optimization"
          /\ (potential_value o == 0.3 * (12.99 * 4))%Q).
Proof.
  intros df e found.
  assert (General : forall v : string,
             let amounts := map Pd.Abs_Amount (vendor_rows e v) in
             2 <= Py.len amounts ->
             (round2_sqrt (Pd.var amounts) < round2 (Pd.mean amounts) * 0.1)%Q ->
             exists o,
               found v = [o]
               /\ opportunity_type o = "optimization"
               /\ (potential_value o == 0.3 * (round2 (Pd.mean amounts) * 4))%Q).
  { intros v amounts Hcount Hstd.
    assert (Hlen : Py.len amounts = Py.len (vendor_rows e v))
      by (unfold amounts, Py.len; rewrite length_map; reflexivity).
    assert (Hlow : low_variance (vendor_stats (vendor_rows e v)) = true).
    { unfold low_variance, vendor_stats. fold amounts.
      cbn [count std mean].
      apply andb_true_iff. split; [apply Z.leb_le, Hcount|].
      destruct (Py.len amounts <? 2) eqn:L; [apply Z.ltb_lt in L; lia|].
      apply Qlt_bool_iff, Hstd. }
    eexists. split; [|split].
    - unfold found. apply low_variance_opportunity; [|exact Hlow].
      apply vendor_present. change (1 <= Py.len (vendor_rows e v)).
      rewrite <- Hlen.
      apply Z.le_trans with 2; [discriminate | exact Hcount].
    - reflexivity.
    - unfold subscription_opportunity.
      cbn [potential_value monthly_cost].
      unfold vendor_stats. cbn [mean]. unfold amounts, e.
      generalize (round2 (Pd.mean (map Pd.Abs_Amount
                                     (vendor_rows (Pd.expenses_of df) v)))).
      intros m. ring. }
  split; [exact General|].
  intros HN. destruct (General "Netflix") as (o & F & T & V).
  - rewrite HN. vm_compute. discriminate.
  - rewrite HN. vm_compute. reflexivity.
  - exists o. split; [exact F|]. split; [exact T|].
    rewrite V, HN. vm_compute. reflexivity.
Qed.

End Subscriptions.

Section Normalizer.

Import TransactionRetriever NormalizerSpec.

Variable to_datetime : string -> option Pd.Timestamp.
Variable to_numeric : string -> option Q.

Lemma insert_by_date_perm : forall r l,
  Permutation (insert_by_date r l) (r :: l).
Proof.
  intros r l. induction l as [|x l IH]; simpl.
  - apply Permutation_refl.
  - destruct (Pd.ts_compare (Pd.Date r) (Pd.Date x));
      try apply Permutation_refl.
    eapply Permutation_trans; [apply perm_skip, IH | apply perm_swap].
Qed.

Lemma sort_values_perm : forall df,
  Permutation (sort_values_Date_descending df) df.
Proof.
  induction df as [|r df IH]; simpl.
  - constructor.
  - eapply Permutation_trans; [apply insert_by_date_perm|].
    apply perm_skip, IH.
Qed.

Lemma nth_padded : forall (row : list string) (i : nat),
  (i < 5)%nat -> nth i (padded_row row) "" = nth i row "".
Proof.
  intros row i Hi. unfold padded_row.
  change (List.length tiller_columns) with 5%nat.
  assert (P : forall (l : list string) n j, nth j (firstn n l) "" =
                if (j <? n)%nat then nth j l "" else "").
  { clear. intros l n. revert l.
    induction n as [|n IH]; intros l i.
    - destruct i; reflexivity.
    - destruct l as [|x l];
        [cbn [firstn]; destruct (i <? S n)%nat; destruct i; reflexivity|].
      destruct i as [|i]; [reflexivity|].
      cbn [firstn nth]. rewrite IH.
      change (S i <? S n)%nat with (i <? n)%nat. reflexivity. }
  rewrite P. destruct (Nat.ltb_spec i 5) as [_ | C]; [|lia].
  destruct (Nat.lt_ge_cases i (List.length row)) as [L | G].
  - apply app_nth1, L.
  - rewrite app_nth2 by exact G.
    rewrite (nth_overflow row) by exact G.
    apply nth_repeat.
Qed.

Lemma raw_row_padded : forall row,
  raw_row_of (padded_row row) = raw_row_of row.
Proof.
  intros row. unfold raw_row_of.
  rewrite !nth_padded by lia. reflexivity.
Qed.

(** Before the sort, the rows are the transactions of the data rows. *)
Lemma cleaned_rows : forall rows,
  map (finished_row)
      (with_amounts to_numeric (with_dates to_datetime (processed_rows rows)))
  = transactions to_datetime to_numeric rows.
Proof.
  induction rows as [|row rows IH]; [reflexivity|].
  unfold processed_rows, transactions in *. cbn [filter flat_map].
  unfold transaction at 1.
  rewrite Z.leb_antisym.
  destruct (Py.len row <? 4); cbn [negb]; [exact IH|].
  cbn [map with_dates flat_map]. rewrite raw_row_padded.
  unfold raw_row_of at 1. cbn [raw_Date]. unfold cell.
  destruct (to_datetime (nth 0 row "")) as [d|]; cbn [app]; [|exact IH].
  fold (with_dates to_datetime
          (map (fun row0 => raw_row_of (padded_row row0))
               (filter (fun row0 => 4 <=? Py.len row0) rows))).
  cbn [with_amounts flat_map fst snd raw_Amount raw_row_of].
  destruct (to_numeric (cleaned_amount (nth 3 row ""))) as [a|];
    cbn [app map]; [|exact IH].
  fold (with_amounts to_numeric
          (with_dates to_datetime
             (map (fun row0 => raw_row_of (padded_row row0))
                  (filter (fun row0 => 4 <=? Py.len row0) rows)))).
  rewrite IH. reflexivity.
Qed.

(** C6 (amended).  The normalizer returns, up to the order of the
    rows, one transaction for each row after the header that has at least four
    cells, a date that parses and a cleaned amount that is a number,
    and nothing for the other rows; each transaction has the parsed
    date and amount of its row, and as description the stripped
    description cell, which may be empty. *)
Theorem normalizer_keeps_parseable_rows :
  forall raw_data : list (list string),
    let data_rows := tl raw_data in
    let out := process_transactions to_datetime to_numeric raw_data in
    Permutation out (transactions to_datetime to_numeric data_rows)
    /\ (forall row,
           In row data_rows ->
           (exists r, transaction to_datetime to_numeric row = Some r
                      /\ In r out)
           \/ (transaction to_datetime to_numeric row = None
               /\ (Py.len row < 4
                   \/ to_datetime (cell row 0) = None
                   \/ to_numeric (cleaned_amount (cell row 3)) = None)))
    /\ (forall r,
           In r out ->
           exists row,
             In row data_rows /\ 4 <= Py.len row
             /\ to_datetime (cell row 0) = Some (Pd.Date r)
             /\ to_numeric (cleaned_amount (cell row 3)) = Some (Pd.Amount r)
             /\ Pd.Description r = Py.strip (cell row 1)).
Proof.
  intros raw_data data_rows out.
  assert (P : Permutation out (transactions to_datetime to_numeric data_rows)).
  { unfold out, data_rows. destruct raw_data as [|headers rows].
    - constructor.
    - unfold process_transactions, _clean_dataframe. cbn [tl].
      rewrite <- cleaned_rows. apply sort_values_perm. }
  split; [exact P|]. split.
  - intros row Hrow.
    destruct (transaction to_datetime to_numeric row) as [r|] eqn:T.
    + left. exists r. split; [reflexivity|].
      apply Permutation_in with (transactions to_datetime to_numeric data_rows);
        [apply Permutation_sym, P|].
      unfold transactions. apply in_flat_map. exists row.
      split; [exact Hrow|]. rewrite T. left. reflexivity.
    + right. split; [reflexivity|].
      unfold transaction in T.
      destruct (Py.len row <? 4) eqn:L; [left; apply Z.ltb_lt, L|].
      right.
      destruct (to_datetime (cell row 0)); [|left; reflexivity].
      destruct (to_numeric (cleaned_amount (cell row 3)));
        [discriminate T | right; reflexivity].
  - intros r Hr.
    apply (Permutation_in _ P) in Hr.
    unfold transactions in Hr. apply in_flat_map in Hr.
    destruct Hr as (row & Hrow & Hr). exists row. split; [exact Hrow|].
    unfold transaction in Hr.
    destruct (Py.len row <? 4) eqn:L; [destruct Hr|].
    apply Z.ltb_ge in L.
    destruct (to_datetime (cell row 0)) as [d|]; [|destruct Hr].
    destruct (to_numeric (cleaned_amount (cell row 3))) as [a|];
      [|destruct Hr].
    destruct Hr as [<- | []]. cbn. auto.
Qed.

End Normalizer.

(* ================================================================== *)
(** * The samples, evaluated *)
(* ================================================================== *)

Section Evaluated.

Import OverspendingAnalyzer OverspendingFacts.

Example sample_data_score :
  spending_score (analyze_daily_overspending init Samples.sample_data) = 72
  /\ risk_level (analyze_daily_overspending init Samples.sample_data) = "Good".
Proof. vm_compute. split; reflexivity. Qed.

Example sample_data_recommendations :
  recommendations (analyze_daily_overspending init Samples.sample_data)
  = [ "🚨 URGENT: Food & Dining spending is 228% of budget. Consider eliminating non-essential food & dining expenses immediately.";
      "📊 Monitor Shopping spending closely - you've used 115% of your budget.";
      "✅ Great job staying within budget for Transportation! You saved $18.00." ].
Proof. vm_compute. reflexivity. Qed.

Example sheet_normalized :
  map (fun r => (Pd.strftime_ymd (Pd.Date r), Pd.Description r, Pd.Category r,
                 Pd.Is_Expense r))
      (TransactionRetriever.process_transactions
         Sheet.to_datetime Sheet.to_numeric Samples.sheet)
  = [ ("2025-01-30", "Salary", "Income", false);
      ("2025-01-29", "Starbucks Coffee", "Food & Dining", true) ].
Proof. vm_compute. reflexivity. Qed.

End Evaluated.

(* ================================================================== *)
(** * The theorems at the samples *)
(* ================================================================== *)

Section AtTheSamples.

Import OverspendingAnalyzer OverspendingFacts.

(** Food & Dining at 40 of 50 is at the warning threshold: WARNING. *)
Lemma status_partition_witness :
  exists ca,
    status ca = "WARNING"
    /\ about "Food & Dining"
             (warning_alerts
                (analyze_daily_overspending init Samples.at_warning_threshold))
       = [ca].
Proof.
  destruct (status_partition init Samples.at_warning_threshold "Food & Dining")
    as [H _].
  destruct H as (ca & _ & _ & _ & _ & _ & _ & _ & _ & Hw).
  - vm_compute. left. reflexivity.
  - vm_compute. reflexivity.
  - exists ca. apply Hw; vm_compute; reflexivity.
Defined.

(** A category that is in the batch through a refund only, with a limit
    of 40, is in none of the three lists. *)
Lemma status_partition_counterexample :
  In "Shopping" (map Pd.Category Samples.refund_only)
  /\ (0 < Py.get (budget_limits init) "Shopping" 0)%Q
  /\ overspending_alerts (analyze_daily_overspending init Samples.refund_only)
     = []
  /\ warning_alerts (analyze_daily_overspending init Samples.refund_only) = []
  /\ within_budget (analyze_daily_overspending init Samples.refund_only) = [].
Proof.
  split; [left; reflexivity|].
  split; [vm_compute; reflexivity|].
  vm_compute. repeat split; reflexivity.
Qed.

Lemma spending_score_formula_witness :
  spending_score (analyze_daily_overspending init Samples.sample_data)
  = ScoreSpec.spending_score init Samples.sample_data
  /\ 0 <= ScoreSpec.under_budget_bonus init
            (total_spent (analyze_daily_overspending init Samples.sample_data))
     <= 15.
Proof.
  apply (proj2 spending_score_formula init Samples.sample_data).
  - discriminate.
  - repeat (apply Forall_cons; [vm_compute; intros H; discriminate H|]).
    apply Forall_nil.
Defined.

(** A refund moved behind the first expense: the expense rows keep
    their order, and the first row is of the same day. *)
Lemma row_order_invariance_witness :
  analyze_daily_overspending init
    [Samples.coffee; Samples.refund; Samples.ride]
  = analyze_daily_overspending init
      [Samples.refund; Samples.coffee; Samples.ride].
Proof.
  apply (row_order_invariance init
           [Samples.refund; Samples.coffee; Samples.ride]
           [Samples.coffee; Samples.refund; Samples.ride]
           (perm_swap Samples.coffee Samples.refund [Samples.ride])).
  - reflexivity.
  - reflexivity.
Defined.

(** Two rows of different days: the reported date is that of the row
    that comes first. *)
Lemma row_order_invariance_counterexample :
  Permutation [Samples.coffee; Samples.late_ride]
              [Samples.late_ride; Samples.coffee]
  /\ date (analyze_daily_overspending init [Samples.coffee; Samples.late_ride])
     = "2025-01-29"
  /\ date (analyze_daily_overspending init [Samples.late_ride; Samples.coffee])
     = "2025-01-30"
  /\ analyze_daily_overspending init [Samples.late_ride; Samples.coffee]
     <> analyze_daily_overspending init [Samples.coffee; Samples.late_ride].
Proof.
  split; [apply perm_swap|].
  split; [vm_compute; reflexivity|].
  split; [vm_compute; reflexivity|].
  intros H. apply (f_equal date) in H. vm_compute in H. discriminate H.
Qed.

End AtTheSamples.

Section AtTheRiskSamples.

Import RiskOfficerAnalysis.

Lemma weekend_share_triggers_witness :
  is_risk (_assess_behavioral_patterns init Samples.weekend_and_weekday) = true
  /\ severity (_assess_behavioral_patterns init Samples.weekend_and_weekday)
     = 30
       + (if late_night_frequent (Pd.expenses_of Samples.weekend_and_weekday)
          then 20 else 0)
       + (if many_transactions_frequent
               (Pd.expenses_of Samples.weekend_and_weekday)
          then 25 else 0)
  /\ 30 <= severity (_assess_behavioral_patterns init
                       Samples.weekend_and_weekday).
Proof.
  apply (weekend_share_triggers init Samples.weekend_and_weekday);
    vm_compute; reflexivity.
Defined.

(** All the spend on a Saturday: the weekend share is the whole, and the
    check does not trigger. *)
Lemma weekend_share_triggers_counterexample :
  (0.4 * Py.sum (map Pd.Abs_Amount (Pd.expenses_of Samples.weekend_only))
   < weekend_spending (Pd.expenses_of Samples.weekend_only))%Q
  /\ is_risk (_assess_behavioral_patterns init Samples.weekend_only) = false
  /\ severity (_assess_behavioral_patterns init Samples.weekend_only) = 0.
Proof. vm_compute. repeat split; reflexivity. Qed.

End AtTheRiskSamples.

Section AtTheGrowthSamples.

Import GrowthStrategistAnalysis SubscriptionFacts.

Lemma subscription_opportunity_value_witness :
  exists o,
    filter (names_vendor "Netflix")
           (_identify_subscription_optimization Samples.netflix) = [o]
    /\ opportunity_type o = "optimization"
    /\ (potential_value o == 0.3 * (12.99 * 4))%Q.
Proof.
  apply (proj2 (subscription_opportunity_value Samples.netflix)).
  vm_compute. reflexivity.
Defined.

(** Two expenses at 10.00 and 10.004: the standard deviation is below
    10% of the mean, 10.002, and the potential value is 12, from the mean
    rounded to 10.00, and not 0.3 * (10.002 * 4). *)
Lemma subscription_opportunity_value_counterexample :
  map Pd.Abs_Amount (vendor_rows (Pd.expenses_of Samples.gym) "Gym")
  = [10.00; 10.004]%Q
  /\ 2 <= Py.len [10.00; 10.004]%Q
  /\ Sqrt.lt_bool (Pd.var [10.00; 10.004]%Q) (Pd.mean [10.00; 10.004]%Q * 0.1)
     = true
  /\ exists o,
       filter (names_vendor "Gym")
              (_identify_subscription_optimization Samples.gym) = [o]
       /\ (potential_value o == 12)%Q
       /\ ~ (potential_value o == 0.3 * (Pd.mean [10.00; 10.004]%Q * 4))%Q.
Proof.
  split; [vm_compute; reflexivity|].
  split; [vm_compute; discriminate|].
  split; [vm_compute; reflexivity|].
  eexists. split; [vm_compute; reflexivity|].
  split; [vm_compute; reflexivity|].
  vm_compute. intros H. discriminate H.
Qed.

End AtTheGrowthSamples.

Section AtTheSheetSamples.

Import TransactionRetriever NormalizerSpec.

(** A data row with an empty description cell, a date and an amount is
    not dropped, and its transaction has the empty description. *)
Lemma normalizer_counterexample :
  cell (nth 1 Samples.sheet_without_description []) 1 = ""
  /\ map (fun r => (Pd.strftime_ymd (Pd.Date r), Pd.Description r,
                    Pd.Is_Expense r))
         (process_transactions Sheet.to_datetime Sheet.to_numeric
            Samples.sheet_without_description)
     = [("2025-01-29", "", true)].
Proof. vm_compute. split; reflexivity. Qed.

End AtTheSheetSamples.

(* ================================================================== *)
(** * More on the overspending analyzer *)
(* ================================================================== *)

Section OverspendingEntries.

Import OverspendingAnalyzer OverspendingFacts.

Variable self : t.

(** What a built dict holds, by the branch that built it. *)
Lemma built_inversion : forall expenses c s ca,
  built self expenses (c, s) = Some ca ->
  let limit := Py.get (budget_limits self) c 0%Q in
  let pct := (s / limit * 100)%Q in
  ~ (limit == 0)%Q
  /\ category ca = c /\ spent ca = s /\ budget ca = limit
  /\ percentage_used ca = pct /\ over_amount ca = (s - limit)%Q
  /\ ((status ca = "OVERSPENDING"
       /\ (overspending_threshold self * 100 <= pct)%Q
       /\ severity ca = Some (_calculate_severity pct) /\ savings ca = None)
      \/ (status ca = "WARNING"
          /\ (pct < overspending_threshold self * 100)%Q
          /\ (warning_threshold self * 100 <= pct)%Q
          /\ severity ca = Some "Medium" /\ savings ca = None)
      \/ (status ca = "WITHIN_BUDGET"
          /\ (pct < overspending_threshold self * 100)%Q
          /\ (pct < warning_threshold self * 100)%Q
          /\ severity ca = None /\ savings ca = Some (limit - s)%Q)).
Proof.
  intros expenses c s ca. unfold built.
  destruct (Qeq_bool (Py.get (budget_limits self) c 0%Q) 0) eqn:E0;
    [discriminate|].
  assert (Hl : ~ (Py.get (budget_limits self) c 0%Q == 0)%Q).
  { intros H. apply Qeq_bool_iff in H. congruence. }
  destruct (Qle_bool (overspending_threshold self * 100) _) eqn:Eo.
  { intros H. injection H as <-. cbv zeta. cbn.
    apply Qle_bool_iff in Eo. repeat split; auto. }
  apply Qle_bool_false_iff in Eo.
  destruct (Qle_bool (warning_threshold self * 100) _) eqn:Ew.
  { intros H. injection H as <-. cbv zeta. cbn.
    apply Qle_bool_iff in Ew. repeat split; auto.
    right. left. auto. }
  apply Qle_bool_false_iff in Ew.
  intros H. injection H as <-. cbv zeta. cbn.
  repeat split; auto. right. right. auto.
Qed.

Lemma in_entries : forall expenses items ca,
  In ca (entries self expenses items) ->
  exists item, In item items /\ built self expenses item = Some ca.
Proof.
  intros expenses items ca H. unfold entries in H.
  apply in_flat_map in H. destruct H as (item & Hi & Hc).
  exists item. split; [exact Hi|].
  destruct (built self expenses item) as [x|]; [|destruct Hc].
  destruct Hc as [<- | []]. reflexivity.
Qed.

(** Every dict of the three lists was built for an item of
    [category_spending], and is in the list of its status. *)
Lemma in_result_lists : forall df ca,
  let r := analyze_daily_overspending self df in
  In ca (overspending_alerts r) \/ In ca (warning_alerts r)
  \/ In ca (within_budget r) ->
  exists c s,
    In (c, s) (category_spending df)
    /\ built self (Pd.expenses_of df) (c, s) = Some ca
    /\ (In ca (overspending_alerts r) <-> status ca = "OVERSPENDING")
    /\ (In ca (warning_alerts r) <-> status ca = "WARNING")
    /\ (In ca (within_budget r) <-> status ca = "WITHIN_BUDGET").
Proof.
  intros df ca r H.
  destruct (analyze_lists self df) as (L1 & L2 & L3).
  fold r in L1, L2, L3. rewrite L1, L2, L3 in *.
  assert (Hes : In ca (entries self (Pd.expenses_of df) (category_spending df))).
  { destruct H as [H | [H | H]]; apply filter_In in H; apply H. }
  destruct (in_entries _ _ _ Hes) as ([c s] & Hi & Hb).
  exists c, s. split; [exact Hi|]. split; [exact Hb|].
  unfold has_status.
  repeat split; intros X;
    try (apply filter_In in X; destruct X as [_ X];
         apply String.eqb_eq in X; exact X);
    apply filter_In; (split; [exact Hes | apply String.eqb_eq; exact X]).
Qed.

End OverspendingEntries.

Section OverspendingMore.

Import OverspendingAnalyzer OverspendingFacts.

Lemma calculate_severity_buckets : forall p : Q,
  (_calculate_severity p = "Critical" <-> (200 <= p)%Q)
  /\ (_calculate_severity p = "High" <-> (150 <= p)%Q /\ (p < 200)%Q)
  /\ (_calculate_severity p = "Medium" <-> (120 <= p)%Q /\ (p < 150)%Q)
  /\ (_calculate_severity p = "Low" <-> (p < 120)%Q).
Proof.
  intros p. unfold _calculate_severity.
  destruct (Qle_bool 200 p) eqn:A.
  { apply Qle_bool_iff in A.
    repeat split; intros;
      try reflexivity;
      try (match goal with X : _ = _ :> string |- _ => discriminate X end);
      lra. }
  apply Qle_bool_false_iff in A.
  destruct (Qle_bool 150 p) eqn:B.
  { apply Qle_bool_iff in B.
    repeat split; intros;
      try reflexivity;
      try (match goal with X : _ = _ :> string |- _ => discriminate X end);
      lra. }
  apply Qle_bool_false_iff in B.
  destruct (Qle_bool 120 p) eqn:C.
  { apply Qle_bool_iff in C.
    repeat split; intros;
      try reflexivity;
      try (match goal with X : _ = _ :> string |- _ => discriminate X end);
      lra. }
  apply Qle_bool_false_iff in C.
  repeat split; intros;
      try reflexivity;
      try (match goal with X : _ = _ :> string |- _ => discriminate X end);
      lra.
Qed.

(** X1.  The severity of an overspending alert is the bucket of its
    percentage, and with a threshold of 120% or more it is never Low. *)
Theorem overspending_severity_buckets :
  forall (self : t) (df : Pd.DataFrame) (ca : CategoryAnalysis),
    In ca (overspending_alerts (analyze_daily_overspending self df)) ->
    let p := percentage_used ca in
    (overspending_threshold self * 100 <= p)%Q
    /\ (severity ca = Some "Critical" <-> (200 <= p)%Q)
    /\ (severity ca = Some "High" <-> (150 <= p)%Q /\ (p < 200)%Q)
    /\ (severity ca = Some "Medium" <-> (120 <= p)%Q /\ (p < 150)%Q)
    /\ (severity ca = Some "Low" <-> (p < 120)%Q)
    /\ ((120 <= overspending_threshold self * 100)%Q ->
        severity ca <> Some "Low").
Proof.
  intros self df ca Hin p.
  destruct (in_result_lists self df ca (or_introl Hin))
    as (c & s & _ & Hb & Ho & _ & _).
  apply built_inversion in Hb. cbv zeta in Hb.
  destruct Hb as (_ & _ & _ & _ & Hp & _ & Hcase).
  pose proof (proj1 Ho Hin) as Hst.
  destruct Hcase as [(_ & Hge & Hsev & _) | [(W & _) | (W & _)]];
    [|rewrite W in Hst; discriminate Hst | rewrite W in Hst; discriminate Hst].
  fold p in Hp. rewrite <- Hp in Hge, Hsev.
  destruct (calculate_severity_buckets p) as (B1 & B2 & B3 & B4).
  rewrite Hsev.
  assert (I : forall x y : string, Some x = Some y <-> x = y)
    by (intros x y; split; [intros H; injection H; auto | intros ->; auto]).
  rewrite !I.
  split; [exact Hge|]. split; [exact B1|]. split; [exact B2|].
  split; [exact B3|]. split; [exact B4|].
  intros H120 HL. apply B4 in HL. lra.
Qed.

(** X2.  With a positive limit the figures of a dict are those of its
    own spent and budget: percentage_used is spent / budget * 100 and
    over_amount is spent - budget; an overspending alert under a
    threshold of 1 or more has a non-negative over_amount; a
    within-budget dict under a warning threshold of at most 1 has
    positive savings, budget - spent. *)
Theorem alert_amounts :
  forall (self : t) (df : Pd.DataFrame) (ca : CategoryAnalysis),
    let r := analyze_daily_overspending self df in
    In ca (overspending_alerts r) \/ In ca (warning_alerts r)
    \/ In ca (within_budget r) ->
    (0 < budget ca)%Q ->
    percentage_used ca = (spent ca / budget ca * 100)%Q
    /\ over_amount ca = (spent ca - budget ca)%Q
    /\ (In ca (overspending_alerts r) ->
        (1 <= overspending_threshold self)%Q -> (0 <= over_amount ca)%Q)
    /\ (In ca (within_budget r) ->
        (warning_threshold self <= 1)%Q ->
        exists s, savings ca = Some s /\ (0 < s)%Q
                  /\ (s == budget ca - spent ca)%Q).
Proof.
  intros self df ca r Hin Hpos.
  destruct (in_result_lists self df ca Hin)
    as (c & s & _ & Hb & Ho & _ & Hw).
  fold r in Ho, Hw.
  apply built_inversion in Hb. cbv zeta in Hb.
  destruct Hb as (Hl & _ & Hs & Hbud & Hp & Hov & Hcase).
  rewrite <- Hbud in Hp, Hov, Hcase, Hl. rewrite <- Hs in Hp, Hov, Hcase.
  assert (Hdiv : (spent ca / budget ca * budget ca == spent ca)%Q)
    by (field; lra).
  split; [exact Hp|].
  split; [exact Hov|]. split.
  - intros Hi Ho1. apply Ho in Hi.
    destruct Hcase as [(_ & Hge & _) | [(W & _) | (W & _)]];
      [|rewrite W in Hi; discriminate Hi | rewrite W in Hi; discriminate Hi].
    rewrite Hov.
    assert (H100 : (100 <= spent ca / budget ca * 100)%Q) by lra.
    assert (Hq : (1 <= spent ca / budget ca)%Q) by lra.
    assert (Hm : (1 * budget ca <= spent ca / budget ca * budget ca)%Q)
      by (apply Qmult_le_compat_r; lra).
    lra.
  - intros Hi Hw1. apply Hw in Hi.
    destruct Hcase as [(W & _) | [(W & _) | (_ & _ & Hlt & _ & Hsav)]];
      [rewrite W in Hi; discriminate Hi | rewrite W in Hi; discriminate Hi|].
    exists (budget ca - spent ca)%Q. split; [exact Hsav|].
    split; [|reflexivity].
    assert (Hq : (spent ca / budget ca < 1)%Q) by lra.
    assert (Hm : (spent ca / budget ca * budget ca < 1 * budget ca)%Q)
      by (apply Qmult_lt_compat_r; lra).
    lra.
Qed.

End OverspendingMore.

Section OverspendingOrder.

Import OverspendingAnalyzer OverspendingFacts.

Variable self : t.

Lemma sorted_filter : forall (A : Type) (R : A -> A -> Prop) (p : A -> bool) l,
  StronglySorted R l -> StronglySorted R (filter p l).
Proof.
  intros A R p l H. induction H as [|x l Hs IH Hx]; simpl; [constructor|].
  destruct (p x); [|exact IH].
  constructor; [exact IH|].
  rewrite Forall_forall in *. intros y Hy. apply filter_In in Hy. apply Hx, Hy.
Qed.

(** The order of two dicts by their categories. *)
Lemma entries_sorted : forall expenses items,
  StronglySorted (Pd.key_lt String.compare) (map fst items) ->
  StronglySorted (fun a b => Pd.key_lt String.compare (category a) (category b))
                 (entries self expenses items).
Proof.
  intros expenses items. induction items as [|item items IH]; intros H.
  - constructor.
  - cbn [map] in H. inversion H as [|x l Hs Hx]; subst.
    rewrite entries_cons.
    destruct (built self expenses item) as [ca|] eqn:B; [|apply IH, Hs].
    constructor; [apply IH, Hs|].
    rewrite Forall_forall in *. intros cb Hcb.
    destruct (in_entries self _ _ _ Hcb) as (item' & Hi & Hb).
    rewrite (built_category self _ _ _ B), (built_category self _ _ _ Hb).
    apply Hx, in_map, Hi.
Qed.

Lemma category_spending_keys : forall df,
  map fst (category_spending df)
  = Pd.sorted_keys String.compare (map Pd.Category (Pd.expenses_of df)).
Proof.
  intros df. rewrite category_spending_items, map_map. cbn [fst].
  apply map_id.
Qed.

(** The three selections of the built dicts are all of them. *)
Lemma entries_partition : forall expenses items,
  let es := entries self expenses items in
  Permutation
    (filter (has_status "OVERSPENDING") es
     ++ filter (has_status "WARNING") es
     ++ filter (has_status "WITHIN_BUDGET") es) es.
Proof.
  intros expenses items es.
  assert (St : forall ca, In ca es ->
                 status ca = "OVERSPENDING" \/ status ca = "WARNING"
                 \/ status ca = "WITHIN_BUDGET").
  { intros ca Hca. destruct (in_entries self _ _ _ Hca) as (item & _ & Hb).
    exact (built_status self _ _ _ Hb). }
  clearbody es. unfold has_status. induction es as [|x l IH]; [constructor|].
  assert (IH' := IH (fun ca H => St ca (or_intror H))).
  cbn [filter].
  destruct (St x (or_introl eq_refl)) as [E | [E | E]]; rewrite E;
    cbn [String.eqb Ascii.eqb Bool.eqb app].
  - constructor. exact IH'.
  - eapply Permutation_trans;
      [apply Permutation_sym, Permutation_middle|].
    constructor. exact IH'.
  - eapply Permutation_trans;
      [|apply perm_skip, IH'].
    rewrite app_assoc.
    eapply Permutation_trans;
      [apply Permutation_sym, Permutation_middle|].
    rewrite <- app_assoc. apply Permutation_refl.
Qed.

(** X3.  Each of the three lists is in strictly increasing order of category,
    the order of Python strings; no category is in a list twice. *)
Theorem alert_lists_sorted : forall df : Pd.DataFrame,
  let r := analyze_daily_overspending self df in
  let before a b := String.compare (category a) (category b) = Lt in
  StronglySorted before (overspending_alerts r)
  /\ StronglySorted before (warning_alerts r)
  /\ StronglySorted before (within_budget r)
  /\ NoDup (map category (overspending_alerts r ++ warning_alerts r
                          ++ within_budget r)).
Proof.
  intros df r before.
  destruct (analyze_lists self df) as (L1 & L2 & L3).
  fold r in L1, L2, L3. rewrite L1, L2, L3.
  set (es := entries self (Pd.expenses_of df) (category_spending df)).
  assert (S : StronglySorted before es).
  { apply entries_sorted. rewrite category_spending_keys.
    apply sorted_keys_sorted.
    - exact string_compare_eq.
    - exact String.compare_antisym.
    - exact string_compare_trans. }
  split; [apply sorted_filter, S|]. split; [apply sorted_filter, S|].
  split; [apply sorted_filter, S|].
  assert (ND : NoDup (map category es)).
  { apply (sorted_NoDup _ String.compare string_compare_eq).
    clear -S. induction S as [|x l Hs IH Hx]; cbn [map]; constructor.
    - exact IH.
    - rewrite Forall_forall in *. intros c Hc. apply in_map_iff in Hc.
      destruct Hc as (y & <- & Hy). apply Hx, Hy. }
  pose proof (entries_partition (Pd.expenses_of df) (category_spending df))
    as P.
  fold es in P.
  apply (Permutation_NoDup (l := map category es));
    [apply Permutation_sym, Permutation_map, P | exact ND].
Qed.

End OverspendingOrder.

Section Conservation.

Import OverspendingAnalyzer OverspendingFacts.

Lemma sum_map_ext : forall (A : Type) (f g : A -> Q) l,
  (forall x, In x l -> (f x == g x)%Q) ->
  (Py.sum (map f l) == Py.sum (map g l))%Q.
Proof.
  intros A f g l. induction l as [|x l IH]; intros H; cbn [map].
  - reflexivity.
  - rewrite !sum_cons, (H x (or_introl eq_refl)).
    rewrite IH; [reflexivity|]. intros y Hy. apply H. right. exact Hy.
Qed.

Lemma sum_map_zero : forall (A : Type) (l : list A),
  (Py.sum (map (fun _ => 0%Q) l) == 0)%Q.
Proof.
  intros A l. induction l as [|x l IH]; cbn [map].
  - reflexivity.
  - rewrite sum_cons, IH. ring.
Qed.

Lemma sum_map_plus : forall (A : Type) (f g : A -> Q) l,
  (Py.sum (map (fun x => f x + g x) l)
   == Py.sum (map f l) + Py.sum (map g l))%Q.
Proof.
  intros A f g l. induction l as [|x l IH]; cbn [map].
  - rewrite !sum_nil. ring.
  - rewrite !sum_cons, IH. ring.
Qed.

(** Among distinct keys, the one key [k] carries the amount. *)
Lemma sum_at_key : forall (a : Q) (k : string) keys,
  NoDup keys ->
  (Py.sum (map (fun k' => if String.eqb k k' then a else 0) keys)
   == if in_dec string_dec k keys then a else 0)%Q.
Proof.
  intros a k keys ND. induction ND as [|k0 keys Hk ND IH]; cbn [map].
  - reflexivity.
  - rewrite sum_cons, IH.
    destruct (String.eqb_spec k k0) as [<- | Hne].
    + destruct (in_dec string_dec k (k :: keys)) as [_ | N];
        [|exfalso; apply N; left; reflexivity].
      destruct (in_dec string_dec k keys) as [I | _]; [contradiction|]. ring.
    + destruct (in_dec string_dec k keys) as [I | N];
        destruct (in_dec string_dec k (k0 :: keys)) as [I' | N'];
        try ring.
      * exfalso. apply N'. right. exact I.
      * exfalso. destruct I' as [E | I']; [congruence | contradiction].
Qed.

(** The sums of the groups of a group-by add up to the sum of the rows. *)
Lemma groupby_sum_total : forall (col : Pd.Row -> Q) (key : Pd.Row -> string) rows keys,
  NoDup keys ->
  (forall r, In r rows -> In (key r) keys) ->
  (Py.sum (map (fun k => Py.sum (map col (filter (fun r => String.eqb (key r) k) rows)))
               keys)
   == Py.sum (map col rows))%Q.
Proof.
  intros col key rows keys ND. induction rows as [|x rows IH]; intros Hk.
  - cbn [filter map]. rewrite sum_nil. apply sum_map_zero.
  - cbn [map]. rewrite sum_cons.
    rewrite <- IH by (intros r Hr; apply Hk; right; exact Hr).
    rewrite (sum_map_ext _ _
               (fun k => (if String.eqb (key x) k then col x else 0)
                         + Py.sum (map col (filter (fun r => String.eqb (key r) k) rows)))%Q).
    + rewrite sum_map_plus, (sum_at_key _ _ _ ND).
      destruct (in_dec string_dec (key x) keys) as [_ | N]; [reflexivity|].
      exfalso. apply N, Hk. left. reflexivity.
    + intros k _. cbn [filter].
      destruct (String.eqb (key x) k); cbn [map]; [apply sum_cons | ring].
Qed.

Lemma analyze_totals : forall self df,
  let r := analyze_daily_overspending self df in
  total_spent r = Py.sum (map Pd.Abs_Amount (Pd.expenses_of df))
  /\ total_transactions r = Py.len (Pd.expenses_of df)
  /\ categories_analyzed r = Py.len (category_spending df).
Proof.
  intros self [|first df]; [repeat split|].
  cbv zeta. unfold analyze_daily_overspending, set_recommendations,
    set_risk_level, set_spending_score.
  cbn [total_spent total_transactions categories_analyzed].
  match goal with
  | |- context [fold_left (analyze_category self ?e) ?items ?a] =>
      destruct (loop_frame self e items a) as (_ & H1 & H2 & H3 & _)
  end.
  rewrite H1, H2, H3. repeat split.
Qed.

Lemma entries_all_configured : forall self expenses (items : list (string * Q)),
  (forall item, In item items ->
     ~ (Py.get (budget_limits self) (fst item) 0 == 0)%Q) ->
  map spent (entries self expenses items) = map snd items.
Proof.
  intros self expenses items. induction items as [|[c s] items IH]; intros H.
  - reflexivity.
  - rewrite entries_cons.
    destruct (built_configured self expenses c s
                (H (c, s) (or_introl eq_refl)))
      as (ca & B & _ & Hs & _).
    rewrite B. cbn [map snd]. rewrite Hs. f_equal.
    apply IH. intros item Hi. apply H. right. exact Hi.
Qed.

Lemma filter_all : forall (A : Type) (f : A -> bool) (l : list A),
  Forall (fun x => f x = true) l -> filter f l = l.
Proof.
  intros A f l H. induction H as [|x l Hx _ IH]; cbn [filter].
  - reflexivity.
  - rewrite Hx, IH. reflexivity.
Qed.

(** The sum of a list of integers. *)
Lemma sum_inject : forall l : list Z,
  (Py.sum (map inject_Z l) == inject_Z (fold_right Z.add 0%Z l))%Q.
Proof.
  induction l as [|x l IH]; cbn [map fold_right].
  - reflexivity.
  - rewrite sum_cons, IH, inject_Z_plus. reflexivity.
Qed.

(** The sizes of the groups of a group-by add up to the number of
    rows. *)
Lemma groupby_count_total : forall (key : Pd.Row -> string) rows keys,
  NoDup keys ->
  (forall r, In r rows -> In (key r) keys) ->
  fold_right Z.add 0
    (map (fun k => Py.len (filter (fun r => String.eqb (key r) k) rows)) keys)
  = Py.len rows.
Proof.
  intros key rows keys ND Hk. apply inject_Z_injective.
  rewrite <- sum_inject, map_map.
  rewrite <- (sum_map_ext _
                (fun k => Py.sum (map (fun _ => 1%Q)
                            (filter (fun r => String.eqb (key r) k) rows)))).
  - rewrite (groupby_sum_total (fun _ => 1%Q) key rows keys ND Hk).
    clear. induction rows as [|r rows IH]; [reflexivity|].
    cbn [map]. rewrite sum_cons, IH, len_cons, inject_Z_plus. reflexivity.
  - intros k _.
    generalize (filter (fun r => String.eqb (key r) k) rows). clear.
    intros l. induction l as [|r l IH]; [reflexivity|].
    cbn [map]. rewrite sum_cons, IH, len_cons, inject_Z_plus. reflexivity.
Qed.

Lemma zsum_perm : forall l l' : list Z,
  Permutation l l' -> fold_right Z.add 0 l = fold_right Z.add 0 l'.
Proof.
  intros l l' H. induction H; cbn [fold_right]; lia.
Qed.

Lemma entries_length_le : forall self expenses (items : list (string * Q)),
  Py.len (entries self expenses items) <= Py.len items.
Proof.
  intros self expenses items. induction items as [|item items IH].
  - cbn. lia.
  - rewrite entries_cons, len_cons.
    destruct (built self expenses item); [rewrite len_cons|]; lia.
Qed.

(** X4.  The analyzer counts the expense rows and their distinct
    categories; the three lists hold at most one dict per counted
    category; when every category of the expense rows has a non-zero
    limit, they hold exactly one per category, and the transaction
    counts of the dicts add up to [total_transactions]. *)
Theorem categories_accounted :
  forall (self : t) (df : Pd.DataFrame),
    let r := analyze_daily_overspending self df in
    let dicts :=
      (overspending_alerts r ++ warning_alerts r ++ within_budget r)%list in
    total_transactions r = Py.len (Pd.expenses_of df)
    /\ (forall c, In c (map fst (category_spending df))
                  <-> In c (map Pd.Category (Pd.expenses_of df)))
    /\ NoDup (map fst (category_spending df))
    /\ categories_analyzed r = Py.len (category_spending df)
    /\ Py.len dicts <= categories_analyzed r
    /\ ((forall c, In c (map Pd.Category (Pd.expenses_of df)) ->
                   ~ (Py.get (budget_limits self) c 0 == 0)%Q) ->
        Py.len dicts = categories_analyzed r
        /\ fold_right Z.add 0 (map transaction_count dicts)
           = total_transactions r).
Proof.
  intros self df r dicts.
  destruct (analyze_totals self df) as (_ & T2 & T3). fold r in T2, T3.
  destruct (analyze_lists self df) as (L1 & L2 & L3).
  fold r in L1, L2, L3.
  pose proof (entries_partition self (Pd.expenses_of df)
                (category_spending df)) as P.
  cbv zeta in P. rewrite <- L1, <- L2, <- L3 in P. fold dicts in P.
  assert (Hlen : Py.len dicts
                 = Py.len (entries self (Pd.expenses_of df)
                             (category_spending df))).
  { unfold Py.len. f_equal. apply Permutation_length, P. }
  split; [exact T2|]. split.
  { intros c. rewrite category_spending_keys. apply category_keys_In. }
  split; [rewrite category_spending_keys; apply category_keys_NoDup|].
  split; [exact T3|]. split.
  { rewrite Hlen, T3. apply entries_length_le. }
  intros Hall.
  assert (Hcfg : forall item, In item (category_spending df) ->
                   ~ (Py.get (budget_limits self) (fst item) 0 == 0)%Q).
  { intros item Hi. apply Hall.
    apply category_keys_In. rewrite <- category_spending_keys.
    apply in_map, Hi. }
  split.
  - rewrite Hlen, T3.
    pose proof (entries_all_configured self (Pd.expenses_of df)
                  (category_spending df) Hcfg) as E.
    apply (f_equal (@List.length Q)) in E. rewrite !length_map in E.
    unfold Py.len. rewrite E. reflexivity.
  - rewrite (zsum_perm _ _ (Permutation_map transaction_count P)), T2.
    pose proof (entries_analysed self (Pd.expenses_of df)
                  (category_spending df)) as A.
    apply (f_equal (map snd)) in A. rewrite !map_map in A. cbn [snd] in A.
    etransitivity; [apply (f_equal (fold_right Z.add 0)); exact A|].
    clear A. rewrite category_spending_keys.
    set (keys := Pd.sorted_keys String.compare
                   (map Pd.Category (Pd.expenses_of df))).
    assert (F : filter
                  (fun c => negb (Qeq_bool (Py.get (budget_limits self) c 0%Q) 0))
                  keys = keys).
    { apply filter_all. apply Forall_forall. intros c Hc.
      apply negb_true_iff. destruct (Qeq_bool _ 0) eqn:E; [|reflexivity].
      exfalso. apply Qeq_bool_iff in E.
      apply (Hall c); [apply category_keys_In, Hc | exact E]. }
    rewrite F. unfold category_rows.
    apply groupby_count_total.
    + apply category_keys_NoDup.
    + intros x Hx. apply category_keys_In, in_map, Hx.
Qed.

End Conservation.

Section Recommendations.

Import OverspendingAnalyzer OverspendingFacts.

Lemma min_by_percentage_spec : forall l x,
  In (min_by_percentage x l) (x :: l)
  /\ (forall ca, In ca (x :: l) ->
        (percentage_used (min_by_percentage x l) <= percentage_used ca)%Q).
Proof.
  unfold min_by_percentage.
  induction l as [|y l IH]; intros x; cbn [fold_left].
  - split; [left; reflexivity|]. intros ca [<- | []]. apply Qle_refl.
  - destruct (Py.Qlt_bool (percentage_used y) (percentage_used x)) eqn:E.
    + apply Qlt_bool_iff in E. destruct (IH y) as [I1 I2]. split.
      * right. exact I1.
      * intros ca [<- | Hca].
        -- apply Qle_trans with (percentage_used y);
             [apply I2; left; reflexivity | lra].
        -- apply I2, Hca.
    + apply Qlt_bool_false_iff in E. destruct (IH x) as [I1 I2]. split.
      * destruct I1 as [<- | I1]; [left; reflexivity | right; right; exact I1].
      * intros ca [<- | [<- | Hca]].
        -- apply I2. left. reflexivity.
        -- apply Qle_trans with (percentage_used x);
             [apply I2; left; reflexivity | exact E].
        -- apply I2. right. exact Hca.
Qed.

(** The analysis from which the recommendations of a non-empty batch are
    generated: it has the lists and the label of the result. *)
Lemma recommendations_source : forall self first df,
  let r := analyze_daily_overspending self (first :: df) in
  exists a,
    recommendations r = _generate_recommendations a
    /\ overspending_alerts a = overspending_alerts r
    /\ warning_alerts a = warning_alerts r
    /\ within_budget a = within_budget r
    /\ risk_level a = _determine_risk_level (spending_score r)
    /\ risk_level r = _determine_risk_level (spending_score r).
Proof.
  intros self first df. cbv zeta. eexists. repeat split; reflexivity.
Qed.

(** X5.  The recommendations of a non-empty batch are one per overspending
    alert, then one per warning alert, then, when a category is within
    budget, one for the within-budget category of the lowest percentage
    used; nothing else. *)
Theorem recommendations_structure :
  forall (self : t) (df : Pd.DataFrame),
    df <> [] ->
    let r := analyze_daily_overspending self df in
    recommendations r
    = (map overspending_recommendation (overspending_alerts r)
       ++ map warning_recommendation (warning_alerts r)
       ++ match within_budget r with
          | [] => []
          | x :: l => [best_recommendation (min_by_percentage x l)]
          end)%list
    /\ (forall x l,
           within_budget r = x :: l ->
           In (min_by_percentage x l) (within_budget r)
           /\ forall ca, In ca (within_budget r) ->
                (percentage_used (min_by_percentage x l)
                 <= percentage_used ca)%Q).
Proof.
  intros self [|first df] Hne r; [congruence|].
  destruct (recommendations_source self first df)
    as (a & Hr & Ho & Hw & Hb & Hl & _).
  fold r in Hr, Ho, Hw, Hb, Hl.
  split.
  - rewrite Hr. unfold _generate_recommendations.
    destruct (risk_level_no_tip (spending_score r)) as [E1 E2].
    rewrite Hl, E1, E2, Ho, Hw, Hb.
    destruct (within_budget r); [rewrite app_nil_r|rewrite <- app_assoc];
      reflexivity.
  - intros x l E. rewrite E. apply min_by_percentage_spec.
Qed.

Lemma code_bonus_nonneg : forall total_budget total_spent : Q,
  0 <= (if Py.Qlt_bool 0 total_budget
           && Py.Qlt_bool total_spent (total_budget * 0.8)
        then Z.min 15 (Py.int ((total_budget - total_spent) / total_budget * 20))
        else 0).
Proof.
  intros tb ts.
  destruct (Py.Qlt_bool 0 tb) eqn:A; cbn [andb]; [|lia].
  destruct (Py.Qlt_bool ts (tb * 0.8)) eqn:B; [|lia].
  apply Qlt_bool_iff in A, B.
  assert (Hfrac : (0 <= (tb - ts) / tb * 20)%Q).
  { apply Qmult_le_0_compat; [|lra].
    apply Qle_shift_div_l; [exact A | lra]. }
  pose proof (int_nonneg _ Hfrac). lia.
Qed.

(** X6.  A non-empty batch with no overspending alert and no warning alert
    has the full score, 100, and the label Excellent. *)
Theorem no_alerts_full_score :
  forall (self : t) (df : Pd.DataFrame),
    df <> [] ->
    let r := analyze_daily_overspending self df in
    overspending_alerts r = [] ->
    warning_alerts r = [] ->
    spending_score r = 100 /\ risk_level r = "Excellent".
Proof.
  intros self [|first df] Hne r Ho Hw; [congruence|].
  destruct (analyze_lists self (first :: df)) as (L1 & L2 & _).
  fold r in L1, L2. rewrite Ho in L1. rewrite Hw in L2.
  assert (S : spending_score r = 100).
  { unfold r. rewrite analyze_score. cbv zeta.
    rewrite <- L1, <- L2. cbn [fold_left Py.len List.length].
    unfold ScoreSpec.clamp.
    match goal with
    | |- context [if ?c then ?x else 0] =>
        pose proof (code_bonus_nonneg
                      (Py.sum (map snd (budget_limits self)))
                      (Py.sum (map Pd.Abs_Amount
                                   (Pd.expenses_of (first :: df)))))
    end.
    assert (0 <= Py.len (filter (has_status "WITHIN_BUDGET")
                           (entries self (Pd.expenses_of (first :: df))
                              (category_spending (first :: df)))))
      by (unfold Py.len; lia).
    change (Py.len (@nil CategoryAnalysis)) with 0. lia. }
  split; [exact S|].
  destruct (recommendations_source self first df) as (_ & _ & _ & _ & _ & _ & Hl).
  fold r in Hl. rewrite Hl, S. reflexivity.
Qed.

End Recommendations.

(* ================================================================== *)
(** * More on the risk officer *)
(* ================================================================== *)

Section Truncation.

(** On a non-negative number [int] is the integer part. *)
Lemma int_floor : forall x : Q, (0 <= x)%Q -> Py.int x = Qfloor x.
Proof.
  intros [n d] H. unfold Py.int, Qfloor. cbn [Qnum Qden].
  apply Z.quot_div_nonneg; [|lia].
  unfold Qle in H. cbn in H. lia.
Qed.

Lemma int_lower_bound : forall (k : Z) (x : Q),
  0 <= k -> (inject_Z k <= x)%Q -> k <= Py.int x.
Proof.
  intros k x Hk H.
  assert (Hx : (0 <= x)%Q).
  { apply Qle_trans with (inject_Z k); [|exact H].
    change 0%Q with (inject_Z 0). rewrite <- Zle_Qle. exact Hk. }
  rewrite (int_floor x Hx).
  rewrite <- (Qfloor_Z k). apply Qfloor_resp_le, H.
Qed.

End Truncation.

Section CheckSeverities.

Import RiskOfficerAnalysis RiskFacts.

Variable self : t.

Lemma volatility_severity_range : forall df,
  0 <= severity (_assess_spending_volatility self df) <= 100.
Proof.
  intros df. unfold _assess_spending_volatility.
  destruct (Pd.empty df || (Py.len df <? 7)); [cbn; lia|].
  match goal with
  | |- context [if Py.len ?l <? 3 then _ else _] => destruct (Py.len l <? 3)
  end; [cbn; lia|].
  cbv zeta. cbn [severity].
  match goal with
  | |- context [Z.min 100 ?x] => assert (0 <= x)
  end; [|lia].
  destruct (Py.Qlt_bool 0 _); [|lia].
  unfold Sqrt.floor. apply Z.sqrt_nonneg.
Qed.

Lemma concentration_severity_range : forall df,
  severity (_assess_category_concentration self df) <= 100
  /\ (is_risk (_assess_category_concentration self df) = true ->
      (0 <= concentration_risk self)%Q ->
      0 <= severity (_assess_category_concentration self df)).
Proof.
  intros df. unfold _assess_category_concentration.
  destruct (Pd.empty df); [cbn; split; [lia | discriminate]|].
  cbv zeta.
  destruct (Qeq_bool _ 0); [cbn; split; [lia | discriminate]|].
  cbn [severity is_risk]. split; [lia|].
  intros H Hc. apply Qlt_bool_iff in H.
  match goal with
  | |- context [Py.int ?x] => assert (0 <= Py.int x)
  end; [|lia].
  apply int_nonneg.
  apply Qmult_le_0_compat; lra.
Qed.

(** The pattern of the trend check is the comparison of strings. *)
Lemma match_increasing : forall (A : Type) (s : string) (a b : A),
  match s with
  | "increasing" => a
  | _ => b
  end = if String.eqb s "increasing" then a else b.
Proof.
  intros A s a b.
  do 10 (destruct s as [|[[] [] [] [] [] [] [] []] s]; try reflexivity).
  destruct s; reflexivity.
Qed.

(** The loop of the trend check adds only slopes above 10. *)
Lemma trend_total_nonneg : forall (items : list (string * TrendData)) st,
  (0 <= snd st)%Q ->
  (0 <= snd (fold_left
      (fun (st : list Deteriorating * Q) (item : string * TrendData) =>
         let '(category, trend_data) := item in
         match trend_direction trend_data with
         | Some "increasing" =>
             let slope := Py.get_or (trend_slope trend_data) 0%Q in
             if Py.Qlt_bool 10 slope then
               ((fst st ++ [mkDeteriorating category slope
                              (Py.get_or (average_daily trend_data) 0%Q)])%list,
                (snd st + slope)%Q)
             else st
         | _ => st
         end) items st))%Q.
Proof.
  induction items as [|[c td] items IH]; intros st H; cbn [fold_left].
  - exact H.
  - apply IH. destruct (trend_direction td) as [d|]; [|exact H].
    rewrite match_increasing. destruct (String.eqb d "increasing"); [|exact H].
    cbv zeta. destruct (Py.Qlt_bool 10 _) eqn:E; [|exact H].
    apply Qlt_bool_iff in E. cbn [snd]. lra.
Qed.

Lemma trend_severity_range : forall ar,
  0 <= severity (_assess_spending_trends self ar) <= 100.
Proof.
  intros ar. unfold _assess_spending_trends. cbv zeta.
  match goal with
  | |- context [fold_left ?f ?l ?a] =>
      pose proof (trend_total_nonneg l a) as H; destruct (fold_left f l a) as [dc total]
  end.
  cbn [severity]. cbn [snd] in H.
  assert (0 <= Py.int total) by (apply int_nonneg, H; lra).
  lia.
Qed.

Lemma liquidity_severity_range : forall ar,
  0 <= severity (_assess_liquidity_risk self ar) <= 100.
Proof.
  intros ar. unfold _assess_liquidity_risk. cbv zeta. cbn [severity].
  match goal with
  | |- context [Py.Qlt_bool 0.9 ?r] => set (ratio := r)
  end.
  assert (G : Py.Qlt_bool 0.9 ratio = true -> 0 <= Py.int ((ratio - 0.7) * 100)).
  { intros E. apply Qlt_bool_iff in E. apply int_nonneg. lra. }
  destruct (Py.Qlt_bool 0.9 ratio); destruct (Py.Qlt_bool _ 0);
    try specialize (G eq_refl); lia.
Qed.

Lemma behavioral_severity_range : forall df,
  0 <= severity (_assess_behavioral_patterns self df) <= 100.
Proof.
  intros df. unfold _assess_behavioral_patterns.
  destruct (Pd.empty df); [cbn; lia|].
  cbv zeta.
  unfold impulse_pattern, late_night_pattern, weekend_pattern. cbv zeta.
  destruct (many_transactions_frequent _), (late_night_frequent _),
    (Py.Qlt_bool 0 (weekend_spending _) && Py.Qlt_bool 0 (weekday_spending _));
    try destruct (Py.Qlt_bool 0.4 _); cbn [fst snd severity]; lia.
Qed.

End CheckSeverities.

Section RiskOfficerMore.

Import RiskOfficerAnalysis RiskFacts.

Lemma triggered_In : forall self df ar y,
  In y (triggered self df ar) ->
  (is_risk (_assess_spending_volatility self df) = true
   /\ y = severity (_assess_spending_volatility self df))
  \/ (is_risk (_assess_category_concentration self df) = true
      /\ y = severity (_assess_category_concentration self df))
  \/ (is_risk (_assess_spending_trends self ar) = true
      /\ y = severity (_assess_spending_trends self ar))
  \/ (is_risk (_assess_liquidity_risk self ar) = true
      /\ y = severity (_assess_liquidity_risk self ar))
  \/ (is_risk (_assess_behavioral_patterns self df) = true
      /\ y = severity (_assess_behavioral_patterns self df)).
Proof.
  intros self df ar y. unfold triggered, checks.
  rewrite in_map_iff. intros [[b z] [E H]]. cbn [snd] in E. subst z.
  apply filter_In in H. destruct H as [H Hb]. cbn [fst] in Hb. subst b.
  cbn [In] in H.
  destruct H as [H | [H | [H | [H | [H | []]]]]];
    pose proof (f_equal fst H) as H1; pose proof (f_equal snd H) as H2;
    cbn [fst snd] in H1, H2; symmetry in H2; tauto.
Qed.

Lemma In_triggered : forall self df ar,
  (is_risk (_assess_category_concentration self df) = true ->
   In (severity (_assess_category_concentration self df)) (triggered self df ar))
  /\ (is_risk (_assess_liquidity_risk self ar) = true ->
      In (severity (_assess_liquidity_risk self ar)) (triggered self df ar))
  /\ (is_risk (_assess_behavioral_patterns self df) = true ->
      In (severity (_assess_behavioral_patterns self df)) (triggered self df ar))
  /\ (is_risk (_assess_spending_trends self ar) = true ->
      In (severity (_assess_spending_trends self ar)) (triggered self df ar))
  /\ (is_risk (_assess_spending_volatility self df) = true ->
      In (severity (_assess_spending_volatility self df)) (triggered self df ar)).
Proof.
  intros self df ar. unfold triggered, checks.
  split; [|split; [|split; [|split]]]; intros E;
    apply in_map_iff; eexists (true, _);
    (split; [reflexivity|]); apply filter_In; (split; [|reflexivity]);
    rewrite E; cbn [In]; auto 10.
Qed.

Lemma severity_score_triggered : forall self df ar,
  severity_score (assess_financial_risks self df ar)
  = Py.max_or_zero (triggered self df ar).
Proof.
  intros self df ar. unfold assess_financial_risks. cbv zeta.
  cbn [severity_score].
  destruct (findings_triggered self df ar) as [-> _]. reflexivity.
Qed.

Lemma risk_level_triggered : forall self df ar,
  risk_level (assess_financial_risks self df ar)
  = _determine_overall_risk_level
      (severity_score (assess_financial_risks self df ar))
      (Py.len (triggered self df ar)).
Proof.
  intros self df ar. unfold assess_financial_risks. cbv zeta.
  cbn [severity_score risk_level].
  destruct (findings_triggered self df ar) as [_ ->]. reflexivity.
Qed.

(** X7.  The overall severity is a percentage. *)
Theorem severity_score_range : forall self df ar,
  (0 <= concentration_risk self)%Q ->
  0 <= severity_score (assess_financial_risks self df ar) <= 100.
Proof.
  intros self df ar Hc. rewrite severity_score_triggered.
  destruct (max_or_zero_spec (triggered self df ar)) as (E & I & _).
  destruct (triggered self df ar) as [|z l] eqn:T.
  - rewrite E by reflexivity. lia.
  - assert (H : In (Py.max_or_zero (z :: l)) (triggered self df ar)).
    { rewrite T. apply I. discriminate. }
    apply triggered_In in H.
    destruct H as [[_ ->] | [[R ->] | [[_ ->] | [[_ ->] | [_ ->]]]]].
    + apply volatility_severity_range.
    + destruct (concentration_severity_range self df) as [U L].
      split; [apply L; assumption | exact U].
    + apply trend_severity_range.
    + apply liquidity_severity_range.
    + apply behavioral_severity_range.
Qed.

Lemma concentration_severity_floor : forall self df,
  (0.4 <= concentration_risk self)%Q ->
  is_risk (_assess_category_concentration self df) = true ->
  60 <= severity (_assess_category_concentration self df).
Proof.
  intros self df Hc. unfold _assess_category_concentration.
  destruct (Pd.empty df); [cbn; discriminate|].
  cbv zeta.
  destruct (Qeq_bool _ 0); [cbn; discriminate|].
  cbn [severity is_risk]. intros H. apply Qlt_bool_iff in H.
  match goal with
  | |- context [Py.int ?x] => assert (60 <= Py.int x)
  end; [|lia].
  apply int_lower_bound; [lia|].
  change (inject_Z 60) with 60%Q. lra.
Qed.

Lemma overall_level_from_60 : forall s n,
  60 <= s ->
  _determine_overall_risk_level s n = "High Risk"
  \/ _determine_overall_risk_level s n = "Moderate Risk".
Proof.
  intros s n H. unfold _determine_overall_risk_level.
  destruct ((80 <=? s) || (4 <=? n)); [left; reflexivity|].
  replace (60 <=? s) with true by (symmetry; apply Z.leb_le, H).
  right. reflexivity.
Qed.

(** X8.  An over-concentrated batch is never rated below Moderate Risk. *)
Theorem concentration_at_least_moderate : forall self df ar,
  (0.4 <= concentration_risk self)%Q ->
  is_risk (_assess_category_concentration self df) = true ->
  60 <= severity_score (assess_financial_risks self df ar)
  /\ (risk_level (assess_financial_risks self df ar) = "High Risk"
      \/ risk_level (assess_financial_risks self df ar) = "Moderate Risk").
Proof.
  intros self df ar Hc R.
  assert (S : 60 <= severity_score (assess_financial_risks self df ar)).
  { rewrite severity_score_triggered.
    destruct (max_or_zero_spec (triggered self df ar)) as (_ & _ & U).
    destruct (In_triggered self df ar) as (I & _).
    specialize (U _ (I R)).
    pose proof (concentration_severity_floor self df Hc R). lia. }
  split; [exact S|].
  rewrite risk_level_triggered. apply overall_level_from_60, S.
Qed.

End RiskOfficerMore.

(* ================================================================== *)
(** * The risk officer on the results of the workflow *)
(* ================================================================== *)

Section WorkflowLiquidity.

Import RiskOfficerAnalysis RiskFacts.

Lemma Qlt_div_iff : forall a b c : Q,
  (0 < c)%Q -> (a < b / c <-> a * c < b)%Q.
Proof.
  intros a b c Hc. split; intros H.
  - apply Qmult_lt_r with (z := (/ c)%Q); [apply Qinv_lt_0_compat, Hc|].
    setoid_replace (a * c * / c)%Q with a by (field; lra).
    exact H.
  - apply Qlt_shift_div_l; assumption.
Qed.

Lemma liquidity_workflow : forall self yesterday week,
  week <> [] ->
  let income := Py.sum (map Pd.Amount (DailyWorkflowAnalyzer.income_of week)) in
  let expenses := Py.sum (map Pd.Abs_Amount (Pd.expenses_of week)) in
  let check :=
    _assess_liquidity_risk self
      (DailyWorkflowAnalyzer.analysis_results yesterday week) in
  is_risk check
  = Py.Qlt_bool (income - expenses) 0
    || Py.Qlt_bool 0.9 (if Py.Qlt_bool 0 income then expenses / income else 0)%Q
  /\ severity check
     = Z.min 100
         ((if Py.Qlt_bool (income - expenses) 0 then 50 else 0)
          + (if Py.Qlt_bool 0.9
                  (if Py.Qlt_bool 0 income then expenses / income else 0)%Q
             then Py.int (((if Py.Qlt_bool 0 income
                            then expenses / income else 0) - 0.7) * 100)%Q
             else 0)).
Proof.
  intros self yesterday [|r week] Hne; [congruence|].
  cbv zeta. split.
  - reflexivity.
  - unfold _assess_liquidity_risk. cbv zeta. cbn [severity].
    unfold DailyWorkflowAnalyzer.analysis_results.
    cbn [cash_flow_health].
    unfold DailyWorkflowAnalyzer._analyze_cash_flow_health.
    cbn [Pd.empty DailyWorkflowAnalyzer.cash_flow_read
         net_cash_flow expense_to_income_ratio Py.get_or
         DailyWorkflowAnalyzer.net_cash_flow
         DailyWorkflowAnalyzer.expense_to_income_ratio].
    destruct (Py.Qlt_bool (_ - _) 0); destruct (Py.Qlt_bool 0.9 _);
      reflexivity.
Qed.

Lemma liquidity_risk_of_week_aux : forall self yesterday week,
  week <> [] ->
  let income := Py.sum (map Pd.Amount (DailyWorkflowAnalyzer.income_of week)) in
  let expenses := Py.sum (map Pd.Abs_Amount (Pd.expenses_of week)) in
  let check :=
    _assess_liquidity_risk self
      (DailyWorkflowAnalyzer.analysis_results yesterday week) in
  (0 < income)%Q -> (income < expenses)%Q ->
  is_risk check = true /\ 80 <= severity check.
Proof.
  intros self yesterday week Hne.
  destruct (liquidity_workflow self yesterday week Hne) as [R S].
  cbv zeta in R, S |- *. rewrite R, S. clear R S.
  set (income := Py.sum (map Pd.Amount (DailyWorkflowAnalyzer.income_of week))).
  set (expenses := Py.sum (map Pd.Abs_Amount (Pd.expenses_of week))).
  intros I H.
  assert (I' : Py.Qlt_bool 0 income = true) by (apply Qlt_bool_iff, I).
  rewrite I'.
  assert (N : Py.Qlt_bool (income - expenses) 0 = true)
    by (apply Qlt_bool_iff; lra).
  assert (E : (1 < expenses / income)%Q) by (apply Qlt_div_iff; [exact I | lra]).
  assert (G : Py.Qlt_bool 0.9 (expenses / income) = true)
    by (apply Qlt_bool_iff; lra).
  rewrite N, G. split; [reflexivity|].
  assert (30 <= Py.int ((expenses / income - 0.7) * 100)); [|lia].
  apply int_lower_bound; [lia|].
  change (inject_Z 30) with 30%Q. lra.
Qed.

(** X9.  On the cash flow of a week with transactions the liquidity
    check fires when the expenses exceed the income, or when the income
    is positive and the ratio of the expenses to it is above 0.9; fired
    without a positive income its severity is 50; with a positive income
    below the expenses it is 80 or more. *)
Theorem liquidity_risk_of_week : forall self yesterday week,
  week <> [] ->
  let income := Py.sum (map Pd.Amount (DailyWorkflowAnalyzer.income_of week)) in
  let expenses := Py.sum (map Pd.Abs_Amount (Pd.expenses_of week)) in
  let check :=
    _assess_liquidity_risk self
      (DailyWorkflowAnalyzer.analysis_results yesterday week) in
  (is_risk check = true
   <-> (income < expenses \/ (0 < income /\ 0.9 < expenses / income))%Q)
  /\ (is_risk check = true -> (income <= 0)%Q -> severity check = 50)
  /\ ((0 < income)%Q -> (income < expenses)%Q -> 80 <= severity check).
Proof.
  intros self yesterday week Hne.
  destruct (liquidity_workflow self yesterday week Hne) as [R S].
  cbv zeta in R, S |- *. rewrite R, S. clear R S.
  set (income := Py.sum (map Pd.Amount (DailyWorkflowAnalyzer.income_of week))).
  set (expenses := Py.sum (map Pd.Abs_Amount (Pd.expenses_of week))).
  destruct (Py.Qlt_bool 0 income) eqn:I.
  - apply Qlt_bool_iff in I.
    assert (D : forall a : Q, (a < expenses / income <-> a * income < expenses)%Q)
      by (intros a; apply Qlt_div_iff, I).
    split; [|split].
    + rewrite orb_true_iff, !Qlt_bool_iff. split.
      * intros [H | H]; [left; lra | right; split; [exact I | exact H]].
      * intros [H | [_ H]]; [left; lra | right; exact H].
    + intros _ H. lra.
    + intros _ H.
      assert (N : Py.Qlt_bool (income - expenses) 0 = true)
        by (apply Qlt_bool_iff; lra).
      assert (E : (1 < expenses / income)%Q) by (apply D; lra).
      assert (G : Py.Qlt_bool 0.9 (expenses / income) = true)
        by (apply Qlt_bool_iff; lra).
      rewrite N, G.
      assert (30 <= Py.int ((expenses / income - 0.7) * 100)); [|lia].
      apply int_lower_bound; [lia|].
      change (inject_Z 30) with 30%Q. lra.
  - apply Qlt_bool_false_iff in I.
    assert (G : Py.Qlt_bool 0.9 0 = false) by reflexivity.
    rewrite G, orb_false_r. split; [|split].
    + rewrite Qlt_bool_iff. split; [intros H; left; lra | intros [H | H]; lra].
    + intros H _. rewrite H. reflexivity.
    + intros H. lra.
Qed.

(** X10.  A week that spends more than its income is rated High Risk. *)
Theorem overspent_income_high_risk : forall self df yesterday week,
  let income := Py.sum (map Pd.Amount (DailyWorkflowAnalyzer.income_of week)) in
  let expenses := Py.sum (map Pd.Abs_Amount (Pd.expenses_of week)) in
  (0 < income)%Q -> (income < expenses)%Q ->
  80 <= severity_score
          (assess_financial_risks self df
             (DailyWorkflowAnalyzer.analysis_results yesterday week))
  /\ risk_level
       (assess_financial_risks self df
          (DailyWorkflowAnalyzer.analysis_results yesterday week))
     = "High Risk".
Proof.
  intros self df yesterday week income expenses I E.
  assert (Hne : week <> []).
  { intros ->. cbn in I. lra. }
  destruct (liquidity_risk_of_week_aux self yesterday week Hne I E) as [R S].
  set (ar := DailyWorkflowAnalyzer.analysis_results yesterday week) in *.
  assert (H : 80 <= severity_score (assess_financial_risks self df ar)).
  { rewrite severity_score_triggered.
    destruct (max_or_zero_spec (triggered self df ar)) as (_ & _ & U).
    destruct (In_triggered self df ar) as (_ & L & _).
    specialize (U _ (L R)). lia. }
  split; [exact H|].
  rewrite risk_level_triggered. unfold _determine_overall_risk_level.
  replace (80 <=? _) with true by (symmetry; apply Z.leb_le, H).
  reflexivity.
Qed.

End WorkflowLiquidity.

Section Behavioral.

Import RiskOfficerAnalysis RiskFacts.

Lemma behavioral_severity_parts : forall self df,
  let expenses := Pd.expenses_of df in
  let check := _assess_behavioral_patterns self df in
  let weekend :=
    Py.Qlt_bool 0 (weekend_spending expenses)
    && Py.Qlt_bool 0 (weekday_spending expenses)
    && Py.Qlt_bool 0.4
         (weekend_spending expenses
          / (weekend_spending expenses + weekday_spending expenses))%Q in
  (df <> [] ->
   severity check
   = (if weekend then 30 else 0)
     + (if late_night_frequent expenses then 20 else 0)
     + (if many_transactions_frequent expenses then 25 else 0))
  /\ (is_risk check = true <-> 0 < severity check)
  /\ 0 <= severity check <= 75.
Proof.
  intros self df. cbv zeta.
  unfold _assess_behavioral_patterns.
  destruct df as [|r df].
  - cbn [Pd.empty no_risk severity is_risk].
    split; [congruence|]. split; [|lia]. split; [discriminate | lia].
  - cbn [Pd.empty]. cbv zeta.
    set (expenses := Pd.expenses_of (r :: df)).
    unfold impulse_pattern, late_night_pattern, weekend_pattern. cbv zeta.
    destruct (many_transactions_frequent expenses),
      (late_night_frequent expenses),
      (Py.Qlt_bool 0 (weekend_spending expenses)),
      (Py.Qlt_bool 0 (weekday_spending expenses));
      cbn [andb]; try destruct (Py.Qlt_bool 0.4 _);
      cbn [fst snd severity is_risk app Py.len List.length Z.of_nat Z.ltb
           Z.compare Pos.of_succ_nat Pos.succ];
      (split; [intros _; reflexivity|]); (split; [|lia]);
      split; (reflexivity || discriminate || lia || idtac).
    all: try (intros H; discriminate H || (exfalso; lia)).
Qed.

(** X11.  The behavioral severity is the sum of the increments of the
    patterns found. *)
Theorem behavioral_severity_increments : forall self df,
  let expenses := Pd.expenses_of df in
  let check := _assess_behavioral_patterns self df in
  let weekend :=
    Py.Qlt_bool 0 (weekend_spending expenses)
    && Py.Qlt_bool 0 (weekday_spending expenses)
    && Py.Qlt_bool 0.4
         (weekend_spending expenses
          / (weekend_spending expenses + weekday_spending expenses))%Q in
  (df <> [] ->
   severity check
   = (if weekend then 30 else 0)
     + (if late_night_frequent expenses then 20 else 0)
     + (if many_transactions_frequent expenses then 25 else 0))
  /\ (is_risk check = true <-> 0 < severity check)
  /\ 0 <= severity check <= 75.
Proof.
  exact behavioral_severity_parts.
Qed.

(** The count of the loop is the number of the late-night rows. *)
Lemma late_night_count : forall expenses n,
  fold_left
    (fun n transaction =>
       if (22 <=? Pd.hour (Pd.Date transaction))
          || (Pd.hour (Pd.Date transaction) <=? 6)
       then n + 1 else n)
    expenses n
  = n + Py.len (filter (fun r => (22 <=? Pd.hour (Pd.Date r))
                                 || (Pd.hour (Pd.Date r) <=? 6)) expenses).
Proof.
  induction expenses as [|r expenses IH]; intros n; cbn [fold_left filter].
  - cbn. lia.
  - rewrite IH. destruct ((22 <=? _) || (_ <=? 6)); [rewrite len_cons|]; lia.
Qed.

Lemma night_hours_late : forall self df,
  Pd.expenses_of df <> [] ->
  Forall (fun r => Pd.hour (Pd.Date r) <= 6 \/ 22 <= Pd.hour (Pd.Date r))
         (Pd.expenses_of df) ->
  is_risk (_assess_behavioral_patterns self df) = true
  /\ 20 <= severity (_assess_behavioral_patterns self df)
  /\ late_night_frequent (Pd.expenses_of df) = true.
Proof.
  intros self df Hne Hall.
  assert (L : late_night_frequent (Pd.expenses_of df) = true).
  { unfold late_night_frequent, late_night_transactions.
    rewrite late_night_count, filter_all.
    - apply Qlt_bool_iff. 
      assert (0 < Py.len (Pd.expenses_of df)).
      { destruct (Pd.expenses_of df); [congruence|]. rewrite len_cons.
        unfold Py.len. lia. }
      rewrite Z.add_0_l.
      assert (0 < inject_Z (Py.len (Pd.expenses_of df)))%Q.
      { change 0%Q with (inject_Z 0). rewrite <- Zlt_Qlt. assumption. }
      lra.
    - eapply Forall_impl; [|exact Hall]. cbv beta. intros r [H | H].
      + apply orb_true_iff. right. apply Z.leb_le, H.
      + apply orb_true_iff. left. apply Z.leb_le, H. }
  assert (Hdf : df <> []) by (intros ->; apply Hne; reflexivity).
  destruct (behavioral_severity_parts self df) as (S & R & _).
  specialize (S Hdf). rewrite L in S.
  assert (20 <= severity (_assess_behavioral_patterns self df)).
  { rewrite S.
    repeat match goal with
           | |- context [if ?b then _ else _] => destruct b
           end; lia. }
  split; [apply R; lia|]. split; assumption.
Qed.

(** X12.  A batch whose expenses all carry an hour of at most 6 or at least
    22, as the midnight of a date without a time does, is flagged for
    late-night spending. *)
Theorem night_hours_flagged : forall self df,
  Pd.expenses_of df <> [] ->
  Forall (fun r => Pd.hour (Pd.Date r) <= 6 \/ 22 <= Pd.hour (Pd.Date r))
         (Pd.expenses_of df) ->
  is_risk (_assess_behavioral_patterns self df) = true
  /\ 20 <= severity (_assess_behavioral_patterns self df)
  /\ late_night_frequent (Pd.expenses_of df) = true.
Proof.
  exact night_hours_late.
Qed.

End Behavioral.

Section FactorsAndRecommendations.

Import RiskOfficerAnalysis RiskFacts.

Lemma len_app : forall (A : Type) (l l' : list A),
  Py.len (l ++ l') = Py.len l + Py.len l'.
Proof.
  intros A l l'. unfold Py.len. rewrite length_app. lia.
Qed.

Lemma len_nonneg : forall (A : Type) (l : list A), 0 <= Py.len l.
Proof.
  intros A l. unfold Py.len. lia.
Qed.

Lemma len_zero : forall (A : Type) (l : list A), Py.len l = 0 <-> l = [].
Proof.
  intros A [|x l]; split; intros H; try reflexivity; discriminate.
Qed.

Lemma record_risk_counts : forall (D : Type) (check : Risk D) describe found,
  (is_risk check = true -> 2 <= Py.len (risk_recommendations check) <= 5) ->
  2 * Py.len (risk_factors found) <= Py.len (found_recommendations found)
    <= 5 * Py.len (risk_factors found) ->
  2 * Py.len (risk_factors (record_risk check describe found))
    <= Py.len (found_recommendations (record_risk check describe found))
    <= 5 * Py.len (risk_factors (record_risk check describe found)).
Proof.
  intros D check describe found Hc Hf. unfold record_risk.
  destruct (is_risk check); [|exact Hf].
  specialize (Hc eq_refl).
  cbn [risk_factors found_recommendations]. rewrite !len_app.
  change (Py.len [_]) with 1. lia.
Qed.

Lemma firstn_len_le : forall (A : Type) (n : nat) (l : list A),
  Py.len (firstn n l) <= Z.of_nat n.
Proof.
  intros A n l. unfold Py.len. pose proof (firstn_le_length n l). lia.
Qed.

Lemma check_recommendations : forall self df ar,
  (is_risk (_assess_spending_volatility self df) = true ->
   2 <= Py.len (risk_recommendations (_assess_spending_volatility self df)) <= 5)
  /\ (is_risk (_assess_category_concentration self df) = true ->
      2 <= Py.len (risk_recommendations (_assess_category_concentration self df)) <= 5)
  /\ (is_risk (_assess_spending_trends self ar) = true ->
      2 <= Py.len (risk_recommendations (_assess_spending_trends self ar)) <= 5)
  /\ (is_risk (_assess_liquidity_risk self ar) = true ->
      2 <= Py.len (risk_recommendations (_assess_liquidity_risk self ar)) <= 5)
  /\ (is_risk (_assess_behavioral_patterns self df) = true ->
      2 <= Py.len (risk_recommendations (_assess_behavioral_patterns self df)) <= 5).
Proof.
  intros self df ar. split; [|split; [|split; [|split]]].
  - unfold _assess_spending_volatility.
    destruct (Pd.empty df || (Py.len df <? 7)); [discriminate|].
    match goal with
    | |- context [if Py.len ?l <? 3 then _ else _] => destruct (Py.len l <? 3)
    end; [discriminate|].
    cbv zeta. cbn [is_risk risk_recommendations]. intros ->. cbn. lia.
  - unfold _assess_category_concentration.
    destruct (Pd.empty df); [discriminate|]. cbv zeta.
    destruct (Qeq_bool _ 0); [discriminate|].
    cbn [is_risk risk_recommendations]. intros ->. cbn. lia.
  - unfold _assess_spending_trends. cbv zeta.
    match goal with
    | |- context [fold_left ?f ?l ?a] => destruct (fold_left f l a) as [dc total]
    end.
    cbn [is_risk risk_recommendations]. intros ->.
    rewrite len_app.
    match goal with
    | |- context [Py.len (map ?f (firstn 3 dc))] =>
        assert (0 <= Py.len (map f (firstn 3 dc)) <= 3)
    end.
    { unfold Py.len. rewrite length_map.
      pose proof (firstn_le_length 3 dc). lia. }
    change (Py.len [_; _]) with 2. lia.
  - unfold _assess_liquidity_risk. cbv zeta.
    cbn [is_risk risk_recommendations]. intros ->. cbn. lia.
  - unfold _assess_behavioral_patterns.
    destruct (Pd.empty df); [discriminate|]. cbv zeta.
    match goal with
    | |- context [impulse_pattern ?e ?s] => destruct (impulse_pattern e s) as [p s']
    end.
    cbn [is_risk risk_recommendations]. intros ->. cbn. lia.
Qed.

(** X13.  Every risk factor brings between two and five recommendations,
    and there are at most five factors. *)
Theorem recommendations_per_factor : forall self df ar,
  let r := assess_financial_risks self df ar in
  Py.len (factors r) <= 5
  /\ 2 * Py.len (factors r) <= Py.len (recommendations r)
     <= 5 * Py.len (factors r)
  /\ (factors r = [] <-> recommendations r = []).
Proof.
  intros self df ar. cbv zeta.
  unfold assess_financial_risks. cbv zeta. cbn [factors recommendations].
  assert (N : Py.len (risk_factors (findings self df ar)) <= 5).
  { destruct (findings_triggered self df ar) as [_ ->].
    unfold triggered, checks, Py.len. rewrite length_map.
    match goal with
    | |- context [filter ?f ?l] => pose proof (filter_length_le f l) as H
    end.
    cbn [List.length] in H. lia. }
  assert (B : 2 * Py.len (risk_factors (findings self df ar))
              <= Py.len (found_recommendations (findings self df ar))
              <= 5 * Py.len (risk_factors (findings self df ar))).
  { destruct (check_recommendations self df ar) as (C1 & C2 & C3 & C4 & C5).
    unfold findings. cbv zeta.
    repeat (apply record_risk_counts; [assumption|]).
    cbn. lia. }
  split; [exact N|]. split; [exact B|].
  rewrite <- !len_zero.
  pose proof (len_nonneg _ (risk_factors (findings self df ar))).
  pose proof (len_nonneg _ (found_recommendations (findings self df ar))).
  lia.
Qed.

End FactorsAndRecommendations.

Section WorkflowTrends.

Import RiskOfficerAnalysis RiskFacts DailyWorkflowAnalyzer WorkflowFacts.

Lemma category_trends_map : forall expenses,
  category_trends expenses
  = map (fun c =>
           (c, mkTrendData (Some (trend_direction_of (slope_of expenses c)))
                 (Some (slope_of expenses c))
                 (Some (Pd.mean (daily_cat_spending expenses c)))))
        (filter (fun c => 1 <? Py.len (daily_cat_spending expenses c))
                (unique (map Pd.Category expenses))).
Proof.
  intros expenses. unfold category_trends. cbv zeta.
  rewrite (fold_append_filter_map _ _
             (fun c => 1 <? Py.len (daily_cat_spending expenses c))
             (fun c =>
                (c, mkTrendData (Some (trend_direction_of (slope_of expenses c)))
                      (Some (slope_of expenses c))
                      (Some (Pd.mean (daily_cat_spending expenses c)))))).
  reflexivity.
Qed.

(** A slope above 10 is labelled as increasing. *)
Lemma direction_above_10 : forall s,
  Py.Qlt_bool 10 s = true -> trend_direction_of s = "increasing".
Proof.
  intros s H. apply Qlt_bool_iff in H. unfold trend_direction_of.
  replace (Py.Qlt_bool 1 s) with true; [reflexivity|].
  symmetry. apply Qlt_bool_iff. lra.
Qed.

Lemma trend_loop_workflow : forall expenses (l : list string) st,
  fold_left
    (fun (st : list Deteriorating * Q) (item : string * TrendData) =>
       let '(category, trend_data) := item in
       match trend_direction trend_data with
       | Some "increasing" =>
           let slope := Py.get_or (trend_slope trend_data) 0%Q in
           if Py.Qlt_bool 10 slope then
             ((fst st ++ [mkDeteriorating category slope
                            (Py.get_or (average_daily trend_data) 0%Q)])%list,
              (snd st + slope)%Q)
           else st
       | _ => st
       end)
    (map (fun c =>
            (c, mkTrendData (Some (trend_direction_of (slope_of expenses c)))
                  (Some (slope_of expenses c))
                  (Some (Pd.mean (daily_cat_spending expenses c)))))
         l) st
  = ((fst st
      ++ map (fun c => mkDeteriorating c (slope_of expenses c)
                         (Pd.mean (daily_cat_spending expenses c)))
             (filter (fun c => Py.Qlt_bool 10 (slope_of expenses c)) l))%list,
     fold_left Qplus
       (map (slope_of expenses)
            (filter (fun c => Py.Qlt_bool 10 (slope_of expenses c)) l))
       (snd st)).
Proof.
  intros expenses l. induction l as [|c l IH]; intros [d t].
  - cbn [map filter fold_left fst snd]. rewrite app_nil_r. reflexivity.
  - cbn [map fold_left filter]. rewrite IH. clear IH.
    cbn [trend_direction trend_slope average_daily Py.get_or].
    rewrite match_increasing. cbv zeta.
    destruct (Py.Qlt_bool 10 (slope_of expenses c)) eqn:E.
    + rewrite (direction_above_10 _ E).
      cbn [String.eqb Ascii.eqb Bool.eqb fst snd map fold_left].
      rewrite <- app_assoc. reflexivity.
    + destruct (String.eqb _ "increasing"); reflexivity.
Qed.

Lemma filter_filter : forall (A : Type) (p q : A -> bool) (l : list A),
  filter q (filter p l) = filter (fun x => p x && q x) l.
Proof.
  intros A p q l. induction l as [|x l IH]; cbn [filter]; [reflexivity|].
  destruct (p x); cbn [filter andb]; [destruct (q x)|]; rewrite IH; reflexivity.
Qed.

Lemma len_map : forall (A B : Type) (f : A -> B) (l : list A),
  Py.len (map f l) = Py.len l.
Proof.
  intros A B f l. unfold Py.len. rewrite length_map. reflexivity.
Qed.

(** X14.  On the trends of the workflow the trend check counts exactly the
    categories whose fitted slope is above 10. *)
Theorem workflow_trend_risk : forall self yesterday week,
  let expenses := Pd.expenses_of week in
  let check := _assess_spending_trends self (analysis_results yesterday week) in
  let total := Py.sum (map (slope_of expenses) (rising expenses)) in
  is_risk check = (2 <=? Py.len (rising expenses)) || Py.Qlt_bool 50 total
  /\ severity check = Z.min 100 (Py.int total)
  /\ detail check
     = Some (Py.str_int (Py.len (rising expenses))
             ++ " categories trending upward")
  /\ (is_risk check = true ->
      risk_recommendations check
      = (map (fun c => ("📈 Address increasing spending in " ++ c)%string)
             (firstn 3 (rising expenses))
         ++ ["🎯 Implement trend-based spending alerts";
             "📊 Review monthly to catch negative trends early"])%list).
Proof.
  intros self yesterday week. cbv zeta.
  unfold _assess_spending_trends, analysis_results. cbv zeta.
  cbn [trend_analysis].
  unfold _analyze_trends_and_variance.
  destruct week as [|r week].
  - cbn. repeat split. discriminate.
  - cbn [Pd.empty RiskOfficerAnalysis.category_trends Py.get_or].
    set (expenses := Pd.expenses_of (r :: week)).
    rewrite category_trends_map, trend_loop_workflow, filter_filter.
    cbn [fst snd app]. fold (rising expenses).
    rewrite !len_map.
    fold (Py.sum (map (slope_of expenses) (rising expenses))).
    cbn [is_risk severity detail risk_recommendations].
    split; [reflexivity|]. split; [reflexivity|]. split; [reflexivity|].
    intros ->. rewrite firstn_map, map_map. reflexivity.
Qed.

End WorkflowTrends.

(* ================================================================== *)
(** * More on the normalizer *)
(* ================================================================== *)

Section TimestampOrder.

Lemma lex_Lt : forall c1 c2,
  Pd.lex c1 c2 = Lt <-> c1 = Lt \/ (c1 = Eq /\ c2 = Lt).
Proof.
  intros [] c2; cbn; split; intros H; try tauto; try discriminate;
    try (destruct H as [H | [H _]]; discriminate).
  destruct H as [H | [_ H]]; [discriminate | exact H].
Qed.

Lemma lex_Eq : forall c1 c2,
  Pd.lex c1 c2 = Eq <-> c1 = Eq /\ c2 = Eq.
Proof.
  intros [] c2; cbn; split; intros H; try tauto; try discriminate;
    destruct H as [H _]; discriminate.
Qed.

(** The timestamp order, on the calendar fields. *)
Lemma ts_compare_Lt : forall a b,
  Pd.ts_compare a b = Lt
  <-> Pd.year a < Pd.year b
      \/ (Pd.year a = Pd.year b
          /\ (Pd.month a < Pd.month b
              \/ (Pd.month a = Pd.month b
                  /\ (Pd.day a < Pd.day b
                      \/ (Pd.day a = Pd.day b
                          /\ (Pd.hour a < Pd.hour b
                              \/ (Pd.hour a = Pd.hour b
                                  /\ (Pd.minute a < Pd.minute b
                                      \/ (Pd.minute a = Pd.minute b
                                          /\ Pd.second a < Pd.second b))))))))).
Proof.
  intros a b.
  cbv beta iota zeta delta [Pd.ts_compare Pd.date_compare Pd.date_of].
  repeat (rewrite lex_Lt || rewrite lex_Eq).
  rewrite !Z.compare_lt_iff, !Z.compare_eq_iff. tauto.
Qed.

Lemma ts_not_Lt_trans : forall a b c,
  Pd.ts_compare a b <> Lt -> Pd.ts_compare b c <> Lt ->
  Pd.ts_compare a c <> Lt.
Proof.
  intros a b c. rewrite !ts_compare_Lt. lia.
Qed.

Lemma ts_not_Lt_total : forall a b,
  Pd.ts_compare a b = Lt -> Pd.ts_compare b a <> Lt.
Proof.
  intros a b. rewrite !ts_compare_Lt. lia.
Qed.

End TimestampOrder.

Section SortedOutput.

Import TransactionRetriever NormalizerFacts.

Lemma insert_by_date_In : forall r x l,
  In x (insert_by_date r l) <-> x = r \/ In x l.
Proof.
  intros r x l. split; intros H.
  - apply (Permutation_in _ (insert_by_date_perm r l)) in H.
    destruct H as [H | H]; [left; symmetry; exact H | right; exact H].
  - apply (Permutation_in _ (Permutation_sym (insert_by_date_perm r l))).
    destruct H as [H | H]; [left; symmetry; exact H | right; exact H].
Qed.

Lemma insert_by_date_sorted : forall r l,
  StronglySorted newest_first l ->
  StronglySorted newest_first (insert_by_date r l).
Proof.
  intros r l H. induction H as [|x l Hl IH Hx]; cbn [insert_by_date].
  - constructor; [constructor | constructor].
  - destruct (Pd.ts_compare (Pd.Date r) (Pd.Date x)) eqn:E.
    + constructor; [constructor; assumption|].
      assert (Hrx : newest_first r x) by (unfold newest_first; congruence).
      constructor; [exact Hrx|].
      rewrite Forall_forall in *. intros y Hy.
      apply (ts_not_Lt_trans _ (Pd.Date x)); [exact Hrx | apply Hx, Hy].
    + constructor; [exact IH|].
      rewrite Forall_forall in *. intros y Hy.
      apply insert_by_date_In in Hy. destruct Hy as [-> | Hy].
      * apply ts_not_Lt_total, E.
      * apply Hx, Hy.
    + constructor; [constructor; assumption|].
      assert (Hrx : newest_first r x) by (unfold newest_first; congruence).
      constructor; [exact Hrx|].
      rewrite Forall_forall in *. intros y Hy.
      apply (ts_not_Lt_trans _ (Pd.Date x)); [exact Hrx | apply Hx, Hy].
Qed.

Lemma sort_values_sorted : forall df,
  StronglySorted newest_first (sort_values_Date_descending df).
Proof.
  induction df as [|r df IH]; cbn [sort_values_Date_descending fold_right].
  - constructor.
  - apply insert_by_date_sorted, IH.
Qed.

End SortedOutput.

Section NormalizedRows.

Import TransactionRetriever NormalizerFacts.

Variable to_datetime : string -> option Pd.Timestamp.
Variable to_numeric : string -> option Q.

Lemma keyword_category_In : forall table description,
  In (keyword_category table description)
     ("Miscellaneous" :: map fst table).
Proof.
  intros table description. induction table as [|[c ks] table IH].
  - left. reflexivity.
  - cbn [keyword_category map fst].
    destruct (String.eqb c "Miscellaneous").
    + destruct IH as [IH | IH]; [left; exact IH | right; right; exact IH].
    + destruct (existsb _ ks).
      * right. left. reflexivity.
      * destruct IH as [IH | IH]; [left; exact IH | right; right; exact IH].
Qed.

Lemma categorize_not_empty : forall category description,
  _categorize_transaction category description <> "".
Proof.
  intros category description. unfold _categorize_transaction.
  destruct (String.eqb (Py.strip category) "") eqn:E; cbn [negb].
  - pose proof (keyword_category_In config.EXPENSE_CATEGORIES
                  (Py.lower description)) as H.
    cbn [config.EXPENSE_CATEGORIES map fst In] in H.
    intros N. rewrite N in H.
    repeat (destruct H as [H | H]; [discriminate H|]). exact H.
  - intros N. rewrite N in E. discriminate E.
Qed.

Lemma process_transactions_In : forall raw_data r,
  In r (process_transactions to_datetime to_numeric raw_data) ->
  exists d a raw, r = finished_row (d, a, raw).
Proof.
  intros [|headers rows] r H; [destruct H|].
  cbn [process_transactions] in H. unfold _clean_dataframe in H.
  apply (Permutation_in _ (sort_values_perm _)) in H.
  apply in_map_iff in H. destruct H as [[[d a] raw] [E _]].
  exists d, a, raw. symmetry. exact E.
Qed.

Lemma normalized_abs_nonneg : forall raw_data,
  Forall (fun r => 0 <= Pd.Abs_Amount r)%Q
         (process_transactions to_datetime to_numeric raw_data).
Proof.
  intros raw_data. apply Forall_forall. intros r H.
  apply process_transactions_In in H. destruct H as (d & a & raw & ->).
  cbn [finished_row Pd.Abs_Amount]. apply Qabs_nonneg.
Qed.

(** X15.  The derived columns of every normalized row. *)
Theorem normalized_columns : forall raw_data,
  Forall (fun r =>
            (Pd.Is_Expense r = true <-> (Pd.Amount r < 0)%Q)
            /\ Pd.Abs_Amount r = Qabs (Pd.Amount r)
            /\ (0 <= Pd.Abs_Amount r)%Q
            /\ (Pd.Is_Expense r = true -> (Pd.Abs_Amount r == - Pd.Amount r)%Q)
            /\ Pd.Day_of_Week r = Pd.day_name (Pd.Date r)
            /\ Pd.Category r <> "")
         (process_transactions to_datetime to_numeric raw_data).
Proof.
  intros raw_data. apply Forall_forall. intros r H.
  apply process_transactions_In in H. destruct H as (d & a & raw & ->).
  cbn [finished_row Pd.Is_Expense Pd.Amount Pd.Abs_Amount Pd.Day_of_Week
       Pd.Date Pd.Category].
  split; [apply Qlt_bool_iff|]. split; [reflexivity|].
  split; [apply Qabs_nonneg|]. split.
  - intros E. apply Qlt_bool_iff in E. apply Qabs_neg. lra.
  - split; [reflexivity | apply categorize_not_empty].
Qed.

(** X16.  The normalized rows come newest first. *)
Theorem normalized_newest_first : forall raw_data,
  StronglySorted newest_first
    (process_transactions to_datetime to_numeric raw_data).
Proof.
  intros [|headers rows]; cbn [process_transactions].
  - constructor.
  - apply sort_values_sorted.
Qed.

End NormalizedRows.

Section Pipeline.

Import OverspendingAnalyzer OverspendingFacts TransactionRetriever.

(** The score of a batch of non-negative absolute amounts. *)
Lemma score_of_counts : forall self first df,
  Forall (fun r => 0 <= Pd.Abs_Amount r)%Q (first :: df) ->
  spending_score (analyze_daily_overspending self (first :: df))
  = ScoreSpec.spending_score self (first :: df).
Proof.
  intros self first df Ha.
  assert (Hts : (0 <= Py.sum (map Pd.Abs_Amount
                                 (Pd.expenses_of (first :: df))))%Q).
  { apply sum_nonneg. rewrite Forall_map.
    unfold Pd.expenses_of. rewrite Forall_forall in *.
    intros r Hr. apply filter_In in Hr. apply Ha, Hr. }
  rewrite analyze_score. cbv zeta.
  destruct (score_counts self (Pd.expenses_of (first :: df))
              (category_spending (first :: df)) 100) as (S1 & S2 & S3).
  rewrite S1, S2, S3.
  unfold ScoreSpec.spending_score. cbv zeta. f_equal.
  unfold ScoreSpec.under_budget_bonus.
  set (tb := Py.sum (map snd (budget_limits self))) in *.
  set (ts := Py.sum (map Pd.Abs_Amount (Pd.expenses_of (first :: df)))) in *.
  destruct (Py.Qlt_bool ts (tb * 0.8)) eqn:E.
  - assert (E0 : Py.Qlt_bool 0 tb = true).
    { apply Qlt_bool_iff. apply Qlt_bool_iff in E. lra. }
    rewrite E0. cbn [andb]. lia.
  - rewrite andb_false_r. lia.
Qed.

(** X17.  On the rows of the normalizer the score is the counting formula,
    whatever the sheet. *)
Theorem normalized_sheet_score :
  forall (to_datetime : string -> option Pd.Timestamp)
         (to_numeric : string -> option Q) self raw_data,
    let df := process_transactions to_datetime to_numeric raw_data in
    spending_score (analyze_daily_overspending self df)
    = if Pd.empty df then 0 else ScoreSpec.spending_score self df.
Proof.
  intros to_datetime to_numeric self raw_data df.
  pose proof (normalized_abs_nonneg to_datetime to_numeric raw_data) as H.
  fold df in H. destruct df as [|first df]; [reflexivity|].
  cbn [Pd.empty]. apply score_of_counts, H.
Qed.

End Pipeline.

(* ================================================================== *)
(** * The growth strategist *)
(* ================================================================== *)

Section GrowthOrder.

Import GrowthStrategistAnalysis GrowthStrategist.

Lemma insert_by_value_perm : forall o l,
  Permutation (insert_by_value o l) (o :: l).
Proof.
  intros o l. induction l as [|x l IH]; cbn [insert_by_value].
  - apply Permutation_refl.
  - destruct (Py.Qlt_bool (potential_value o) (potential_value x)).
    + eapply Permutation_trans; [apply perm_skip, IH | apply perm_swap].
    + apply Permutation_refl.
Qed.

Lemma sort_by_value_perm : forall l, Permutation (sort_by_value l) l.
Proof.
  induction l as [|o l IH]; cbn [sort_by_value fold_right].
  - constructor.
  - eapply Permutation_trans; [apply insert_by_value_perm|].
    apply perm_skip, IH.
Qed.

Lemma insert_by_value_sorted : forall o l,
  StronglySorted (fun a b => potential_value b <= potential_value a)%Q l ->
  StronglySorted (fun a b => potential_value b <= potential_value a)%Q
    (insert_by_value o l).
Proof.
  intros o l H. induction H as [|x l Hl IH Hx]; cbn [insert_by_value].
  - constructor; constructor.
  - destruct (Py.Qlt_bool (potential_value o) (potential_value x)) eqn:E.
    + apply Qlt_bool_iff in E. constructor; [exact IH|].
      rewrite Forall_forall in *. intros y Hy.
      apply (Permutation_in _ (insert_by_value_perm o l)) in Hy.
      destruct Hy as [<- | Hy]; [lra | apply Hx, Hy].
    + apply Qlt_bool_false_iff in E.
      constructor; [constructor; assumption|].
      constructor; [exact E|].
      rewrite Forall_forall in *. intros y Hy.
      apply Qle_trans with (potential_value x); [apply Hx, Hy | exact E].
Qed.

Lemma sort_by_value_sorted : forall l,
  StronglySorted (fun a b => potential_value b <= potential_value a)%Q
    (sort_by_value l).
Proof.
  induction l as [|o l IH]; cbn [sort_by_value fold_right].
  - constructor.
  - apply insert_by_value_sorted, IH.
Qed.

(** The first opportunity is worth at least as much as any detected
    one. *)
Lemma first_opportunity : forall df cash_flow x,
  In x (detected df cash_flow) ->
  exists o rest,
    identify_growth_opportunities df cash_flow = o :: rest
    /\ (potential_value x <= potential_value o)%Q.
Proof.
  intros df cash_flow x Hx. unfold identify_growth_opportunities.
  apply (Permutation_in _ (Permutation_sym (sort_by_value_perm _))) in Hx.
  pose proof (sort_by_value_sorted (detected df cash_flow)) as S.
  destruct (sort_by_value (detected df cash_flow)) as [|o rest]; [destruct Hx|].
  exists o, rest. split; [reflexivity|].
  destruct Hx as [<- | Hx]; [lra|].
  apply StronglySorted_inv in S. destruct S as [_ S].
  rewrite Forall_forall in S. apply S, Hx.
Qed.

Lemma budget_automation_detected : forall df cash_flow,
  In budget_automation (detected df cash_flow).
Proof.
  intros df cash_flow. unfold detected, _identify_automation_opportunities.
  cbv zeta. rewrite !in_app_iff. right. right. left. right. left. reflexivity.
Qed.

(** X18.  The opportunities are those of the five detectors, from the
    most to the least valuable. *)
Theorem growth_opportunities_sorted : forall df cash_flow,
  Permutation (identify_growth_opportunities df cash_flow)
    (_identify_subscription_optimization df
     ++ _identify_efficiency_improvements df
     ++ _identify_automation_opportunities cash_flow
     ++ _identify_behavioral_optimizations df
     ++ _identify_strategic_opportunities cash_flow)
  /\ StronglySorted (fun a b => potential_value b <= potential_value a)%Q
       (identify_growth_opportunities df cash_flow).
Proof.
  intros df cash_flow. split.
  - apply sort_by_value_perm.
  - apply sort_by_value_sorted.
Qed.

(** X19.  Budget automation is always proposed, so that there is always an
    opportunity, and the first one is worth 200 or more. *)
Theorem budget_automation_always : forall df cash_flow,
  In budget_automation (identify_growth_opportunities df cash_flow)
  /\ exists o rest,
       identify_growth_opportunities df cash_flow = o :: rest
       /\ (200 <= potential_value o)%Q.
Proof.
  intros df cash_flow. split.
  - apply (Permutation_in _ (Permutation_sym (sort_by_value_perm _))).
    apply budget_automation_detected.
  - apply (first_opportunity df cash_flow budget_automation).
    apply budget_automation_detected.
Qed.

End GrowthOrder.

Section GrowthOnWorkflow.

Import GrowthStrategistAnalysis GrowthStrategist.

Lemma strategic_workflow : forall week,
  let income := Py.sum (map Pd.Amount (DailyWorkflowAnalyzer.income_of week)) in
  let expenses := Py.sum (map Pd.Abs_Amount (Pd.expenses_of week)) in
  let cash_flow :=
    cash_flow_read (DailyWorkflowAnalyzer._analyze_cash_flow_health week) in
  exists rate net,
    _identify_strategic_opportunities cash_flow
    = ((if Py.Qlt_bool rate 20 then [savings_rate_improvement rate] else [])
       ++ (if Py.Qlt_bool 500 net then [investment_growth net] else []))%list
    /\ (net == income - expenses)%Q
    /\ ((0 < income)%Q -> (rate == (income - expenses) / income * 100)%Q)
    /\ ((income <= 0)%Q -> (rate == 0)%Q).
Proof.
  intros [|r week]; cbv zeta.
  - exists 0%Q, 0%Q. split; [reflexivity|]. split; [reflexivity|].
    split; [cbn; lra | reflexivity].
  - unfold DailyWorkflowAnalyzer._analyze_cash_flow_health.
    cbn [Pd.empty cash_flow_read]. cbv zeta.
    unfold _identify_strategic_opportunities.
    cbn [Py.get_or savings_rate net_cash_flow
         DailyWorkflowAnalyzer.net_cash_flow
         DailyWorkflowAnalyzer.savings_rate].
    eexists. eexists. split; [reflexivity|]. split; [reflexivity|].
    destruct (Py.Qlt_bool 0 _) eqn:I.
    + apply Qlt_bool_iff in I. split; [reflexivity | lra].
    + apply Qlt_bool_false_iff in I. split; [lra | reflexivity].
Qed.

(** X20.  On the cash flow of the week, the strategist proposes to
    improve the savings rate exactly when the week has no positive
    income or its savings rate, (income - expenses) / income * 100, is
    below 20, and to invest exactly when the income exceeds the expenses
    by more than 500. *)
Theorem strategic_opportunities_of_week : forall week,
  let income := Py.sum (map Pd.Amount (DailyWorkflowAnalyzer.income_of week)) in
  let expenses := Py.sum (map Pd.Abs_Amount (Pd.expenses_of week)) in
  let found :=
    map category
      (_identify_strategic_opportunities
         (cash_flow_read (DailyWorkflowAnalyzer._analyze_cash_flow_health week))) in
  (In "Savings Rate Improvement" found
   <-> (income <= 0 \/ (income - expenses) / income * 100 < 20)%Q)
  /\ (In "Investment Growth" found <-> (500 < income - expenses)%Q).
Proof.
  intros week. cbv zeta.
  destruct (strategic_workflow week) as (rate & net & -> & N & R1 & R0).
  set (income := Py.sum (map Pd.Amount (DailyWorkflowAnalyzer.income_of week))) in *.
  set (expenses := Py.sum (map Pd.Abs_Amount (Pd.expenses_of week))) in *.
  assert (S : Py.Qlt_bool rate 20 = true
              <-> (income <= 0
                   \/ (income - expenses) / income * 100 < 20)%Q).
  { rewrite Qlt_bool_iff. destruct (Qlt_le_dec 0 income) as [I | I].
    - rewrite (R1 I).
      split; [intros H; right; exact H | intros [H | H]; [lra | exact H]].
    - rewrite (R0 I). split; [intros _; left; exact I | intros _; lra]. }
  assert (V : Py.Qlt_bool 500 net = true <-> (500 < income - expenses)%Q).
  { rewrite Qlt_bool_iff, N. reflexivity. }
  rewrite <- S, <- V.
  destruct (Py.Qlt_bool rate 20), (Py.Qlt_bool 500 net);
    cbn [app map category savings_rate_improvement investment_growth In];
    split; split; intros H; try reflexivity; try discriminate H; auto;
    repeat (destruct H as [H | H]; try discriminate H); try contradiction.
Qed.

End GrowthOnWorkflow.

Section Efficiency.

Import GrowthStrategistAnalysis GrowthStrategist.

Lemma insert_descending_perm : forall x l,
  Permutation (insert_descending x l) (x :: l).
Proof.
  intros x l. induction l as [|y l IH]; cbn [insert_descending].
  - apply Permutation_refl.
  - destruct (Py.Qlt_bool (snd x) (snd y)).
    + eapply Permutation_trans; [apply perm_skip, IH | apply perm_swap].
    + apply Permutation_refl.
Qed.

Lemma sort_values_descending_perm : forall s,
  Permutation (sort_values_descending s) s.
Proof.
  induction s as [|x s IH]; cbn [sort_values_descending fold_right].
  - constructor.
  - eapply Permutation_trans; [apply insert_descending_perm|].
    apply perm_skip, IH.
Qed.

(** The loop of the efficiency detector, category by category. *)
Lemma efficiency_loop : forall (T : string -> Q) (l : list string) acc,
  fold_left
    (fun opportunities category =>
       if discretionary category then
         (opportunities ++ [efficiency_opportunity category (T category)])%list
       else if String.eqb category "Transportation" then
         (opportunities ++ [transportation_opportunity (T category)])%list
       else opportunities)
    l acc
  = (acc ++ flat_map
              (fun category =>
                 if discretionary category
                 then [efficiency_opportunity category (T category)]
                 else if String.eqb category "Transportation"
                 then [transportation_opportunity (T category)]
                 else [])
              l)%list.
Proof.
  intros T l. induction l as [|c l IH]; intros acc; cbn [fold_left flat_map].
  - rewrite app_nil_r. reflexivity.
  - rewrite IH. destruct (discretionary c).
    + rewrite <- app_assoc. reflexivity.
    + destruct (String.eqb c "Transportation").
      * rewrite <- app_assoc. reflexivity.
      * reflexivity.
Qed.

Lemma efficiency_values : forall (T : string -> Q) (l : list string),
  (forall c, 0 <= T c)%Q ->
  Py.len (flat_map
            (fun category =>
               if discretionary category
               then [efficiency_opportunity category (T category)]
               else if String.eqb category "Transportation"
               then [transportation_opportunity (T category)]
               else [])
            l) <= Py.len l
  /\ (Py.sum (map potential_value
                (flat_map
                   (fun category =>
                      if discretionary category
                      then [efficiency_opportunity category (T category)]
                      else if String.eqb category "Transportation"
                      then [transportation_opportunity (T category)]
                      else [])
                   l))
      <= 0.25 * Py.sum (map T l))%Q.
Proof.
  intros T l HT. induction l as [|c l [IH1 IH2]]; cbn [flat_map map].
  - split; [cbn; lia | rewrite sum_nil; lra].
  - specialize (HT c). rewrite len_cons, (sum_cons (T c)).
    destruct (discretionary c); [|destruct (String.eqb c "Transportation")];
      cbn [app map potential_value efficiency_opportunity
           transportation_opportunity];
      rewrite ?len_cons, ?sum_cons; split; try lia; lra.
Qed.

Lemma sum_firstn_le : forall (n : nat) (l : list Q),
  Forall (fun x => 0 <= x)%Q l -> (Py.sum (firstn n l) <= Py.sum l)%Q.
Proof.
  intros n l H. revert n. induction H as [|x l Hx Hl IH]; intros [|n];
    cbn [firstn]; rewrite ?sum_nil, ?sum_cons; try lra.
  - pose proof (sum_nonneg l Hl). cbv beta in Hx. lra.
  - specialize (IH n). lra.
Qed.

(** X21.  The efficiency detector proposes at most three opportunities,
    worth together at most a quarter of the expenses. *)
Theorem efficiency_opportunities_bounded : forall df,
  Forall (fun r => 0 <= Pd.Abs_Amount r)%Q df ->
  Py.len (_identify_efficiency_improvements df) <= 3
  /\ (Py.sum (map potential_value (_identify_efficiency_improvements df))
      <= 0.25 * Py.sum (map Pd.Abs_Amount (Pd.expenses_of df)))%Q.
Proof.
  intros df Ha. unfold _identify_efficiency_improvements.
  destruct df as [|r df].
  - cbn. split; [lia | lra].
  - cbn [Pd.empty]. cbv zeta.
    set (expenses := Pd.expenses_of (r :: df)).
    set (T := fun c => Py.sum (map Pd.Abs_Amount
                 (filter (fun r0 => String.eqb (Pd.Category r0) c) expenses))).
    rewrite (efficiency_loop T). cbn [app].
    assert (HT : forall c, (0 <= T c)%Q).
    { intros c. unfold T. apply sum_nonneg. rewrite Forall_map.
      apply Forall_forall. intros x Hx. apply filter_In in Hx.
      destruct Hx as [Hx _]. unfold expenses, Pd.expenses_of in Hx.
      apply filter_In in Hx. rewrite Forall_forall in Ha. apply Ha, Hx. }
    set (top := firstn 3 (map fst (sort_values_descending
                  (Pd.groupby_sum String.compare Pd.Category Pd.Abs_Amount
                     expenses)))).
    destruct (efficiency_values T top HT) as [L V].
    split.
    + assert (Py.len top <= 3); [|lia].
      unfold top, Py.len. 
      match goal with
      | |- context [firstn 3 ?l] => pose proof (firstn_le_length 3 l)
      end. lia.
    + eapply Qle_trans; [exact V|].
      assert (Py.sum (map T top)
              <= Py.sum (map Pd.Abs_Amount expenses))%Q; [|lra].
      unfold top. rewrite <- firstn_map.
      eapply Qle_trans.
      { apply sum_firstn_le. rewrite Forall_map. apply Forall_forall.
        intros c _. apply HT. }
      set (keys := Pd.sorted_keys String.compare (map Pd.Category expenses)).
      assert (P : Permutation
                    (map fst (sort_values_descending
                       (Pd.groupby_sum String.compare Pd.Category
                          Pd.Abs_Amount expenses)))
                    keys).
      { eapply Permutation_trans.
        - apply Permutation_map, sort_values_descending_perm.
        - unfold Pd.groupby_sum, Pd.groupby. rewrite !map_map. cbn [fst].
          rewrite map_id. apply Permutation_refl. }
      rewrite (sum_perm _ _ (Permutation_map T P)).
      unfold T. rewrite groupby_sum_total.
      * lra.
      * apply category_keys_NoDup.
      * intros x Hx. apply category_keys_In, in_map, Hx.
Qed.

End Efficiency.

(* ================================================================== *)
(** * The two budget classifiers *)
(* ================================================================== *)

Section Classifiers.

Import ClassifierFacts.

Lemma sum_snoc : forall (l : list Q) (x : Q),
  (Py.sum (l ++ [x]) == Py.sum l + x)%Q.
Proof.
  intros l x. unfold Py.sum. rewrite fold_left_app. cbn [fold_left].
  reflexivity.
Qed.

Lemma Qle_bool_scaled : forall t p : Q,
  Qle_bool (t * 100) (p * 100) = Qle_bool t p.
Proof.
  intros t p. destruct (Qle_bool t p) eqn:E.
  - apply Qle_bool_iff in E. apply Qle_bool_iff. lra.
  - apply Qle_bool_false_iff in E. apply Qle_bool_false_iff. lra.
Qed.

(** The two loops, step by step. *)
Lemma classifier_loops : forall self expenses items b a,
  Forall2 same_entry (BudgetAnalyzer.overspending_categories b)
    (OverspendingAnalyzer.overspending_alerts a) ->
  Forall2 same_entry (BudgetAnalyzer.warning_categories b)
    (OverspendingAnalyzer.warning_alerts a) ->
  Forall2 same_entry (BudgetAnalyzer.within_budget b)
    (OverspendingAnalyzer.within_budget a) ->
  (BudgetAnalyzer.total_over_budget b
   == Py.sum (map OverspendingAnalyzer.over_amount
                (OverspendingAnalyzer.overspending_alerts a)))%Q ->
  let b' := fold_left (BudgetAnalyzer.analyze_category (budget_analyzer_of self))
              items b in
  let a' := fold_left (OverspendingAnalyzer.analyze_category self expenses)
              items a in
  Forall2 same_entry (BudgetAnalyzer.overspending_categories b')
    (OverspendingAnalyzer.overspending_alerts a')
  /\ Forall2 same_entry (BudgetAnalyzer.warning_categories b')
       (OverspendingAnalyzer.warning_alerts a')
  /\ Forall2 same_entry (BudgetAnalyzer.within_budget b')
       (OverspendingAnalyzer.within_budget a')
  /\ (BudgetAnalyzer.total_over_budget b'
      == Py.sum (map OverspendingAnalyzer.over_amount
                   (OverspendingAnalyzer.overspending_alerts a')))%Q
  /\ BudgetAnalyzer.savings_opportunities b'
     = BudgetAnalyzer.savings_opportunities b.
Proof.
  intros self expenses items. induction items as [|[c s] items IH];
    intros b a H1 H2 H3 H4; cbn [fold_left].
  - cbv zeta. auto.
  - cbv zeta in IH |- *.
    assert (S : BudgetAnalyzer.savings_opportunities
                  (BudgetAnalyzer.analyze_category (budget_analyzer_of self) b (c, s))
                = BudgetAnalyzer.savings_opportunities b).
    { unfold BudgetAnalyzer.analyze_category. cbv zeta.
      destruct (Qeq_bool _ 0); [reflexivity|].
      destruct (Qle_bool _ _); [reflexivity|].
      destruct (Qle_bool _ _); reflexivity. }
    rewrite <- S. apply IH; clear IH S;
      unfold BudgetAnalyzer.analyze_category, OverspendingAnalyzer.analyze_category;
      cbv zeta;
      cbn [budget_analyzer_of BudgetAnalyzer.budget_limits
           BudgetAnalyzer.overspending_threshold
           BudgetAnalyzer.warning_threshold];
      rewrite !Qle_bool_scaled;
      (destruct (Qeq_bool _ 0); [assumption|]);
      (destruct (Qle_bool (OverspendingAnalyzer.overspending_threshold self) _);
       [|destruct (Qle_bool (OverspendingAnalyzer.warning_threshold self) _)]);
      cbn [BudgetAnalyzer.overspending_categories
           BudgetAnalyzer.warning_categories BudgetAnalyzer.within_budget
           BudgetAnalyzer.total_over_budget
           OverspendingAnalyzer.append_overspending
           OverspendingAnalyzer.append_warning
           OverspendingAnalyzer.append_within
           OverspendingAnalyzer.overspending_alerts
           OverspendingAnalyzer.warning_alerts
           OverspendingAnalyzer.within_budget];
      try assumption;
      try (apply Forall2_app; [assumption|];
           constructor; [|constructor]; repeat split).
    rewrite map_app. cbn [map OverspendingAnalyzer.over_amount].
    rewrite sum_snoc, H4. reflexivity.
Qed.

Lemma same_entry_figures : forall l l',
  Forall2 same_entry l l' ->
  map entry_figures l = map analysis_figures l'
  /\ map BudgetAnalyzer.category l = map OverspendingAnalyzer.category l'.
Proof.
  intros l l' H. induction H as [|e ca l l' He _ [IH1 IH2]].
  - split; reflexivity.
  - destruct He as (E1 & E2 & E3 & E4 & _). cbn [map].
    unfold entry_figures at 1, analysis_figures at 1.
    rewrite E1, E2, E3, E4, IH1, IH2. split; reflexivity.
Qed.

(** The total of the budget analyzer is the sum over its own
    overspending entries, in their order. *)
Lemma total_over_budget_loop : forall self items b,
  BudgetAnalyzer.total_over_budget b
  = Py.sum (map over_by_of (BudgetAnalyzer.overspending_categories b)) ->
  let b' := fold_left (BudgetAnalyzer.analyze_category self) items b in
  BudgetAnalyzer.total_over_budget b'
  = Py.sum (map over_by_of (BudgetAnalyzer.overspending_categories b')).
Proof.
  intros self items. induction items as [|[c s] items IH]; intros b H;
    cbn [fold_left]; [exact H|].
  cbv zeta in IH |- *. apply IH. clear IH.
  unfold BudgetAnalyzer.analyze_category. cbv zeta.
  destruct (Qeq_bool _ 0); [exact H|].
  destruct (Qle_bool (BudgetAnalyzer.overspending_threshold self) _);
    [|destruct (Qle_bool (BudgetAnalyzer.warning_threshold self) _)];
    cbn [BudgetAnalyzer.total_over_budget
         BudgetAnalyzer.overspending_categories]; try exact H.
  rewrite map_app. unfold Py.sum in *. rewrite fold_left_app, <- H.
  reflexivity.
Qed.

(** X22.  The budget analyzer of [zen_analyzer.py] and the overspending
    analyzer report the same categories with the same spent, budget and
    percentage; every category that the budget analyzer reports as
    overspending is an overspending alert of the overspending analyzer,
    and every category that the overspending analyzer finds within
    budget is within budget for the budget analyzer; the total over
    budget is the sum over the overspending entries. *)
Theorem classifiers_compared : forall self df,
  match BudgetAnalyzer.analyze_overspending (budget_analyzer_of self) df with
  | None => df = []
  | Some b =>
      let a := OverspendingAnalyzer.analyze_daily_overspending self df in
      Permutation
        (map entry_figures
           (BudgetAnalyzer.overspending_categories b
            ++ BudgetAnalyzer.warning_categories b
            ++ BudgetAnalyzer.within_budget b))
        (map analysis_figures
           (OverspendingAnalyzer.overspending_alerts a
            ++ OverspendingAnalyzer.warning_alerts a
            ++ OverspendingAnalyzer.within_budget a))
      /\ incl (map BudgetAnalyzer.category
                 (BudgetAnalyzer.overspending_categories b))
              (map OverspendingAnalyzer.category
                 (OverspendingAnalyzer.overspending_alerts a))
      /\ incl (map OverspendingAnalyzer.category
                 (OverspendingAnalyzer.within_budget a))
              (map BudgetAnalyzer.category (BudgetAnalyzer.within_budget b))
      /\ BudgetAnalyzer.total_over_budget b
         = Py.sum (map over_by_of (BudgetAnalyzer.overspending_categories b))
      /\ BudgetAnalyzer.savings_opportunities b = []
  end.
Proof.
  intros self [|first df]; [reflexivity|].
  unfold BudgetAnalyzer.analyze_overspending. cbn [Pd.empty]. cbv zeta.
  set (items := Pd.groupby_sum String.compare Pd.Category Pd.Abs_Amount
                  (Pd.expenses_of (first :: df))).
  assert (L : let b := fold_left
                         (BudgetAnalyzer.analyze_category (budget_analyzer_of self))
                         items (BudgetAnalyzer.mkOverspendingAnalysis [] [] [] 0 []) in
              let a := OverspendingAnalyzer.analyze_daily_overspending self
                         (first :: df) in
              Forall2 same_entry (BudgetAnalyzer.overspending_categories b)
                (OverspendingAnalyzer.overspending_alerts a)
              /\ Forall2 same_entry (BudgetAnalyzer.warning_categories b)
                   (OverspendingAnalyzer.warning_alerts a)
              /\ Forall2 same_entry (BudgetAnalyzer.within_budget b)
                   (OverspendingAnalyzer.within_budget a)
              /\ (BudgetAnalyzer.total_over_budget b
                  == Py.sum (map OverspendingAnalyzer.over_amount
                               (OverspendingAnalyzer.overspending_alerts a)))%Q
              /\ BudgetAnalyzer.savings_opportunities b = []).
  { cbv zeta.
    unfold OverspendingAnalyzer.analyze_daily_overspending,
      OverspendingAnalyzer.set_recommendations,
      OverspendingAnalyzer.set_risk_level,
      OverspendingAnalyzer.set_spending_score.
    cbn [OverspendingAnalyzer.overspending_alerts
         OverspendingAnalyzer.warning_alerts
         OverspendingAnalyzer.within_budget].
    apply classifier_loops; cbn; try constructor. }
  cbv zeta in L. destruct L as (F1 & F2 & F3 & _ & S).
  destruct (same_entry_figures _ _ F1) as [G1 C1].
  destruct (same_entry_figures _ _ F2) as [G2 _].
  destruct (same_entry_figures _ _ F3) as [G3 C3].
  split; [|split; [|split; [|split]]].
  - rewrite !map_app, G1, G2, G3. apply Permutation_refl.
  - rewrite C1. apply incl_refl.
  - rewrite C3. apply incl_refl.
  - apply total_over_budget_loop. reflexivity.
  - exact S.
Qed.

End Classifiers.

(* ================================================================== *)
(** * Unusual transactions *)
(* ================================================================== *)

Section Deviations.

Lemma inject_len_cons : forall (A : Type) (x : A) l,
  (inject_Z (Py.len (x :: l)) == 1 + inject_Z (Py.len l))%Q.
Proof.
  intros A x l. rewrite len_cons, inject_Z_plus. reflexivity.
Qed.

Lemma inject_len_nonneg : forall (A : Type) (l : list A),
  (0 <= inject_Z (Py.len l))%Q.
Proof.
  intros A l. change 0%Q with (inject_Z 0). rewrite <- Zle_Qle.
  apply len_nonneg.
Qed.

Lemma square_nonneg : forall x : Q, (0 <= x * x)%Q.
Proof.
  intros x. destruct (Qlt_le_dec x 0) as [H | H].
  - setoid_replace (x * x)%Q with ((- x) * (- x))%Q by ring.
    apply Qmult_le_0_compat; lra.
  - apply Qmult_le_0_compat; assumption.
Qed.

Lemma sum_squares_nonneg : forall l : list Q,
  (0 <= Py.sum (map (fun y => y * y) l))%Q.
Proof.
  intros l. apply sum_nonneg. rewrite Forall_map. apply Forall_forall.
  intros y _. cbv beta. nra.
Qed.

(** The square of a sum is at most the number of terms times the sum of
    the squares. *)
Lemma sum_square_le : forall l : list Q,
  (Py.sum l * Py.sum l
   <= inject_Z (Py.len l) * Py.sum (map (fun y => y * y) l))%Q.
Proof.
  induction l as [|a l IH].
  - cbn. lra.
  - cbn [map]. rewrite !sum_cons, inject_len_cons.
    pose proof (inject_len_nonneg Q l) as Hk.
    pose proof (sum_squares_nonneg l) as Hq.
    set (k := inject_Z (Py.len l)) in *.
    set (s := Py.sum l) in *.
    set (q := Py.sum (map (fun y => (y * y)%Q) l)) in *.
    destruct (Qlt_le_dec 0 k) as [K | K].
    + assert (H : (2 * a * s <= k * (a * a) + q)%Q).
      { assert (G : (k * (2 * a * s) <= k * (k * (a * a) + q))%Q).
        { pose proof (square_nonneg (k * a - s)) as Sq.
          setoid_replace ((k * a - s) * (k * a - s))%Q
            with (k * (k * (a * a)) - k * (2 * a * s) + s * s)%Q in Sq by ring.
          setoid_replace (k * (k * (a * a) + q))%Q
            with (k * (k * (a * a)) + k * q)%Q by ring.
          set (u := (k * (k * (a * a)))%Q) in *.
          set (v := (k * (2 * a * s))%Q) in *.
          lra. }
        apply Qmult_le_l with (z := k); assumption. }
      nra.
    + assert (k == 0)%Q by lra.
      assert (s * s <= 0)%Q by nra.
      assert (s == 0)%Q by nra.
      nra.
Qed.

Lemma sum_map_minus : forall (m : Q) (l : list Q),
  (Py.sum (map (fun y => y - m) l) == Py.sum l - inject_Z (Py.len l) * m)%Q.
Proof.
  intros m l. induction l as [|a l IH].
  - cbn [map]. rewrite sum_nil. change (inject_Z (Py.len [])) with 0%Q. ring.
  - cbn [map]. rewrite !sum_cons, inject_len_cons, IH. ring.
Qed.

(** No value of a series is farther from the mean than allowed by the
    sum of the squared deviations. *)
Lemma deviation_bound : forall (l : list Q) (x : Q),
  In x l ->
  let n := inject_Z (Py.len l) in
  let m := Pd.mean l in
  (n * ((x - m) * (x - m))
   <= (n - 1) * Py.sum (map (fun y => (y - m) * (y - m)) l))%Q.
Proof.
  intros l x Hx n m.
  apply in_split in Hx. destruct Hx as (l1 & l2 & E).
  assert (P : Permutation l (x :: l1 ++ l2)).
  { rewrite E. apply Permutation_sym, Permutation_middle. }
  set (rest := (l1 ++ l2)%list) in *.
  assert (Hn : (n == 1 + inject_Z (Py.len rest))%Q).
  { unfold n, Py.len. rewrite (Permutation_length P).
    fold (Py.len (x :: rest)). apply inject_len_cons. }
  assert (Hm : (n * m == Py.sum l)%Q).
  { unfold m, Pd.mean. fold n. field.
    pose proof (inject_len_nonneg Q rest). lra. }
  pose proof (sum_map_minus m l) as Z. fold n in Z.
  rewrite (sum_perm _ _ (Permutation_map (fun y => (y - m)%Q) P)) in Z.
  cbn [map] in Z. rewrite sum_cons in Z.
  rewrite (sum_perm _ _ (Permutation_map (fun y => ((y - m) * (y - m))%Q) P)).
  cbn [map]. rewrite sum_cons.
  pose proof (sum_square_le (map (fun y => (y - m)%Q) rest)) as C.
  rewrite len_map, map_map in C.
  pose proof (inject_len_nonneg Q rest) as Hk.
  set (k := inject_Z (Py.len rest)) in *.
  set (s := Py.sum (map (fun y => (y - m)%Q) rest)) in *.
  set (q := Py.sum (map (fun y => ((y - m) * (y - m))%Q) rest)) in *.
  set (d := (x - m)%Q) in *.
  assert (Hs : (s == - d)%Q) by lra.
  assert (Hd : (d * d <= k * q)%Q).
  { assert (s * s == d * d)%Q by (rewrite Hs; ring). lra. }
  rewrite Hn. nra.
Qed.

End Deviations.

Section UnusualFlags.

Import UnusualTransactions.

(** With five values or fewer, none is above the mean by more than
    twice the standard deviation. *)
Lemma few_never_high : forall (l : list Q) (x : Q),
  In x l -> Py.len l <= 5 -> unusually_high l x = false.
Proof.
  intros l x Hx Hn. unfold unusually_high.
  destruct (Py.len l <? 2) eqn:E2; [reflexivity|].
  apply Z.ltb_ge in E2.
  pose proof (deviation_bound l x Hx) as B. cbv zeta in B.
  pose proof (sum_squares_nonneg (map (fun y => (y - Pd.mean l)%Q) l)) as S.
  rewrite map_map in S.
  unfold Sqrt.lt_bool.
  destruct (Py.Qlt_bool 0 ((x - Pd.mean l) / 2)) eqn:T; [|reflexivity].
  cbn [andb]. apply Qlt_bool_false_iff. apply Qlt_bool_iff in T.
  unfold Pd.var. cbv zeta.
  set (m := Pd.mean l) in *.
  set (q := Py.sum (map (fun y => ((y - m) * (y - m))%Q) l)) in *.
  pose proof (square_nonneg (x - m)) as D.
  assert (C : Py.len l = 2 \/ Py.len l = 3 \/ Py.len l = 4 \/ Py.len l = 5)
    by lia.
  destruct C as [C | [C | [C | C]]]; rewrite C in *.
  - change (inject_Z (2 - 1)) with 1%Q. change (inject_Z 2) with 2%Q in B.
    set (d2 := ((x - m) * (x - m))%Q) in *.
    setoid_replace ((x - m) / 2 * ((x - m) / 2))%Q with (d2 * (1 # 4))%Q
      by (unfold d2; field).
    setoid_replace (q / 1)%Q with q by field.
    clearbody d2 q. lra.
  - change (inject_Z (3 - 1)) with 2%Q. change (inject_Z 3) with 3%Q in B.
    set (d2 := ((x - m) * (x - m))%Q) in *.
    setoid_replace ((x - m) / 2 * ((x - m) / 2))%Q with (d2 * (1 # 4))%Q
      by (unfold d2; field).
    setoid_replace (q / 2)%Q with (q * (1 # 2))%Q by field.
    clearbody d2 q. lra.
  - change (inject_Z (4 - 1)) with 3%Q. change (inject_Z 4) with 4%Q in B.
    set (d2 := ((x - m) * (x - m))%Q) in *.
    setoid_replace ((x - m) / 2 * ((x - m) / 2))%Q with (d2 * (1 # 4))%Q
      by (unfold d2; field).
    setoid_replace (q / 3)%Q with (q * (1 # 3))%Q by field.
    clearbody d2 q. lra.
  - change (inject_Z (5 - 1)) with 4%Q. change (inject_Z 5) with 5%Q in B.
    set (d2 := ((x - m) * (x - m))%Q) in *.
    setoid_replace ((x - m) / 2 * ((x - m) / 2))%Q with (d2 * (1 # 4))%Q
      by (unfold d2; field).
    setoid_replace (q / 4)%Q with (q * (1 # 4))%Q by field.
    clearbody d2 q. lra.
Qed.

Lemma detect_loop : forall (A B : Type) (f : A -> list string) (g : A -> B) l acc,
  fold_left
    (fun out row =>
       match f row with
       | [] => out
       | _ => (out ++ [g row])%list
       end)
    l acc
  = (acc ++ flat_map (fun row => match f row with
                                 | [] => []
                                 | _ => [g row]
                                 end) l)%list.
Proof.
  intros A B f g l. induction l as [|x l IH]; intros acc; cbn [fold_left flat_map].
  - rewrite app_nil_r. reflexivity.
  - rewrite IH. destruct (f x); [reflexivity|].
    rewrite <- app_assoc. reflexivity.
Qed.

(** Every entry comes from an expense row that has a flag. *)
Lemma detect_In : forall df u,
  In u (detect_unusual_transactions df) ->
  exists name transaction,
    In (name, transaction) (indexed (Pd.expenses_of df))
    /\ flags_of (Pd.expenses_of df) name transaction <> []
    /\ u = unusual transaction (flags_of (Pd.expenses_of df) name transaction).
Proof.
  intros df u. unfold detect_unusual_transactions.
  destruct (Pd.empty df); [intros []|]. cbv zeta.
  rewrite (detect_loop _ _
             (fun row => flags_of (Pd.expenses_of df) (fst row) (snd row))
             (fun row => unusual (snd row)
                           (flags_of (Pd.expenses_of df) (fst row) (snd row)))).
  cbn [app]. rewrite in_flat_map. intros [[name transaction] [Hin H]].
  cbn [fst snd] in H. exists name, transaction. split; [exact Hin|].
  destruct (flags_of (Pd.expenses_of df) name transaction) eqn:F;
    [destruct H|].
  destruct H as [<- | []]. split; [discriminate | reflexivity].
Qed.

(** X23.  In a batch of five expenses or fewer no amount is flagged as
    unusually high, and every entry is of severity Medium. *)
Theorem few_expenses_never_unusually_high : forall df,
  Py.len (Pd.expenses_of df) <= 5 ->
  Forall (fun u => ~ In "UNUSUALLY_HIGH_AMOUNT" (flags u)
                   /\ severity u = "Medium")
         (detect_unusual_transactions df).
Proof.
  intros df Hn. apply Forall_forall. intros u Hu.
  apply detect_In in Hu. destruct Hu as (name & transaction & Hin & _ & ->).
  assert (Hrow : In transaction (Pd.expenses_of df)).
  { unfold indexed in Hin. apply in_combine_r in Hin. exact Hin. }
  assert (H : unusually_high (map Pd.Abs_Amount (Pd.expenses_of df))
                (Pd.Abs_Amount transaction) = false).
  { apply few_never_high; [apply in_map, Hrow | rewrite len_map; exact Hn]. }
  unfold unusual. cbn [flags severity]. unfold flags_of. rewrite H.
  cbn [app].
  destruct (0 <? Py.len _), (weekend_discretionary transaction),
    (late_night transaction); cbn; split; try reflexivity; intuition discriminate.
Qed.

End UnusualFlags.

Section Duplicates.

Import UnusualTransactions.

(** The duplicate test of a row of the index. *)
Lemma duplicate_partner : forall expenses name transaction,
  In (name, transaction) (indexed expenses) ->
  (0 <? Py.len (similar_transactions expenses name transaction)) = true ->
  exists other,
    In other (indexed expenses)
    /\ fst other <> name
    /\ (0 <? Py.len (similar_transactions expenses (fst other) (snd other)))
       = true.
Proof.
  intros expenses name transaction Hself H.
  assert (Hrow : forall a b : Pd.Row,
            Pd.same_key Pd.date_compare (Pd.date_of (Pd.Date a))
              (Pd.date_of (Pd.Date b)) = true ->
            Pd.same_key Pd.date_compare (Pd.date_of (Pd.Date b))
              (Pd.date_of (Pd.Date a)) = true).
  { intros a b. unfold Pd.same_key.
    destruct (Pd.date_compare (Pd.date_of (Pd.Date a))
                (Pd.date_of (Pd.Date b))) eqn:E; try discriminate.
    intros _.
    cbv beta iota zeta delta [Pd.date_compare Pd.date_of] in E |- *.
    repeat (rewrite lex_Eq in E). rewrite !Z.compare_eq_iff in E.
    destruct E as (-> & -> & ->). rewrite !Z.compare_refl. reflexivity. }
  destruct (similar_transactions expenses name transaction)
    as [|other rest] eqn:S; [discriminate H|].
  assert (Hin : In other (similar_transactions expenses name transaction))
    by (rewrite S; left; reflexivity).
  unfold similar_transactions in Hin. apply filter_In in Hin.
  destruct Hin as [Hin Hc]. apply andb_prop in Hc. destruct Hc as [Hc Hne].
  apply andb_prop in Hc. destruct Hc as [Ha Hd].
  apply negb_true_iff, Nat.eqb_neq in Hne.
  exists other. split; [exact Hin|]. split; [exact Hne|].
  assert (Hback : In (name, transaction)
                     (similar_transactions expenses (fst other) (snd other))).
  { unfold similar_transactions. apply filter_In. split; [exact Hself|].
    cbn [fst snd]. apply andb_true_intro. split.
    - apply andb_true_intro. split.
      + apply Qeq_bool_iff. apply Qeq_bool_iff in Ha. symmetry. exact Ha.
      + apply Hrow, Hd.
    - apply negb_true_iff, Nat.eqb_neq. congruence. }
  destruct (similar_transactions expenses (fst other) (snd other));
    [destruct Hback | reflexivity].
Qed.

Lemma flagged_duplicate : forall expenses name transaction,
  existsb (String.eqb "POTENTIAL_DUPLICATE")
          (flags_of expenses name transaction)
  = (0 <? Py.len (similar_transactions expenses name transaction)).
Proof.
  intros expenses name transaction. unfold flags_of.
  destruct (unusually_high _ _), (0 <? Py.len _),
    (weekend_discretionary transaction), (late_night transaction);
    reflexivity.
Qed.

(** The entries flagged as duplicates, from the rows of the index. *)
Lemma duplicates_of_index : forall expenses (l : list (nat * Pd.Row)),
  filter (fun u => existsb (String.eqb "POTENTIAL_DUPLICATE") (flags u))
    (flat_map
       (fun row => match flags_of expenses (fst row) (snd row) with
                   | [] => []
                   | _ => [unusual (snd row)
                             (flags_of expenses (fst row) (snd row))]
                   end) l)
  = map (fun row => unusual (snd row) (flags_of expenses (fst row) (snd row)))
      (filter (fun row =>
                 0 <? Py.len (similar_transactions expenses (fst row) (snd row)))
              l).
Proof.
  intros expenses l. induction l as [|row l IH]; [reflexivity|].
  cbn [flat_map filter]. rewrite filter_app, IH.
  rewrite <- (flagged_duplicate expenses (fst row) (snd row)).
  destruct (flags_of expenses (fst row) (snd row)) as [|f fs] eqn:F.
  - reflexivity.
  - cbn [filter unusual flags].
    destruct (existsb (String.eqb "POTENTIAL_DUPLICATE") (f :: fs));
      cbn [map app fst snd]; rewrite ?F; reflexivity.
Qed.

(** X24.  A duplicate has a partner: the entries flagged as potential
    duplicates are never exactly one. *)
Theorem duplicates_come_in_pairs : forall df,
  Py.len (filter
            (fun u => existsb (String.eqb "POTENTIAL_DUPLICATE") (flags u))
            (detect_unusual_transactions df)) <> 1.
Proof.
  intros df. unfold detect_unusual_transactions.
  destruct (Pd.empty df); [cbn; discriminate|]. cbv zeta.
  set (expenses := Pd.expenses_of df).
  rewrite (detect_loop _ _
             (fun row => flags_of expenses (fst row) (snd row))
             (fun row => unusual (snd row)
                           (flags_of expenses (fst row) (snd row)))).
  cbn [app]. rewrite duplicates_of_index, len_map.
  set (dup := fun row : nat * Pd.Row =>
                0 <? Py.len (similar_transactions expenses (fst row) (snd row))).
  destruct (filter dup (indexed expenses)) as [|a [|b rest]] eqn:F.
  - cbn. discriminate.
  - exfalso.
    assert (Ha : In a (filter dup (indexed expenses)))
      by (rewrite F; left; reflexivity).
    apply filter_In in Ha. destruct Ha as [Hin Hd].
    destruct a as [name transaction].
    destruct (duplicate_partner expenses name transaction Hin Hd)
      as (other & Ho & Hne & Hdo).
    assert (Hb : In other (filter dup (indexed expenses)))
      by (apply filter_In; split; assumption).
    rewrite F in Hb. destruct Hb as [<- | []]. apply Hne. reflexivity.
  - rewrite !len_cons. pose proof (len_nonneg _ rest). lia.
Qed.

End Duplicates.

(* ================================================================== *)
(** * Sheets without a time of day *)
(* ================================================================== *)

Section DateOnlySheets.

Import TransactionRetriever RiskOfficerAnalysis UnusualTransactions.

Variable to_datetime : string -> option Pd.Timestamp.
Variable to_numeric : string -> option Q.

(** The date of a normalized row is a parsed cell. *)
Lemma process_transactions_dates : forall raw_data r,
  In r (process_transactions to_datetime to_numeric raw_data) ->
  exists s, to_datetime s = Some (Pd.Date r).
Proof.
  intros [|headers rows] r H; [destruct H|].
  cbn [process_transactions] in H. unfold _clean_dataframe in H.
  apply (Permutation_in _ (sort_values_perm _)) in H.
  apply in_map_iff in H. destruct H as [[[d a] raw] [E H]]. subst r.
  unfold with_amounts in H. apply in_flat_map in H.
  destruct H as [[d' raw'] [H Ha]]. cbn [fst snd] in Ha.
  destruct (to_numeric _); [|destruct Ha].
  destruct Ha as [Ha | []]. injection Ha as -> _ ->.
  unfold with_dates in H. apply in_flat_map in H.
  destruct H as [raw0 [_ H]].
  destruct (to_datetime (raw_Date raw0)) eqn:E; [|destruct H].
  destruct H as [H | []]. injection H as -> ->.
  exists (raw_Date raw). cbn [finished_row Pd.Date]. exact E.
Qed.

(** X25.  When the dates of the sheet carry no time of day, every batch
    with an expense is flagged for late-night spending by the risk
    officer, and no transaction is by the detector of unusual
    transactions. *)
Theorem date_only_sheet_late_night : forall self raw_data,
  (forall s d, to_datetime s = Some d -> Pd.hour d = 0) ->
  let df := process_transactions to_datetime to_numeric raw_data in
  Pd.expenses_of df <> [] ->
  is_risk (_assess_behavioral_patterns self df) = true
  /\ 20 <= RiskOfficerAnalysis.severity (_assess_behavioral_patterns self df)
  /\ Forall (fun u => ~ In "LATE_NIGHT_SPENDING" (flags u))
       (detect_unusual_transactions df).
Proof.
  intros self raw_data Hmid df Hne.
  assert (Hh : forall r, In r (Pd.expenses_of df) -> Pd.hour (Pd.Date r) = 0).
  { intros r Hr. unfold Pd.expenses_of in Hr. apply filter_In in Hr.
    destruct Hr as [Hr _]. apply process_transactions_dates in Hr.
    destruct Hr as [s Hs]. apply (Hmid _ _ Hs). }
  destruct (night_hours_late self df Hne) as (R & S & _).
  { apply Forall_forall. intros r Hr. left. rewrite (Hh r Hr). lia. }
  split; [exact R|]. split; [exact S|].
  apply Forall_forall. intros u Hu.
  apply detect_In in Hu. destruct Hu as (name & transaction & Hin & _ & ->).
  assert (Hrow : In transaction (Pd.expenses_of df)).
  { unfold indexed in Hin. apply in_combine_r in Hin. exact Hin. }
  cbn [unusual flags]. unfold flags_of, late_night. cbv zeta.
  rewrite (Hh _ Hrow). cbn [Z.eqb negb andb app].
  rewrite app_nil_r.
  destruct (unusually_high _ _), (0 <? Py.len _),
    (weekend_discretionary transaction); cbn; intuition discriminate.
Qed.

End DateOnlySheets.

(* ================================================================== *)
(** * The spending summary *)
(* ================================================================== *)

Section Summary.

Import SpendingSummary.

Lemma series_max_fold : forall (l : list Q) (a : Q),
  (a <= fold_left (fun a b => if Py.Qlt_bool a b then b else a) l a
   /\ forall x, In x l ->
        x <= fold_left (fun a b => if Py.Qlt_bool a b then b else a) l a)%Q.
Proof.
  induction l as [|b l IH]; intros a; cbn [fold_left].
  - split; [lra | intros x []].
  - destruct (Py.Qlt_bool a b) eqn:E.
    + apply Qlt_bool_iff in E. destruct (IH b) as [I1 I2]. split; [lra|].
      intros x [<- | Hx]; [exact I1 | apply I2, Hx].
    + apply Qlt_bool_false_iff in E. destruct (IH a) as [I1 I2]. split; [lra|].
      intros x [<- | Hx]; [lra | apply I2, Hx].
Qed.

Lemma series_max_ge : forall (l : list Q) (x : Q),
  In x l -> (x <= Pd.series_max l)%Q.
Proof.
  intros [|a l] x H; [destruct H|]. cbn [Pd.series_max].
  destruct (series_max_fold l a) as [I1 I2].
  destruct H as [<- | H]; [exact I1 | apply I2, H].
Qed.

(** The groups of the breakdown are the rows of the categories. *)
Lemma category_groups : forall expenses,
  Pd.groupby String.compare Pd.Category expenses
  = map (fun c => (c, filter (fun r => String.eqb (Pd.Category r) c) expenses))
      (Pd.sorted_keys String.compare (map Pd.Category expenses)).
Proof.
  intros expenses. unfold Pd.groupby. apply map_ext. intros c.
  f_equal. apply filter_ext. intros r. apply same_category_eqb.
Qed.

Lemma series_max_fold_In : forall (l : list Q) (a : Q),
  In (fold_left (fun a b => if Py.Qlt_bool a b then b else a) l a) (a :: l).
Proof.
  induction l as [|b l IH]; intros a; cbn [fold_left].
  - left. reflexivity.
  - destruct (Py.Qlt_bool a b).
    + right. apply IH.
    + destruct (IH a) as [H | H]; [left; exact H | right; right; exact H].
Qed.

Lemma series_max_In : forall (l : list Q),
  l <> [] -> In (Pd.series_max l) l.
Proof.
  intros [|a l] H; [congruence|]. cbn [Pd.series_max].
  apply series_max_fold_In.
Qed.

(** X26.  The spending summary is the empty dict exactly on the empty
    batch.  Otherwise the breakdown has one entry for each distinct
    category of the expense rows, the same in its three columns, with
    counts of at least one that add up to [total_expenses], itself at
    most [total_transactions]; the mean and the maximum are missing when
    there is no expense; with an expense, the largest expense is the
    amount of an expense row and no expense row has a larger one. *)
Theorem spending_summary_counts : forall df,
  match get_spending_summary df with
  | None => df = []
  | Some s =>
      let expenses := Pd.expenses_of df in
      daily_total s = total_spent s
      /\ total_expenses s <= total_transactions s
      /\ NoDup (map fst (breakdown_count s))
      /\ (forall c, In c (map fst (breakdown_count s))
                    <-> In c (map Pd.Category expenses))
      /\ map fst (breakdown_sum s) = map fst (breakdown_count s)
      /\ map fst (breakdown_mean s) = map fst (breakdown_count s)
      /\ Forall (fun c => 1 <= snd c) (breakdown_count s)
      /\ fold_right Z.add 0 (map snd (breakdown_count s)) = total_expenses s
      /\ (expenses = [] ->
          average_transaction s = None /\ largest_expense s = None)
      /\ (expenses <> [] ->
          average_transaction s <> None
          /\ exists largest,
               largest_expense s = Some largest
               /\ In largest (map Pd.Abs_Amount expenses)
               /\ Forall (fun r => Pd.Abs_Amount r <= largest)%Q expenses)
  end.
Proof.
  intros [|first df]; [reflexivity|].
  unfold get_spending_summary. cbn [Pd.empty]. cbv zeta.
  cbn [daily_total total_spent total_expenses total_transactions
       breakdown_sum breakdown_count breakdown_mean average_transaction
       largest_expense].
  set (expenses := Pd.expenses_of (first :: df)).
  rewrite category_groups. rewrite !map_map. cbn [fst snd].
  rewrite map_id.
  set (keys := Pd.sorted_keys String.compare (map Pd.Category expenses)).
  assert (Hk : NoDup keys) by apply category_keys_NoDup.
  assert (Hin : forall r, In r expenses -> In (Pd.Category r) keys).
  { intros r Hr. apply category_keys_In, in_map, Hr. }
  split; [reflexivity|]. split.
  { unfold expenses, Pd.expenses_of, Py.len.
    pose proof (filter_length_le Pd.Is_Expense (first :: df)). lia. }
  split; [exact Hk|]. split; [intros c; apply category_keys_In|].
  split; [reflexivity|]. split; [reflexivity|]. split.
  { rewrite Forall_map. apply Forall_forall. intros c Hc. cbn [snd].
    unfold keys in Hc. apply (proj1 (category_keys_In _ _)) in Hc.
    apply in_map_iff in Hc.
    destruct Hc as [r [E Hr]].
    assert (In r (filter (fun r0 => String.eqb (Pd.Category r0) c) expenses)).
    { apply filter_In. split; [exact Hr|]. rewrite E. apply String.eqb_refl. }
    destruct (filter _ expenses); [contradiction|].
    rewrite len_cons. pose proof (len_nonneg _ l). lia. }
  split; [apply groupby_count_total; assumption|].
  split.
  { intros ->. split; reflexivity. }
  intros Hne.
  assert (Ha : map Pd.Abs_Amount expenses <> []).
  { destruct expenses; [congruence | discriminate]. }
  split.
  { unfold mean_or_nan. destruct (map Pd.Abs_Amount expenses);
      [congruence | discriminate]. }
  exists (Pd.series_max (map Pd.Abs_Amount expenses)).
  split.
  { unfold max_or_nan. destruct (map Pd.Abs_Amount expenses);
      [congruence | reflexivity]. }
  split; [apply series_max_In, Ha|].
  apply Forall_forall. intros r Hr. apply series_max_ge, in_map, Hr.
Qed.

End Summary.

(* ================================================================== *)
(** * The further theorems at the samples *)
(* ================================================================== *)

Section AtMoreSamples.

Import OverspendingAnalyzer OverspendingFacts.

Lemma overspending_severity_buckets_witness :
  severity MoreSamples.first_critical = Some "Critical"
  <-> (200 <= percentage_used MoreSamples.first_critical)%Q.
Proof.
  apply (overspending_severity_buckets init Samples.four_critical
           MoreSamples.first_critical).
  vm_compute. left. reflexivity.
Defined.

Lemma alert_amounts_witness :
  percentage_used MoreSamples.first_within
  = (spent MoreSamples.first_within / budget MoreSamples.first_within * 100)%Q.
Proof.
  apply (alert_amounts init Samples.sample_data MoreSamples.first_within).
  - right. right. vm_compute. left. reflexivity.
  - vm_compute. reflexivity.
Defined.

Lemma recommendations_structure_witness :
  let r := analyze_daily_overspending init Samples.sample_data in
  recommendations r
  = (map overspending_recommendation (overspending_alerts r)
     ++ map warning_recommendation (warning_alerts r)
     ++ match within_budget r with
        | [] => []
        | x :: l => [best_recommendation (min_by_percentage x l)]
        end)%list
  /\ (forall x l,
         within_budget r = x :: l ->
         In (min_by_percentage x l) (within_budget r)
         /\ forall ca, In ca (within_budget r) ->
              (percentage_used (min_by_percentage x l)
               <= percentage_used ca)%Q).
Proof.
  refine (recommendations_structure init Samples.sample_data _).
  discriminate.
Defined.

Lemma no_alerts_full_score_witness :
  spending_score (analyze_daily_overspending init MoreSamples.one_coffee) = 100
  /\ risk_level (analyze_daily_overspending init MoreSamples.one_coffee)
     = "Excellent".
Proof.
  apply (no_alerts_full_score init MoreSamples.one_coffee).
  - discriminate.
  - vm_compute. reflexivity.
  - vm_compute. reflexivity.
Defined.

End AtMoreSamples.

Section AtMoreRiskSamples.

Import RiskOfficerAnalysis.

Lemma severity_score_range_witness :
  0 <= severity_score
         (assess_financial_risks init Samples.sample_data MoreSamples.no_results)
    <= 100.
Proof.
  apply (severity_score_range init Samples.sample_data MoreSamples.no_results).
  vm_compute. discriminate.
Defined.

Lemma concentration_at_least_moderate_witness :
  60 <= severity_score
          (assess_financial_risks init Samples.sample_data
             MoreSamples.no_results)
  /\ (risk_level (assess_financial_risks init Samples.sample_data
                    MoreSamples.no_results) = "High Risk"
      \/ risk_level (assess_financial_risks init Samples.sample_data
                       MoreSamples.no_results) = "Moderate Risk").
Proof.
  apply (concentration_at_least_moderate init Samples.sample_data
           MoreSamples.no_results).
  - vm_compute. discriminate.
  - vm_compute. reflexivity.
Defined.

Lemma liquidity_risk_of_week_witness :
  80 <= severity
          (_assess_liquidity_risk init
             (DailyWorkflowAnalyzer.analysis_results []
                MoreSamples.overspent_week)).
Proof.
  apply (liquidity_risk_of_week init [] MoreSamples.overspent_week).
  - discriminate.
  - vm_compute. reflexivity.
  - vm_compute. reflexivity.
Defined.

Lemma overspent_income_high_risk_witness :
  risk_level
    (assess_financial_risks init MoreSamples.overspent_week
       (DailyWorkflowAnalyzer.analysis_results [] MoreSamples.overspent_week))
  = "High Risk".
Proof.
  apply (overspent_income_high_risk init MoreSamples.overspent_week []
           MoreSamples.overspent_week).
  - vm_compute. reflexivity.
  - vm_compute. reflexivity.
Defined.

Lemma night_hours_flagged_witness :
  is_risk (_assess_behavioral_patterns init Samples.sample_data) = true.
Proof.
  apply (night_hours_flagged init Samples.sample_data).
  - vm_compute. discriminate.
  - change (Pd.expenses_of Samples.sample_data) with Samples.sample_data.
    unfold Samples.sample_data.
    repeat (apply Forall_cons; [left; vm_compute; discriminate|]).
    apply Forall_nil.
Defined.

End AtMoreRiskSamples.

Section AtMoreGrowthSamples.

Import GrowthStrategistAnalysis GrowthStrategist.

Lemma efficiency_opportunities_bounded_witness :
  Py.len (_identify_efficiency_improvements Samples.sample_data) <= 3.
Proof.
  apply (efficiency_opportunities_bounded Samples.sample_data).
  repeat (apply Forall_cons; [vm_compute; intros H; discriminate H|]).
  apply Forall_nil.
Defined.

End AtMoreGrowthSamples.

Section AtTheUnusualSamples.

Import UnusualTransactions.

Lemma few_expenses_never_unusually_high_witness :
  Forall (fun u => ~ In "UNUSUALLY_HIGH_AMOUNT" (flags u)
                   /\ severity u = "Medium")
         (detect_unusual_transactions Samples.sample_data).
Proof.
  apply (few_expenses_never_unusually_high Samples.sample_data).
  vm_compute. discriminate.
Defined.

(** The dates of the cells of the examples are at midnight. *)
Lemma sheet_dates_midnight : forall s d,
  Sheet.to_datetime s = Some d -> Pd.hour d = 0.
Proof.
  intros s d. unfold Sheet.to_datetime.
  destruct (_ && _ && _); [|discriminate].
  destruct (Sheet.natural (substring 0 4 s)); [|discriminate].
  destruct (Sheet.natural (substring 5 2 s)); [|discriminate].
  destruct (Sheet.natural (substring 8 2 s)); [|discriminate].
  destruct (_ && _ && _ && _); [|discriminate].
  intros H. injection H as <-. reflexivity.
Qed.

Lemma date_only_sheet_late_night_witness :
  RiskOfficerAnalysis.is_risk
    (RiskOfficerAnalysis._assess_behavioral_patterns RiskOfficerAnalysis.init
       (TransactionRetriever.process_transactions Sheet.to_datetime
          Sheet.to_numeric Samples.sheet))
  = true.
Proof.
  apply (date_only_sheet_late_night Sheet.to_datetime Sheet.to_numeric
           RiskOfficerAnalysis.init Samples.sheet).
  - exact sheet_dates_midnight.
  - vm_compute. discriminate.
Defined.

End AtTheUnusualSamples.
